(** * Subversion webhook pipeline: a shallow embedding of
      [biz/subversion/create_webhook.py] and [biz/subversion/webhook_handler.py].

    Python [str] values are modelled as [string], i.e. sequences of 8-bit
    characters read as the code points 0..255; [str.lower], [str.isspace]
    and the regular-expression class [\s] are the Python ones restricted to
    that range.  The Subversion client, the XML parser, the clock and the
    environment are parameters of the development; calls to the logger
    have no effect on any result and are left out. *)

From Stdlib Require Import String Ascii List ZArith Bool Lia DecimalString.
Import ListNotations.
Local Open Scope list_scope.
Local Open Scope string_scope.

(** ** Python string primitives *)

Module PyStr.

Definition LF : ascii := "010"%char.

Definition code (a : ascii) : nat := nat_of_ascii a.

Definition between (lo hi : nat) (a : ascii) : bool :=
  (lo <=? code a)%nat && (code a <=? hi)%nat.

(** [str.isspace] on one character (code points below 256). *)
Definition isspace (a : ascii) : bool :=
  between 9 13 a || between 28 32 a
  || (code a =? 133)%nat || (code a =? 160)%nat.

(** [str.lower] on one character (code points below 256). *)
Definition lower_char (a : ascii) : ascii :=
  if between 65 90 a || (between 192 222 a && negb (code a =? 215)%nat)
  then ascii_of_nat (code a + 32) else a.

Fixpoint lower (s : string) : string :=
  match s with
  | EmptyString => EmptyString
  | String a s' => String (lower_char a) (lower s')
  end.

(** Truth value of a string: [bool(s)]. *)
Definition truthy (s : string) : bool :=
  match s with EmptyString => false | String _ _ => true end.

Definition startswith (s p : string) : bool := prefix p s.

Fixpoint drop (n : nat) (s : string) : string :=
  match n, s with
  | O, _ => s
  | S _, EmptyString => EmptyString
  | S n', String _ s' => drop n' s'
  end.

Definition endswith (s suf : string) : bool :=
  (String.length suf <=? String.length s)%nat
  && (drop (String.length s - String.length suf) s =? suf).

(** [needle in s]. *)
Fixpoint contains (needle s : string) : bool :=
  prefix needle s
  || match s with
     | EmptyString => false
     | String _ s' => contains needle s'
     end.

(** [s.split(c)] for a one-character separator. *)
Fixpoint split (c : ascii) (s : string) : list string :=
  match s with
  | EmptyString => [EmptyString]
  | String a s' =>
      if Ascii.eqb a c then EmptyString :: split c s'
      else match split c s' with
           | [] => [String a EmptyString]
           | h :: t => String a h :: t
           end
  end.

(** [sep.join(l)]. *)
Fixpoint join (sep : string) (l : list string) : string :=
  match l with
  | [] => EmptyString
  | [x] => x
  | x :: t => x ++ sep ++ join sep t
  end.

Fixpoint lstrip_by (p : ascii -> bool) (s : string) : string :=
  match s with
  | EmptyString => EmptyString
  | String a s' => if p a then lstrip_by p s' else s
  end.

Fixpoint rstrip_by (p : ascii -> bool) (s : string) : string :=
  match s with
  | EmptyString => EmptyString
  | String a s' =>
      match rstrip_by p s' with
      | EmptyString => if p a then EmptyString else String a EmptyString
      | r => String a r
      end
  end.

Definition strip_by (p : ascii -> bool) (s : string) : string :=
  rstrip_by p (lstrip_by p s).

(** [s.strip()]. *)
Definition strip (s : string) : string := strip_by isspace s.

(** [s.strip(c)] for a one-character argument. *)
Definition strip_char (c : ascii) (s : string) : string :=
  strip_by (Ascii.eqb c) s.

(** [s.split()]: the maximal runs of non-whitespace characters. *)
Fixpoint split_ws (s : string) : list string :=
  match s with
  | EmptyString => []
  | String a s' =>
      if isspace a then split_ws s'
      else match s' with
           | EmptyString => [String a EmptyString]
           | String b _ =>
               if isspace b then String a EmptyString :: split_ws s'
               else match split_ws s' with
                    | [] => [String a EmptyString]
                    | h :: t => String a h :: t
                    end
           end
  end.

(** [s.replace(a, b)] for one-character arguments. *)
Fixpoint replace_char (a b : ascii) (s : string) : string :=
  match s with
  | EmptyString => EmptyString
  | String c s' =>
      String (if Ascii.eqb c a then b else c) (replace_char a b s')
  end.

(** [s[:-1]]. *)
Fixpoint drop_last (s : string) : string :=
  match s with
  | EmptyString => EmptyString
  | String _ EmptyString => EmptyString
  | String a s' => String a (drop_last s')
  end.

(** [int(s)]: optional surrounding whitespace, an optional sign, then
    decimal digits in groups separated by single underscores; [None]
    stands for [ValueError]. *)
Definition isdigit (a : ascii) : bool := between 48 57 a.

Definition digit_val (a : ascii) : Z := Z.of_nat (code a - 48).

Fixpoint digits_from (acc : Z) (prev_digit : bool) (s : string) : option Z :=
  match s with
  | EmptyString => if prev_digit then Some acc else None
  | String a s' =>
      if isdigit a then digits_from (10 * acc + digit_val a) true s'
      else if Ascii.eqb a "_" && prev_digit then
        match s' with
        | String b _ => if isdigit b then digits_from acc false s' else None
        | EmptyString => None
        end
      else None
  end.

Definition int (s : string) : option Z :=
  match strip s with
  | String "+" r => digits_from 0 false r
  | String "-" r => option_map Z.opp (digits_from 0 false r)
  | r => digits_from 0 false r
  end.

(** [str(n)] for an integer. *)
Definition str (n : Z) : string := NilZero.string_of_int (Z.to_int n).

End PyStr.

(** ** Data model of [create_webhook.py] *)

Inductive SVNFileAction : Type := ADDED | DELETED | MODIFIED | REPLACED.

Definition action_value (a : SVNFileAction) : string :=
  match a with
  | ADDED => "A"
  | DELETED => "D"
  | MODIFIED => "M"
  | REPLACED => "R"
  end.

(** [SVNFileAction(action_str)]; [None] stands for [ValueError]. *)
Definition SVNFileAction_of (action_str : string) : option SVNFileAction :=
  if action_str =? "A" then Some ADDED
  else if action_str =? "D" then Some DELETED
  else if action_str =? "M" then Some MODIFIED
  else if action_str =? "R" then Some REPLACED
  else None.

Definition action_eqb (a b : SVNFileAction) : bool :=
  match a, b with
  | ADDED, ADDED | DELETED, DELETED
  | MODIFIED, MODIFIED | REPLACED, REPLACED => true
  | _, _ => false
  end.

Record SVNFileChange : Type := mkFileChange {
  path : string;
  action : SVNFileAction;
  diff_content : option string;
  old_revision : option string;
  new_revision : option string;
  lines_added : Z;
  lines_deleted : Z;
  is_binary : bool
}.

Record SVNRepoInfo : Type := mkRepoInfo {
  uuid : string;
  url : string;
  relative_url : string;
  root_url : string;
  revision : string
}.

Record SVNWorkingCopyChanges : Type := mkWorkingCopyChanges {
  wc_changed_files : list SVNFileChange;
  wc_repo_uuid : string;
  base_revision : string
}.

Record Result : Type := mkResult {
  returncode : Z;
  stdout : string;
  stderr : string
}.

Definition success (r : Result) : bool := (returncode r =? 0)%Z.

(** Truth value of an optional string: [None] and [""] are false. *)
Definition truthy_opt (o : option string) : bool :=
  match o with
  | Some s => PyStr.truthy s
  | None => false
  end.

(** The string held by an optional string that is present. *)
Definition given (o : option string) : string :=
  match o with
  | Some s => s
  | None => ""
  end.

(** ** [DiffFormatter] *)

Module DiffFormatter.
Import PyStr.

(** The tail [\s+\(] of both header patterns, anchored. *)
Fixpoint ws_then_paren (s : string) : bool :=
  match s with
  | EmptyString => false
  | String a s' => if isspace a then ws_then_paren s' else Ascii.eqb a "("
  end.

Definition tail_matches (s : string) : bool :=
  match s with
  | EmptyString => false
  | String a s' => isspace a && ws_then_paren s'
  end.

(** The lazy group [(.+?)] followed by [\s+\(]: the shortest non-empty
    prefix without a line feed after which the tail matches. *)
Fixpoint lazy_group (s : string) : option string :=
  match s with
  | EmptyString => None
  | String a s' =>
      if Ascii.eqb a LF then None
      else if tail_matches s' then Some (String a EmptyString)
      else option_map (String a) (lazy_group s')
  end.

(** [\s+(.+?)\s+\(] anchored: the greedy whitespace run is tried at its
    longest first and shortened on failure. *)
Fixpoint after_marker (s : string) : option string :=
  match s with
  | EmptyString => None
  | String a s' =>
      if isspace a then
        match after_marker s' with
        | Some g => Some g
        | None => lazy_group s'
        end
      else None
  end.

(** [re.search(marker + r'\s+(.+?)\s+\(', line)] for a three-character
    literal [marker]: group 1 of the leftmost match. *)
Fixpoint search_header (marker line : string) : option string :=
  let here :=
    if prefix marker line then after_marker (drop 3 line) else None in
  match here with
  | Some g => Some g
  | None =>
      match line with
      | EmptyString => None
      | String _ rest => search_header marker rest
      end
  end.

Definition header_line (marker side : string) (file_path : option string)
    (line : string) : string :=
  if truthy_opt file_path then
    marker ++ " " ++ side ++ "/" ++ given file_path
  else
    match search_header marker line with
    | Some g => marker ++ " " ++ side ++ "/" ++ replace_char "\" "/" g
    | None => line
    end.

(** The loop of [format_to_github_style]: [in_diff_content] is the flag,
    the result is [formatted_lines] in order. *)
Fixpoint format_lines (file_path : option string) (in_diff_content : bool)
    (lines : list string) : list string :=
  match lines with
  | [] => []
  | line :: rest =>
      if startswith line "Index:" then
        format_lines file_path in_diff_content rest
      else if startswith line "=====" then
        format_lines file_path in_diff_content rest
      else if startswith line "---" then
        header_line "---" "a" file_path line
          :: format_lines file_path true rest
      else if startswith line "+++" then
        header_line "+++" "b" file_path line
          :: format_lines file_path in_diff_content rest
      else if in_diff_content then
        line :: format_lines file_path in_diff_content rest
      else format_lines file_path in_diff_content rest
  end.

Definition format_to_github_style (svn_diff : string)
    (file_path : option string) : string :=
  if negb (truthy svn_diff) || negb (truthy (strip svn_diff)) then ""
  else join (String LF "") (format_lines file_path false (split LF svn_diff)).

Fixpoint count_lines (lines : list string) (lines_added lines_deleted : Z)
    : Z * Z :=
  match lines with
  | [] => (lines_added, lines_deleted)
  | line :: rest =>
      if startswith line "+" && negb (startswith line "+++") then
        count_lines rest (lines_added + 1)%Z lines_deleted
      else if startswith line "-" && negb (startswith line "---") then
        count_lines rest lines_added (lines_deleted + 1)%Z
      else count_lines rest lines_added lines_deleted
  end.

Definition extract_diff_stats (diff_content : string) : Z * Z :=
  if negb (truthy diff_content) then (0, 0)%Z
  else count_lines (split LF diff_content) 0%Z 0%Z.

(** The list literal of [is_binary_diff]: its two string literals are
    adjacent with no comma between them, so Python joins them into one
    element. *)
Definition binary_indicators : list string :=
  [ "Cannot display: file marked as a binary type."
    ++ "svn:mime-type = application/octet-stream" ].

Definition is_binary_diff (diff_content : string) : bool :=
  if negb (truthy diff_content) then false
  else
    let content_lower := lower diff_content in
    existsb (fun indicator => contains (lower indicator) content_lower)
            binary_indicators.

End DiffFormatter.

(** ** Python values carried by webhook payloads

    The values a decoded JSON document can hold; numbers are integers.
    A [dict] is kept as its items in insertion order and is read with
    [dict_get], which returns the first item under a key. *)

#[local] Set Warnings "-register-all".

Inductive json : Type :=
| JNull
| JBool (b : bool)
| JInt (z : Z)
| JStr (s : string)
| JList (l : list json)
| JDict (d : list (string * json)).

Definition dict : Type := list (string * json).

Fixpoint dict_get (d : dict) (k : string) : option json :=
  match d with
  | [] => None
  | (k', v) :: rest => if k' =? k then Some v else dict_get rest k
  end.

(** [d.get(k, default)]. *)
Definition dict_get_default (d : dict) (k : string) (default : json) : json :=
  match dict_get d k with
  | Some v => v
  | None => default
  end.

Definition keys (d : dict) : list string := map fst d.

(** Truth value of a Python value. *)
Definition json_truthy (v : json) : bool :=
  match v with
  | JNull => false
  | JBool b => b
  | JInt z => negb (z =? 0)%Z
  | JStr s => PyStr.truthy s
  | JList l => match l with [] => false | _ => true end
  | JDict d => match d with [] => false | _ => true end
  end.

(** [v == s] for a string [s]: only an equal string is equal to it. *)
Definition json_eq_str (v : json) (s : string) : bool :=
  match v with
  | JStr s' => s' =? s
  | _ => false
  end.

Definition json_of_opt (o : option string) : json :=
  match o with
  | Some s => JStr s
  | None => JNull
  end.

(** ** [webhook_handler.py] *)

Module WebhookHandler.
Import PyStr.

Definition default_extensions : string := ".java,.py,.php".

(** [os.getenv('SUPPORTED_EXTENSIONS', '.java,.py,.php').split(',')];
    the argument is the value of the environment variable, if set. *)
Definition supported_extensions (env : option string) : list string :=
  split "," (match env with Some v => v | None => default_extensions end).

(** [any(v.endswith(ext) for ext in exts)]; [None] stands for the
    [AttributeError] raised when [v] is not a string. *)
Fixpoint any_endswith (v : json) (exts : list string) : option bool :=
  match exts with
  | [] => Some false
  | ext :: rest =>
      match v with
      | JStr s => if endswith s ext then Some true else any_endswith v rest
      | _ => None
      end
  end.

(** The dictionary display of the second comprehension; [None] stands
    for the [KeyError] of [item['new_path']]. *)
Definition keep_fields (item : dict) : option dict :=
  match dict_get item "new_path" with
  | None => None
  | Some new_path =>
      Some [ ("diff", dict_get_default item "diff" (JStr ""));
             ("new_path", new_path);
             ("old_path", dict_get_default item "old_path" new_path);
             ("additions", dict_get_default item "additions" (JInt 0));
             ("deletions", dict_get_default item "deletions" (JInt 0));
             ("action", dict_get_default item "action" (JStr "M"));
             ("is_binary", dict_get_default item "is_binary" (JBool false));
             ("old_revision", dict_get_default item "old_revision" JNull);
             ("new_revision", dict_get_default item "new_revision" JNull) ]
  end.

Definition not_deleted (change : dict) : bool :=
  negb (json_eq_str (dict_get_default change "action" JNull) "D").

Fixpoint select_fields (exts : list string) (items : list dict)
    : option (list dict) :=
  match items with
  | [] => Some []
  | item :: rest =>
      match any_endswith (dict_get_default item "new_path" (JStr "")) exts with
      | None => None
      | Some true =>
          match keep_fields item with
          | None => None
          | Some d => option_map (cons d) (select_fields exts rest)
          end
      | Some false => select_fields exts rest
      end
  end.

(** [filter_changes(changes)]; [None] stands for a raised exception. *)
Definition filter_changes (env : option string) (changes : list dict)
    : option (list dict) :=
  let supported := supported_extensions env in
  let filter_deleted_files_changes := filter not_deleted changes in
  select_fields supported filter_deleted_files_changes.

(** [re.sub('^' + p, '', s)] for a literal [p]. *)
Definition strip_prefix (p s : string) : string :=
  if prefix p s then drop (String.length p) s else s.

(** [re.sub(r'^https?://', '', s)]. *)
Definition strip_http (s : string) : string :=
  if prefix "https://" s then drop 8 s
  else if prefix "http://" s then drop 7 s
  else s.

Definition alnum (a : ascii) : bool :=
  between 97 122 a || between 65 90 a || between 48 57 a.

(** [re.sub(r'[^a-zA-Z0-9]', '_', s)]. *)
Fixpoint underscore_non_alnum (s : string) : string :=
  match s with
  | EmptyString => EmptyString
  | String a s' =>
      String (if alnum a then a else "_"%char) (underscore_non_alnum s')
  end.

Definition slugify_url (original_url : string) : string :=
  let original_url := strip_http original_url in
  let original_url := strip_prefix "file://" original_url in
  let original_url := strip_prefix "svn://" original_url in
  let target := underscore_non_alnum original_url in
  strip_char "_" target.

Record SVNCommitHandler : Type := mkHandler {
  webhook_data : dict;
  event_type : json;
  repository_info : json;
  commit_info : json;
  changes_data : json
}.

(** [v[0]]; [None] stands for the exception raised when [v] has no
    element 0. *)
Definition item0 (v : json) : option json :=
  match v with
  | JList (x :: _) => Some x
  | JStr (String a _) => Some (JStr (String a ""))
  | JDict d => None
  | _ => None
  end.

Definition has_get (v : json) : bool :=
  match v with JDict _ => true | _ => false end.

Definition has_len (v : json) : bool :=
  match v with JStr _ | JList _ | JDict _ => true | _ => false end.

(** [SVNCommitHandler(webhook_data)]: the constructor runs
    [parse_event_data]; [None] stands for an exception raised there. *)
Definition parse_event_data (data : dict) : option SVNCommitHandler :=
  let event_type := dict_get_default data "event_type" JNull in
  let repository_info := dict_get_default data "repository" (JDict []) in
  let commits := dict_get_default data "commits" (JList []) in
  match (if json_truthy commits then item0 commits else Some JNull) with
  | None => None
  | Some commit_info =>
      let changes_data := dict_get_default data "changes" (JList []) in
      if has_get repository_info && has_len changes_data then
        Some (mkHandler data event_type repository_info commit_info
                        changes_data)
      else None
  end.

Definition valid_event (event_type : json) : bool :=
  json_eq_str event_type "Post-Commit" || json_eq_str event_type "Pre-Commit".

Definition get_commit_changes (self : SVNCommitHandler) : json :=
  if negb (valid_event (event_type self)) then JList []
  else if negb (json_truthy (changes_data self)) then JList []
  else changes_data self.

End WebhookHandler.

(** ** XML elements as [xml.etree.ElementTree] exposes them *)

Inductive Element : Type :=
| Elem (tag : string) (attrib : list (string * string))
       (text : option string) (children : list Element).

Module ET.

Definition tag (e : Element) : string :=
  match e with Elem t _ _ _ => t end.
Definition attrib (e : Element) : list (string * string) :=
  match e with Elem _ a _ _ => a end.
Definition text (e : Element) : option string :=
  match e with Elem _ _ x _ => x end.
Definition children (e : Element) : list Element :=
  match e with Elem _ _ _ c => c end.

(** [attrib[k]], [None] standing for [KeyError]. *)
Fixpoint attrib_get (a : list (string * string)) (k : string)
    : option string :=
  match a with
  | [] => None
  | (k', v) :: rest => if k' =? k then Some v else attrib_get rest k
  end.

Definition children_tagged (t : string) (e : Element) : list Element :=
  filter (fun c => tag c =? t) (children e).

(** [e.findall('t1/t2/.../tn')], the path given as its list of tags:
    the matching descendants in document order. *)
Fixpoint findall_from (es : list Element) (path : list string)
    : list Element :=
  match path with
  | [] => es
  | t :: rest => findall_from (flat_map (children_tagged t) es) rest
  end.

Definition findall (e : Element) (path : list string) : list Element :=
  findall_from [e] path.

(** [e.find(path)]: the first match, if any. *)
Definition find (e : Element) (path : list string) : option Element :=
  hd_error (findall e path).

End ET.

Record SVNCommitInfo (datetime : Type) : Type := mkCommitInfo {
  ci_revision : string;
  author : string;
  date : datetime;
  message : string;
  changed_files : list SVNFileChange;
  repo_uuid : string
}.

Arguments mkCommitInfo {datetime}.
Arguments ci_revision {datetime}.
Arguments author {datetime}.
Arguments date {datetime}.
Arguments message {datetime}.
Arguments changed_files {datetime}.
Arguments repo_uuid {datetime}.

(** ** [SubversionWebhook]

    [World] is everything outside the process: the repository, the file
    system and the clock.  [run w cwd argv] is [subprocess.run] on the
    client, [fromstring] is [ET.fromstring], [strptime_utc s fmt] is
    [datetime.strptime(s, fmt).replace(tzinfo=utc)], [urlparse] gives the
    [netloc] and [path] of a URL, [svn_author] is what
    [_extract_svn_author] reads from the user's configuration; an absent
    result stands for a raised exception (for [svn_author], for the
    [None] the method returns when nothing matches). *)

Record St (World : Type) : Type := mkSt {
  world : World;
  abspath : string;
  issued : list (list string)
}.

Arguments mkSt {World}.
Arguments world {World}.
Arguments abspath {World}.
Arguments issued {World}.

(** Computations on the state of a [SubversionWebhook] object; the result
    [None] is an exception on its way up. *)
Definition M (World A : Type) : Type := St World -> St World * option A.

Definition ret {World A : Type} (a : A) : M World A :=
  fun st => (st, Some a).

Definition raise {World A : Type} : M World A :=
  fun st => (st, None).

Definition bind {World A B : Type} (m : M World A) (k : A -> M World B)
    : M World B :=
  fun st =>
    match m st with
    | (st', Some a) => k a st'
    | (st', None) => (st', None)
    end.

(** [try: m  except Exception: return fallback]. *)
Definition catch {World A : Type} (m : M World A) (fallback : A) : M World A :=
  fun st =>
    match m st with
    | (st', Some a) => (st', Some a)
    | (st', None) => (st', Some fallback)
    end.

(** An optional value whose absence raises. *)
Definition lift {World A : Type} (o : option A) : M World A :=
  match o with
  | Some a => ret a
  | None => raise
  end.

Notation "x <- m ;; k" := (bind m (fun x => k))
  (at level 61, m at next level, right associativity).
Notation "' pat <- m ;; k" := (bind m (fun x => match x with pat => k end))
  (at level 61, pat pattern, m at next level, right associativity).

Record Env : Type := mkEnv {
  World : Type;
  datetime : Type;
  run : World -> string -> list string -> World * option Result;
  fromstring : string -> option Element;
  strptime_utc : string -> string -> option datetime;
  now : World -> datetime;
  isoformat : datetime -> string;
  urlparse : string -> option (string * string);
  svn_author : World -> option (option string)
}.

Module SubversionWebhook.
Import PyStr.

Definition PostCommitEvent : string := "Post-Commit".
Definition PreCommitEvent : string := "Pre-Commit".

Section Methods.

Context (E : Env).

#[local] Abbreviation W := (World E).
#[local] Abbreviation CommitInfo := (SVNCommitInfo (datetime E)).

Definition _build_svn_command (command : list string) : list string :=
  "svn" :: command.

(** [svn_command]: the client runs in [self.abspath]; the arguments it
    was called with are appended to [issued]. *)
Definition svn_command (command : list string) : M W Result :=
  fun st =>
    let full_command := _build_svn_command command in
    let (w', r) := run E (world st) (abspath st) full_command in
    (mkSt w' (abspath st) (issued st ++ [command])%list, r).

Definition set_abspath (p : string) : M W unit :=
  fun st => (mkSt (world st) p (issued st), Some tt).

Definition get_world : M W W :=
  fun st => (st, Some (world st)).

(** [root.find(path).text]: raises when nothing is found. *)
Definition find_text (root : Element) (path : list string)
    : M W (option string) :=
  e <- lift (ET.find root path) ;; ret (ET.text e).

Definition get_repo_info : M W (option SVNRepoInfo) :=
  catch
    (result <- svn_command ["info"; "--xml"] ;;
     if negb (success result) then ret None
     else
       root <- lift (fromstring E (stdout result)) ;;
       uuid <- find_text root ["entry"; "repository"; "uuid"] ;;
       url <- find_text root ["entry"; "url"] ;;
       relative <- find_text root ["entry"; "relative-url"] ;;
       root_url <- find_text root ["entry"; "repository"; "root"] ;;
       commit <- lift (ET.find root ["entry"; "commit"]) ;;
       revision <- lift (ET.attrib_get (ET.attrib commit) "revision") ;;
       wcroot <- find_text root ["entry"; "wc-info"; "wcroot-abspath"] ;;
       wcroot <- lift wcroot ;;
       _ <- set_abspath wcroot ;;
       uuid <- lift uuid ;;
       url <- lift url ;;
       relative <- lift relative ;;
       root_url <- lift root_url ;;
       ret (Some (mkRepoInfo uuid url relative root_url revision)))
    None.

(** The arguments of the [diff] command of [get_file_diff]. *)
Definition diff_cmd (file_path : string)
    (old_revision new_revision : option string) : list string :=
  let revs :=
    if truthy_opt old_revision && truthy_opt new_revision then
      ["-r"; given old_revision ++ ":" ++ given new_revision]
    else if truthy_opt old_revision then ["-r"; given old_revision]
    else [] in
  ("diff" :: revs ++ [file_path])%list.

Definition get_file_diff (file_path : string)
    (old_revision new_revision : option string) (format_style : string)
    : M W (option string * Z * Z * bool) :=
  catch
    (diff_result <- svn_command (diff_cmd file_path old_revision new_revision) ;;
     if negb (success diff_result) then ret (None, 0%Z, 0%Z, false)
     else
       let diff_content := stdout diff_result in
       let is_binary := DiffFormatter.is_binary_diff diff_content in
       if is_binary then ret (Some diff_content, 0%Z, 0%Z, true)
       else
         let formatted_diff :=
           if format_style =? "github" then
             DiffFormatter.format_to_github_style diff_content (Some file_path)
           else diff_content in
         let '(lines_added, lines_deleted) :=
           DiffFormatter.extract_diff_stats diff_content in
         ret (Some formatted_diff, lines_added, lines_deleted, false))
    (None, 0%Z, 0%Z, false).

(** One working-copy record: base revision to ["working copy"]. *)
Definition working_copy_change (file_path : string) (action : SVNFileAction)
    (repo_info : SVNRepoInfo) (format_style : string)
    : M W SVNFileChange :=
  '(diff_content, lines_added, lines_deleted, is_binary) <-
    get_file_diff file_path None None format_style ;;
  ret (mkFileChange file_path action diff_content
         (Some (revision repo_info)) (Some "working copy")
         lines_added lines_deleted is_binary).

Definition _process_single_file_change (file_path : string)
    (repo_info : SVNRepoInfo) (format_style : string)
    : M W (option SVNFileChange) :=
  catch
    (status_result <- svn_command ["diff"; "--summarize"; file_path] ;;
     if negb (success status_result) then ret None
     else
       let stdout_lines := split LF (strip (stdout status_result)) in
       match stdout_lines with
       | [] => ret None
       | line :: _ =>
           if negb (truthy (strip line)) then ret None
           else
             match split_ws line with
             | action_str :: _ :: _ =>
                 match SVNFileAction_of action_str with
                 | None => ret None
                 | Some action =>
                     fc <- working_copy_change file_path action
                             repo_info format_style ;;
                     ret (Some fc)
                 end
             | _ => ret None
             end
       end)
    None.

(** The loop over [commit_files] of the first branch. *)
Fixpoint explicit_files (commit_files : list string)
    (repo_info : SVNRepoInfo) (format_style : string)
    : M W (list SVNFileChange) :=
  match commit_files with
  | [] => ret []
  | file_path :: rest =>
      file_change <- _process_single_file_change file_path repo_info
                       format_style ;;
      changed <- explicit_files rest repo_info format_style ;;
      ret (match file_change with
           | Some fc => fc :: changed
           | None => changed
           end)
  end.

(** The loop over the lines of [svn diff --summarize]. *)
Fixpoint summarized_lines (lines : list string) (repo_info : SVNRepoInfo)
    (format_style : string) : M W (list SVNFileChange) :=
  match lines with
  | [] => ret []
  | line :: rest =>
      if negb (truthy (strip line)) then
        summarized_lines rest repo_info format_style
      else
        match split_ws line with
        | action_str :: (p :: ps) as tail =>
            let file_path := join " " tail in
            match SVNFileAction_of action_str with
            | None => summarized_lines rest repo_info format_style
            | Some action =>
                fc <- working_copy_change file_path action repo_info
                        format_style ;;
                changed <- summarized_lines rest repo_info format_style ;;
                ret (fc :: changed)
            end
        | _ => summarized_lines rest repo_info format_style
        end
  end.

Definition get_working_copy_changes (commit_files : option (list string))
    (format_style : string) : M W (option SVNWorkingCopyChanges) :=
  catch
    (repo_info <- get_repo_info ;;
     match repo_info with
     | None => ret None
     | Some repo_info =>
         match commit_files with
         | Some files =>
             changed <- explicit_files files repo_info format_style ;;
             ret (Some (mkWorkingCopyChanges changed (uuid repo_info)
                          (revision repo_info)))
         | None =>
             status_result <- svn_command ["diff"; "--summarize"] ;;
             if negb (success status_result) then ret None
             else
               changed <- summarized_lines
                            (split LF (strip (stdout status_result)))
                            repo_info format_style ;;
               ret (Some (mkWorkingCopyChanges changed (uuid repo_info)
                            (revision repo_info)))
         end
     end)
    None.

(** [SVNCommitInfo.parse_svn_date]; [w] is the world the clock is read
    in when the text does not parse. *)
Definition parse_svn_date (w : W) (date_str : string) : datetime E :=
  let date_str :=
    if endswith date_str "Z" then drop_last date_str else date_str in
  let fmt :=
    if contains "." date_str then "%Y-%m-%dT%H:%M:%S.%f"
    else "%Y-%m-%dT%H:%M:%S" in
  match strptime_utc E date_str fmt with
  | Some dt => dt
  | None => now E w
  end.

Definition revision_of (repo_info : option SVNRepoInfo) : option string :=
  option_map revision repo_info.

Definition root_url_of (repo_info : option SVNRepoInfo) : option string :=
  option_map root_url repo_info.

(** [str(int(revision) - 1)], raising when [revision] is no numeral. *)
Definition previous_revision (revision : string) : option string :=
  option_map (fun n => str (n - 1)) (int revision).

(** The loop over [paths.findall('path')] of [get_commit_info]. *)
Fixpoint commit_paths (repo_info : option SVNRepoInfo)
    (revision format_style : string) (paths : list Element)
    : M W (list SVNFileChange) :=
  match paths with
  | [] => ret []
  | path :: rest =>
      if truthy_opt (ET.text path) then
        action_str <- lift (ET.attrib_get (ET.attrib path) "action") ;;
        let file_path := given (ET.text path) in
        match SVNFileAction_of action_str with
        | None => commit_paths repo_info revision format_style rest
        | Some action =>
            old_revision <-
              (if negb (action_eqb action ADDED)
               then r <- lift (previous_revision revision) ;; ret (Some r)
               else ret None) ;;
            let new_revision :=
              if negb (action_eqb action DELETED) then Some revision
              else None in
            root <- lift (root_url_of repo_info) ;;
            '(diff_content, lines_added, lines_deleted, is_binary) <-
              get_file_diff (root ++ file_path) old_revision new_revision
                format_style ;;
            let file_change :=
              mkFileChange file_path action diff_content old_revision
                new_revision lines_added lines_deleted is_binary in
            changed <- commit_paths repo_info revision format_style rest ;;
            ret (file_change :: changed)
        end
      else commit_paths repo_info revision format_style rest
  end.

(** [e.find(t).text if e.find(t) is not None else default]. *)
Definition text_or (e : Element) (t default : string) : option string :=
  match ET.find e [t] with
  | Some c => ET.text c
  | None => Some default
  end.

Definition get_commit_info (revision format_style : string)
    : M W (option CommitInfo) :=
  catch
    (repo_info <- get_repo_info ;;
     let repo_uuid :=
       match repo_info with Some ri => uuid ri | None => "" end in
     target <- (if truthy revision then ret revision
                else lift (revision_of repo_info)) ;;
     log_result <- svn_command ["log"; "-v"; "-r"; target; "--xml"] ;;
     if negb (success log_result) then ret None
     else
       root <- lift (fromstring E (stdout log_result)) ;;
       match ET.find root ["logentry"] with
       | None => ret None
       | Some logentry =>
           date_text <- find_text logentry ["date"] ;;
           date_text <- lift date_text ;;
           w <- get_world ;;
           let date_str := parse_svn_date w date_text in
           let author := text_or logentry "author" "unknown" in
           let message := text_or logentry "msg" "" in
           changed_files <-
             match ET.find logentry ["paths"] with
             | Some paths =>
                 commit_paths repo_info revision format_style
                   (ET.findall paths ["path"])
             | None => ret []
             end ;;
           author <- lift author ;;
           message <- lift message ;;
           ret (Some (mkCommitInfo revision author date_str message
                        changed_files repo_uuid))
       end)
    None.

Definition _extract_svn_author (w : W) : json :=
  match svn_author E w with
  | Some (Some name) => JStr name
  | Some None => JNull
  | None => JStr "unknown"
  end.

Definition _extract_repo_name (repo_url : string) : string :=
  match urlparse E repo_url with
  | Some (netloc, path) =>
      let path_parts := split "/" (strip_char "/" path) in
      let last_part := last path_parts "" in
      if truthy last_part then last_part else replace_char "." "_" netloc
  | None => "unknown_repo"
  end.

Definition change_entry (file_change : SVNFileChange) : json :=
  JDict [ ("diff", JStr (given (diff_content file_change)));
          ("new_path", JStr (path file_change));
          ("old_path", JStr (path file_change));
          ("additions", JInt (lines_added file_change));
          ("deletions", JInt (lines_deleted file_change));
          ("action", JStr (action_value (action file_change)));
          ("is_binary", JBool (is_binary file_change));
          ("old_revision", json_of_opt (old_revision file_change));
          ("new_revision", json_of_opt (new_revision file_change)) ].

Definition iso_date (c : CommitInfo) : string := isoformat E (date c).

Definition commit_entry (repo_info : SVNRepoInfo) (c : CommitInfo) : json :=
  JDict [ ("id", JStr (ci_revision c));
          ("message", JStr (message c));
          ("author", JStr (author c));
          ("timestamp", JStr (iso_date c));
          ("created_at", JStr (iso_date c));
          ("url", JStr (url repo_info ++ "?r=" ++ ci_revision c)) ].

(** The payload once [repo_info] is known; [w] is the world the clock and
    the user's configuration are read in. *)
Definition payload_of (w : W) (event_type : string)
    (changes_data : option (list SVNFileChange))
    (commit_info : option CommitInfo) (commit_message : option string)
    (repo_info : SVNRepoInfo) : dict :=
  let repo_name := _extract_repo_name (url repo_info) in
  let changes :=
    match changes_data with
    | Some l => map change_entry l
    | None => []
    end in
  let commits :=
    match commit_info with
    | Some c => [commit_entry repo_info c]
    | None => []
    end in
  let event_fields :=
    if event_type =? PreCommitEvent then
      [ ("title", JStr "Pre-Commit validation");
        ("description", JStr "SVN pre-commit hook validation") ]
    else
      [ ("title",
         JStr (match commit_info with
               | Some c =>
                   if truthy (message c)
                   then hd "" (split LF (message c))
                   else "SVN commit"
               | None => "SVN commit"
               end));
        ("description",
         JStr (match commit_info with
               | Some c => message c
               | None => "SVN post-commit notification"
               end)) ] in
  [ ("event_type", JStr event_type);
    ("object_kind", JStr "svn_commit");
    ("repository",
     JDict [ ("uuid", JStr (uuid repo_info));
             ("url", JStr (url repo_info));
             ("name", JStr repo_name);
             ("description", JStr ("SVN Repository: " ++ repo_name));
             ("homepage", JStr (url repo_info)) ]);
    ("object_attributes",
     JDict ([ ("revision",
               JStr (match commit_info with
                     | Some c => ci_revision c
                     | None => revision repo_info
                     end));
              ("message",
               JStr (if truthy_opt commit_message then given commit_message
                     else ""));
              ("author",
               match commit_info with
               | Some c => JStr (author c)
               | None => _extract_svn_author w
               end);
              ("created_at",
               JStr (match commit_info with
                     | Some c => iso_date c
                     | None => isoformat E (now E w)
                     end));
              ("updated_at",
               match commit_info with
               | Some c => JStr (iso_date c)
               | None => JNull
               end);
              ("url",
               JStr (match commit_info with
                     | Some c => url repo_info ++ "?r=" ++ ci_revision c
                     | None => url repo_info
                     end));
              ("action", JStr event_type);
              ("target_branch", JStr "trunk");
              ("source_branch", JStr "trunk");
              ("state",
               JStr (if event_type =? PreCommitEvent then "opened"
                     else "merged")) ] ++ event_fields)%list);
    ("changes", JList changes);
    ("commits", JList commits);
    ("svn_info",
     JDict [ ("repository_uuid", JStr (uuid repo_info));
             ("repository_url", JStr (url repo_info));
             ("repository_root", JStr (root_url repo_info));
             ("revision",
              match commit_info with
              | Some c => JStr (ci_revision c)
              | None => JNull
              end);
             ("event_type", JStr event_type) ]) ].

Definition _build_svn_webhook_payload (event_type : string)
    (changes_data : option (list SVNFileChange))
    (commit_info : option CommitInfo) (commit_message : option string)
    (repo_info : option SVNRepoInfo) : M W dict :=
  match repo_info with
  | Some repo_info =>
      w <- get_world ;;
      ret (payload_of w event_type changes_data commit_info commit_message
             repo_info)
  | None =>
      repo_info <- get_repo_info ;;
      match repo_info with
      | None => ret []
      | Some repo_info =>
          w <- get_world ;;
          ret (payload_of w event_type changes_data commit_info
                 commit_message repo_info)
      end
  end.

End Methods.
End SubversionWebhook.

(** ** More of [create_webhook.py], [webhook_handler.py] and
       [review_entity.py] *)

(** [summary_stats] of [SVNWorkingCopyChanges] and of [SVNCommitInfo]:
    the two properties have the same body over [changed_files]. *)
Module Stats.

Definition count_where (p : SVNFileChange -> bool)
    (changed_files : list SVNFileChange) : Z :=
  Z.of_nat (List.length (filter p changed_files)).

Definition with_action (a : SVNFileAction) (f : SVNFileChange) : bool :=
  action_eqb (action f) a.

Definition total (field : SVNFileChange -> Z)
    (changed_files : list SVNFileChange) : Z :=
  fold_right (fun f acc => field f + acc)%Z 0%Z changed_files.

Definition summary_stats (changed_files : list SVNFileChange)
    : list (string * Z) :=
  [ ("total_files", Z.of_nat (List.length changed_files));
    ("added_files", count_where (with_action ADDED) changed_files);
    ("modified_files", count_where (with_action MODIFIED) changed_files);
    ("deleted_files", count_where (with_action DELETED) changed_files);
    ("replaced_files", count_where (with_action REPLACED) changed_files);
    ("total_lines_added", total lines_added changed_files);
    ("total_lines_deleted", total lines_deleted changed_files);
    ("binary_files", count_where is_binary changed_files) ].

Fixpoint stat (stats : list (string * Z)) (k : string) : option Z :=
  match stats with
  | [] => None
  | (k', v) :: rest => if k' =? k then Some v else stat rest k
  end.

End Stats.

(** The other readers of [SVNCommitHandler]; [None] stands for a raised
    exception, [JNull] for a returned [None]. *)
Module CommitHandler.
Import WebhookHandler.

Definition get_commit_info (self : SVNCommitHandler) : option json :=
  if negb (json_truthy (commit_info self)) then Some JNull
  else
    match commit_info self with
    | JDict c =>
        Some (JDict
          [ ("revision", dict_get_default c "id" JNull);
            ("message", dict_get_default c "message" (JStr ""));
            ("author", dict_get_default c "author" (JStr "unknown"));
            ("timestamp", dict_get_default c "timestamp" JNull);
            ("url", dict_get_default c "url" (JStr "")) ])
    | _ => None
    end.

Definition get_event_attributes (self : SVNCommitHandler) : option json :=
  let object_attributes :=
    dict_get_default (webhook_data self) "object_attributes" JNull in
  if negb (json_truthy object_attributes) then Some JNull
  else
    match object_attributes with
    | JDict a =>
        Some (JDict
          [ ("revision", dict_get_default a "revision" JNull);
            ("author", dict_get_default a "author" (JStr "unknown"));
            ("action", dict_get_default a "action" (JStr ""));
            ("state", dict_get_default a "state" (JStr "unknown"));
            ("timestamp",
             if json_truthy (dict_get_default a "created_at" JNull)
             then dict_get_default a "created_at" JNull
             else dict_get_default a "updated_at" JNull);
            ("message", dict_get_default a "message" (JStr ""));
            ("target_branch",
             dict_get_default a "target_branch" (JStr "trunk"));
            ("source_branch",
             dict_get_default a "source_branch" (JStr "trunk")) ])
    | _ => None
    end.

Definition get_repository_info (self : SVNCommitHandler) : option json :=
  if negb (json_truthy (repository_info self)) then Some JNull
  else
    match repository_info self with
    | JDict r =>
        Some (JDict
          [ ("uuid", dict_get_default r "uuid" JNull);
            ("name", dict_get_default r "name" JNull);
            ("url", dict_get_default r "url" JNull);
            ("homepage", dict_get_default r "homepage" (JStr "")) ])
    | _ => None
    end.

Definition is_pre_commit_event (self : SVNCommitHandler) : bool :=
  json_eq_str (event_type self) "Pre-Commit".

Definition is_post_commit_event (self : SVNCommitHandler) : bool :=
  json_eq_str (event_type self) "Post-Commit".

Definition get_svn_specific_info (self : SVNCommitHandler) : json :=
  dict_get_default (webhook_data self) "svn_info" (JDict []).

End CommitHandler.

(** [commit_messages] of [MergeRequestReviewEntity] and of
    [PushReviewEntity]: the two properties have the same body over
    [self.commits]; [None] stands for a raised exception. *)
Module ReviewEntity.

(** [commit["message"].strip()]. *)
Definition stripped_message (commit : json) : option string :=
  match commit with
  | JDict d =>
      match dict_get d "message" with
      | Some (JStr m) => Some (PyStr.strip m)
      | _ => None
      end
  | _ => None
  end.

Fixpoint stripped_messages (commits : list json) : option (list string) :=
  match commits with
  | [] => Some []
  | commit :: rest =>
      match stripped_message commit with
      | None => None
      | Some m => option_map (cons m) (stripped_messages rest)
      end
  end.

Definition commit_messages (commits : list json) : option string :=
  option_map (PyStr.join "; ") (stripped_messages commits).

End ReviewEntity.

(** [repo_info.revision], for the places where [revision] names an
    argument. *)
Definition SVNRepoInfo_revision (repo_info : SVNRepoInfo) : string :=
  revision repo_info.

(** The hooks.  [post w endpoint payload event] is the HTTP request of
    [send_webhook_async]: the status code of the response, or nothing
    when the request raised.  A run holds the object state and the
    requests made so far, each with its event type and payload. *)
Record Transport (E : Env) : Type := mkTransport {
  webhook_endpoint : string;
  post : World E -> string -> dict -> string -> World E * option Z
}.

Arguments webhook_endpoint {E}.
Arguments post {E}.

Record Run (W : Type) : Type := mkRun {
  obj : St W;
  posted : list (string * dict)
}.

Arguments mkRun {W}.
Arguments obj {W}.
Arguments posted {W}.

Module Hooks.
Import SubversionWebhook.

Section Methods.

Context (E : Env) (T : Transport E).

Definition accepted (status : Z) : bool :=
  (status =? 200)%Z || (status =? 201)%Z || (status =? 202)%Z.

(** [send_webhook], through [send_webhook_async]: one request; an
    exception anywhere gives [False]. *)
Definition send_webhook (payload : dict) (event_type : string)
    (r : Run (World E)) : Run (World E) * bool :=
  let (w', status) :=
    post T (world (obj r)) (webhook_endpoint T) payload event_type in
  (mkRun (mkSt w' (abspath (obj r)) (issued (obj r)))
         (posted r ++ [(event_type, payload)])%list,
   match status with
   | Some code => accepted code
   | None => false
   end).

(** Truth value of a dictionary. *)
Definition dict_truthy (d : dict) : bool :=
  match d with [] => false | _ => true end.

Definition create_pre_commit_hook (commit_files : option (list string))
    (commit_message : option string) (r : Run (World E))
    : Run (World E) * bool :=
  let (st1, changes_info) :=
    get_working_copy_changes E commit_files "github" (obj r) in
  match changes_info with
  | Some (Some changes_info) =>
      match wc_changed_files changes_info with
      | [] => (mkRun st1 (posted r), true)
      | _ :: _ =>
          let (st2, repo_info) := get_repo_info E st1 in
          match repo_info with
          | Some (Some repo_info) =>
              let (st3, payload) :=
                _build_svn_webhook_payload E PreCommitEvent
                  (Some (wc_changed_files changes_info)) None commit_message
                  (Some repo_info) st2 in
              match payload with
              | Some payload =>
                  if negb (dict_truthy payload)
                  then (mkRun st3 (posted r), false)
                  else send_webhook payload PreCommitEvent
                         (mkRun st3 (posted r))
              | None => (mkRun st3 (posted r), false)
              end
          | _ => (mkRun st2 (posted r), false)
          end
      end
  | _ => (mkRun st1 (posted r), false)
  end.

Definition create_post_commit_hook (revision : option string)
    (r : Run (World E)) : Run (World E) * bool :=
  let (st1, repo_info) := get_repo_info E (obj r) in
  match repo_info with
  | Some (Some repo_info) =>
      let target_revision :=
        if truthy_opt revision then given revision
        else SVNRepoInfo_revision repo_info in
      let (st2, commit_info) :=
        get_commit_info E target_revision "github" st1 in
      match commit_info with
      | Some (Some commit_info) =>
          match changed_files commit_info with
          | [] => (mkRun st2 (posted r), true)
          | _ :: _ =>
              let (st3, payload) :=
                _build_svn_webhook_payload E PostCommitEvent
                  (Some (changed_files commit_info)) (Some commit_info) None
                  (Some repo_info) st2 in
              match payload with
              | Some payload =>
                  if negb (dict_truthy payload)
                  then (mkRun st3 (posted r), false)
                  else send_webhook payload PostCommitEvent
                         (mkRun st3 (posted r))
              | None => (mkRun st3 (posted r), false)
              end
          end
      | _ => (mkRun st2 (posted r), false)
      end
  | _ => (mkRun st1 (posted r), false)
  end.

End Methods.
End Hooks.

(** ** More vocabulary *)

(** What one line adds to the counts of [extract_diff_stats]. *)
Definition line_counts (line : string) : Z * Z :=
  if PyStr.startswith line "+" && negb (PyStr.startswith line "+++")
  then (1, 0)%Z
  else if PyStr.startswith line "-" && negb (PyStr.startswith line "---")
  then (0, 1)%Z
  else (0, 0)%Z.

(** The dictionary of an entry of a payload array. *)
Definition entry_dict (entry : json) : dict :=
  match entry with
  | JDict d => d
  | _ => []
  end.

(** The counts of a record are those of a diff that was read: never
    negative, zero for a binary file and when no diff came back. *)
Definition sound_counts (fc : SVNFileChange) : Prop :=
  (0 <= lines_added fc)%Z /\ (0 <= lines_deleted fc)%Z
  /\ (is_binary fc = true ->
      lines_added fc = 0%Z /\ lines_deleted fc = 0%Z)
  /\ (diff_content fc = None ->
      lines_added fc = 0%Z /\ lines_deleted fc = 0%Z
      /\ is_binary fc = false).

(** The [diff] command a record of [get_commit_info] was read with. *)
Definition commit_diff_cmd (root : string) (fc : SVNFileChange)
    : list string :=
  SubversionWebhook.diff_cmd (root ++ path fc) (old_revision fc)
    (new_revision fc).

(** A file reaches the reviewer: it is not a deletion and its path ends
    with a supported extension. *)
Definition reviewed (exts : list string) (fc : SVNFileChange) : bool :=
  negb (action_eqb (action fc) DELETED)
  && existsb (PyStr.endswith (path fc)) exts.

(** The text of the first element under a path, if there is one. *)
Definition elem_text (root : Element) (path : list string) : option string :=
  match ET.find root path with
  | Some e => ET.text e
  | None => None
  end.

(** The [diff] command a working-copy record was read with. *)
Definition working_copy_diff_cmd (fc : SVNFileChange) : list string :=
  ["diff"; path fc].

(** A working-copy record runs from the base revision to the working
    copy. *)
Definition working_copy_record (base : string) (fc : SVNFileChange) : Prop :=
  old_revision fc = Some base /\ new_revision fc = Some "working copy".

(** ** Vocabulary of the properties *)

Fixpoint all_chars (p : ascii -> bool) (s : string) : bool :=
  match s with
  | EmptyString => true
  | String a s' => p a && all_chars p s'
  end.

(** An ASCII letter, a digit or an underscore. *)
Definition slug_char (a : ascii) : bool :=
  WebhookHandler.alnum a || Ascii.eqb a "_".

Definition no_LF (s : string) : bool :=
  all_chars (fun a => negb (Ascii.eqb a PyStr.LF)) s.

(** Somewhere in [s] the tail [\s+\(] of the header patterns matches. *)
Fixpoint any_tail (s : string) : bool :=
  DiffFormatter.tail_matches s
  || match s with
     | EmptyString => false
     | String _ s' => any_tail s'
     end.

(** The nine fields of an entry returned by [filter_changes]. *)
Definition kept_fields : list string :=
  [ "diff"; "new_path"; "old_path"; "additions"; "deletions"; "action";
    "is_binary"; "old_revision"; "new_revision" ].

(** [out] carries field [k] of [item], or [default] when [item] has none. *)
Definition carries (item out : dict) (k : string) (default : json) : Prop :=
  dict_get out k = Some (dict_get_default item k default).

(** [out] is the entry the filter derives from [item]. *)
Definition derived_entry (item out : dict) : Prop :=
  keys out = kept_fields
  /\ (exists new_path, dict_get item "new_path" = Some new_path
        /\ dict_get out "new_path" = Some new_path
        /\ carries item out "old_path" new_path)
  /\ carries item out "diff" (JStr "")
  /\ carries item out "additions" (JInt 0)
  /\ carries item out "deletions" (JInt 0)
  /\ carries item out "action" (JStr "M")
  /\ carries item out "is_binary" (JBool false)
  /\ carries item out "old_revision" JNull
  /\ carries item out "new_revision" JNull.

(** An input change survives the filter: it is not a deletion and its
    [new_path] is a string ending with a supported extension. *)
Definition survives (exts : list string) (change : dict) : bool :=
  negb (json_eq_str (dict_get_default change "action" JNull) "D")
  && match dict_get change "new_path" with
     | Some (JStr s) => existsb (PyStr.endswith s) exts
     | _ => false
     end.

(** A change whose [new_path] is present and a string. *)
Definition has_path (change : dict) : bool :=
  match dict_get change "new_path" with
  | Some (JStr _) => true
  | _ => false
  end.

(** A [path] element of the log that carries text and an action code
    outside [A], [D], [M], [R]. *)
Definition unknown_path (p : Element) : bool :=
  truthy_opt (ET.text p)
  && match ET.attrib_get (ET.attrib p) "action" with
     | Some code =>
         match SVNFileAction_of code with None => true | Some _ => false end
     | None => false
     end.

(** A line of the summarized diff with a path and an action code outside
    [A], [D], [M], [R]. *)
Definition unknown_line (line : string) : bool :=
  match PyStr.split_ws line with
  | code :: _ :: _ =>
      match SVNFileAction_of code with None => true | Some _ => false end
  | _ => false
  end.

(** A [path] element of the log that yields a record: it carries text
    and one of the four action codes. *)
Definition recorded_path (p : Element) : bool :=
  truthy_opt (ET.text p)
  && match ET.attrib_get (ET.attrib p) "action" with
     | Some code =>
         match SVNFileAction_of code with Some _ => true | None => false end
     | None => false
     end.

(** The record [fc] stands for the [path] element [p]. *)
Definition record_of_path (p : Element) (fc : SVNFileChange) : Prop :=
  ET.text p = Some (path fc)
  /\ ET.attrib_get (ET.attrib p) "action" = Some (action_value (action fc)).

(** The [path] elements of a log entry. *)
Definition log_paths (logentry : Element) : list Element :=
  match ET.find logentry ["paths"] with
  | Some paths => ET.findall paths ["path"]
  | None => []
  end.

(** A line of the summarized diff that yields a record. *)
Definition recorded_line (line : string) : bool :=
  PyStr.truthy (PyStr.strip line)
  && match PyStr.split_ws line with
     | code :: _ :: _ =>
         match SVNFileAction_of code with Some _ => true | None => false end
     | _ => false
     end.

(** The record [fc] stands for the line [line]: the first token is its
    action code, the other tokens joined by spaces are its path. *)
Definition record_of_line (line : string) (fc : SVNFileChange) : Prop :=
  exists tokens,
    PyStr.split_ws line = action_value (action fc) :: tokens
    /\ tokens <> []
    /\ path fc = PyStr.join " " tokens.

(** The record [fc] stands for what the summarized diff of its own path
    printed, in some state of the run: the first line starts with the
    record's action code. *)
Definition record_of_file (E : Env) (fc : SVNFileChange) : Prop :=
  exists (st : St (World E)) w res line rest tokens,
    run E (world st) (abspath st) ["svn"; "diff"; "--summarize"; path fc]
    = (w, Some res)
    /\ PyStr.split PyStr.LF (PyStr.strip (stdout res)) = line :: rest
    /\ PyStr.split_ws line = action_value (action fc) :: tokens.

(** The revisions of a record of [get_commit_info] at revision [rev],
    whose numeral denotes [n]. *)
Definition commit_revisions (rev : string) (n : Z) (fc : SVNFileChange)
    : Prop :=
  old_revision fc
  = (if action_eqb (action fc) ADDED then None else Some (PyStr.str (n - 1)))
  /\ new_revision fc
     = (if action_eqb (action fc) DELETED then None else Some rev).

Definition known_codes : list string := ["A"; "D"; "M"; "R"].

(** ** Example runs *)

Module Examples.
Import PyStr.

Definition nl : string := String LF "".

(** What [svn diff] prints for a file marked as binary. *)
Definition binary_marker_diff : string :=
  "Index: logo.png" ++ nl
  ++ "===================================================================" ++ nl
  ++ "Cannot display: file marked as a binary type." ++ nl
  ++ "svn:mime-type = application/octet-stream" ++ nl.

Definition log_without_paths : string :=
  "<log><logentry revision='42'><author>bob</author>"
  ++ "<date>2025-08-18T03:23:30.945026Z</date><msg>tag</msg></logentry></log>".

Definition log_without_paths_tree : Element :=
  Elem "log" [] None
    [ Elem "logentry" [("revision", "42")] None
        [ Elem "author" [] (Some "bob") [];
          Elem "date" [] (Some "2025-08-18T03:23:30.945026Z") [];
          Elem "msg" [] (Some "tag") [] ] ].

Definition log_with_paths : string :=
  "<log><logentry revision='42'><author>bob</author>"
  ++ "<date>2025-08-18T03:23:30Z</date><msg>edit</msg><paths>"
  ++ "<path action='A'>/trunk/New.java</path>"
  ++ "<path action='M'>/trunk/App.java</path>"
  ++ "<path action='X'>/trunk/Odd.java</path>"
  ++ "<path action='D'>/trunk/Old.java</path>"
  ++ "</paths></logentry></log>".

Definition log_with_paths_tree : Element :=
  Elem "log" [] None
    [ Elem "logentry" [("revision", "42")] None
        [ Elem "author" [] (Some "bob") [];
          Elem "date" [] (Some "2025-08-18T03:23:30Z") [];
          Elem "msg" [] (Some "edit") [];
          Elem "paths" [] None
            [ Elem "path" [("action", "A")] (Some "/trunk/New.java") [];
              Elem "path" [("action", "M")] (Some "/trunk/App.java") [];
              Elem "path" [("action", "X")] (Some "/trunk/Odd.java") [];
              Elem "path" [("action", "D")] (Some "/trunk/Old.java") [] ] ] ].

Definition info_xml : string :=
  "<info><entry revision='42'><url>https://host/svn/repo1/trunk</url>"
  ++ "<relative-url>^/trunk</relative-url><repository>"
  ++ "<root>https://host/svn/repo1</root><uuid>u-1</uuid></repository>"
  ++ "<wc-info><wcroot-abspath>/work/repo1</wcroot-abspath></wc-info>"
  ++ "<commit revision='42'/></entry></info>".

Definition info_tree : Element :=
  Elem "info" [] None
    [ Elem "entry" [("revision", "42")] None
        [ Elem "url" [] (Some "https://host/svn/repo1/trunk") [];
          Elem "relative-url" [] (Some "^/trunk") [];
          Elem "repository" [] None
            [ Elem "root" [] (Some "https://host/svn/repo1") [];
              Elem "uuid" [] (Some "u-1") [] ];
          Elem "wc-info" [] None
            [ Elem "wcroot-abspath" [] (Some "/work/repo1") [] ];
          Elem "commit" [("revision", "42")] None [] ] ].

Definition text_diff : string :=
  "Index: App.java" ++ nl
  ++ "===================================================================" ++ nl
  ++ "--- App.java	(revision 41)" ++ nl
  ++ "+++ App.java	(revision 42)" ++ nl
  ++ "@@ -1 +1,2 @@" ++ nl
  ++ "-old" ++ nl ++ "+new" ++ nl ++ "+more" ++ nl.

(** The documents of the examples, parsed. *)
Definition parse (s : string) : option Element :=
  if s =? log_without_paths then Some log_without_paths_tree
  else if s =? log_with_paths then Some log_with_paths_tree
  else if s =? info_xml then Some info_tree
  else None.

(** A client scripted by three answers: to [info], to [log] and to
    [diff]; an absent answer to [info] stands for a failed command. *)
Definition scripted (info : option string) (log diff : string)
    (w : unit) (cwd : string) (argv : list string)
    : unit * option Result :=
  match argv with
  | _ :: "info" :: _ =>
      (w, Some (match info with
                | Some out => mkResult 0 out ""
                | None => mkResult 1 "" "svn: E155007: not a working copy"
                end))
  | _ :: "log" :: _ => (w, Some (mkResult 0 log ""))
  | _ => (w, Some (mkResult 0 diff ""))
  end.

Definition env (info : option string) (log diff : string) : Env :=
  mkEnv unit string (scripted info log diff) parse
        (fun s _ => Some s) (fun _ => "2025-08-18T00:00:00+00:00")
        (fun d => d) (fun _ => None) (fun _ => None).

Definition st0 : St unit := mkSt tt "/work/repo1/trunk" [].

(** What [svn diff --summarize] prints: one modified file, and a line
    with a code that is none of the four. *)
Definition summarized_output : string :=
  "M       trunk/src/App.java" ++ nl ++ "X       trunk/odd name.txt" ++ nl.

(** A path with a line break in it. *)
Definition broken_path : string := "x" ++ nl ++ "y".

Definition sample_changes : list dict :=
  [ [("new_path", JStr "src/App.java"); ("action", JStr "A");
     ("diff", JStr "+x"); ("additions", JInt 1)];
    [("new_path", JStr "src/Old.py"); ("action", JStr "D")];
    [("new_path", JStr "README.md")];
    [("new_path", JStr "lib/util.py"); ("old_path", JStr "lib/u.py")] ].

Definition sample_event : dict :=
  [ ("event_type", JStr "Post-Commit");
    ("changes", JList [JDict [("new_path", JStr "a.py")]]) ].

Definition merge_event : dict :=
  [ ("event_type", JStr "Merge-Request");
    ("changes", JList [JDict [("new_path", JStr "a.py")]]) ].

End Examples.

(** ** More example runs *)

(** A transport that answers every request with the same status. *)
Definition fixed_transport (E : Env) (status : option Z) : Transport E :=
  mkTransport E "http://localhost:5001/review/webhook"
    (fun w _ _ _ => (w, status)).

(** The run of the examples: no request made yet. *)
Definition run0 : Run unit := mkRun Examples.st0 [].

(** A working copy with one modified file; a repository whose revision
    42 touches four paths. *)
Definition wc_env : Env :=
  Examples.env (Some Examples.info_xml) "" Examples.summarized_output.

Definition commit_env : Env :=
  Examples.env (Some Examples.info_xml) Examples.log_with_paths
    Examples.text_diff.

Definition accepting : Transport wc_env :=
  fixed_transport wc_env (Some 200%Z).

Definition refusing : Transport commit_env :=
  fixed_transport commit_env (Some 500%Z).

(** * Properties *)

(** ** Stripping characters *)

Section Strip.

Variable p : ascii -> bool.

Lemma lstrip_by_all (q : ascii -> bool) (s : string) :
  all_chars q s = true -> all_chars q (PyStr.lstrip_by p s) = true.
Proof.
  induction s as [|a s IH]; simpl; [reflexivity|].
  intros H. apply andb_true_iff in H as [Ha Hs].
  destruct (p a); [auto|]. simpl. now rewrite Ha, Hs.
Qed.

Lemma rstrip_by_all (q : ascii -> bool) (s : string) :
  all_chars q s = true -> all_chars q (PyStr.rstrip_by p s) = true.
Proof.
  induction s as [|a s IH]; simpl; [reflexivity|].
  intros H. apply andb_true_iff in H as [Ha Hs].
  specialize (IH Hs).
  destruct (PyStr.rstrip_by p s) as [|b r].
  - destruct (p a); simpl; [reflexivity|now rewrite Ha].
  - simpl in *. now rewrite Ha, IH.
Qed.

Lemma lstrip_by_head (s r : string) (a : ascii) :
  PyStr.lstrip_by p s = String a r -> p a = false.
Proof.
  induction s as [|b s IH]; simpl; [discriminate|].
  destruct (p b) eqn:Hb; [exact IH|].
  intros H. injection H as -> _. exact Hb.
Qed.

Lemma rstrip_by_head (s r : string) (a : ascii) :
  PyStr.rstrip_by p s = String a r ->
  exists r', s = String a r'.
Proof.
  destruct s as [|b s]; simpl; [discriminate|].
  destruct (PyStr.rstrip_by p s).
  - destruct (p b); [discriminate|].
    intros H. injection H as -> _. now exists s.
  - intros H. injection H as -> _. now exists s.
Qed.

Lemma rstrip_by_last (s r : string) (a : ascii) :
  PyStr.rstrip_by p s = r ++ String a EmptyString -> p a = false.
Proof.
  revert r. induction s as [|b s IH]; intros r; simpl.
  - destruct r; discriminate.
  - destruct (PyStr.rstrip_by p s) as [|c t] eqn:Ht.
    + destruct (p b) eqn:Hb.
      * destruct r; discriminate.
      * destruct r as [|x [|y r]]; simpl; try discriminate.
        intros H. injection H as ->. exact Hb.
    + destruct r as [|x r]; simpl.
      * discriminate.
      * intros H. injection H as _ H. now apply (IH r).
Qed.

Lemma strip_by_head (s r : string) (a : ascii) :
  PyStr.strip_by p s = String a r -> p a = false.
Proof.
  unfold PyStr.strip_by. intros H.
  apply rstrip_by_head in H as [r' H].
  now apply lstrip_by_head in H.
Qed.

End Strip.

(** ** [slugify_url] *)

Lemma underscore_non_alnum_slug (s : string) :
  all_chars slug_char (WebhookHandler.underscore_non_alnum s) = true.
Proof.
  induction s as [|a s IH]; simpl; [reflexivity|].
  rewrite IH, andb_true_r. unfold slug_char.
  destruct (WebhookHandler.alnum a) eqn:Ha; [now rewrite Ha|reflexivity].
Qed.

(** C9: the output of [slugify_url] consists of ASCII letters, digits and
    underscores only, and neither begins nor ends with an underscore. *)
Theorem slugify_url_safe (original_url : string) :
  all_chars slug_char (WebhookHandler.slugify_url original_url) = true
  /\ (forall r, WebhookHandler.slugify_url original_url <> String "_" r)
  /\ (forall r, WebhookHandler.slugify_url original_url
                <> r ++ String "_" EmptyString).
Proof.
  unfold WebhookHandler.slugify_url, PyStr.strip_char.
  repeat split.
  - unfold PyStr.strip_by.
    apply rstrip_by_all, lstrip_by_all, underscore_non_alnum_slug.
  - intros r H. apply strip_by_head in H. discriminate.
  - intros r H. unfold PyStr.strip_by in H.
    apply rstrip_by_last in H. discriminate.
Qed.

(** ** [get_commit_changes] *)

Lemma json_eq_str_true (v : json) (s : string) :
  json_eq_str v s = true <-> v = JStr s.
Proof.
  destruct v; simpl; split; try discriminate.
  - intros H. apply String.eqb_eq in H. now subst.
  - intros H. injection H as ->. apply String.eqb_refl.
Qed.

Lemma dict_get_default_some (d : dict) (k : string) (default v : json) :
  dict_get d k = Some v -> dict_get_default d k default = v.
Proof. unfold dict_get_default. now intros ->. Qed.

Lemma dict_get_default_none (d : dict) (k : string) (default : json) :
  dict_get d k = None -> dict_get_default d k default = default.
Proof. unfold dict_get_default. now intros ->. Qed.

Lemma parse_event_data_fields (data : dict)
    (self : WebhookHandler.SVNCommitHandler) :
  WebhookHandler.parse_event_data data = Some self ->
  WebhookHandler.event_type self = dict_get_default data "event_type" JNull
  /\ WebhookHandler.changes_data self
     = dict_get_default data "changes" (JList []).
Proof.
  unfold WebhookHandler.parse_event_data.
  destruct (if json_truthy _ then _ else _); [|discriminate].
  destruct (_ && _); [|discriminate].
  intros H. injection H as <-. now split.
Qed.

(** C10: [get_commit_changes] returns the empty list when the event type
    is neither ['Post-Commit'] nor ['Pre-Commit'], and otherwise the
    payload's [changes] list as it is (the empty list when [changes] is
    empty or missing). *)
Theorem get_commit_changes_by_event (data : dict)
    (self : WebhookHandler.SVNCommitHandler) :
  WebhookHandler.parse_event_data data = Some self ->
  (dict_get data "event_type" <> Some (JStr "Post-Commit") ->
   dict_get data "event_type" <> Some (JStr "Pre-Commit") ->
   WebhookHandler.get_commit_changes self = JList [])
  /\ (forall l,
        dict_get data "event_type" = Some (JStr "Post-Commit")
        \/ dict_get data "event_type" = Some (JStr "Pre-Commit") ->
        dict_get data "changes" = Some (JList l) ->
        WebhookHandler.get_commit_changes self = JList l)
  /\ (dict_get data "changes" = None ->
      WebhookHandler.get_commit_changes self = JList []).
Proof.
  intros Hparse. apply parse_event_data_fields in Hparse as [Hev Hch].
  unfold WebhookHandler.get_commit_changes, WebhookHandler.valid_event.
  rewrite Hev, Hch. repeat split.
  - intros Hpost Hpre.
    destruct (json_eq_str _ "Post-Commit") eqn:H1.
    + apply json_eq_str_true in H1. exfalso. apply Hpost.
      unfold dict_get_default in H1.
      destruct (dict_get data "event_type"); [now subst|discriminate].
    + destruct (json_eq_str _ "Pre-Commit") eqn:H2; [|reflexivity].
      apply json_eq_str_true in H2. exfalso. apply Hpre.
      unfold dict_get_default in H2.
      destruct (dict_get data "event_type"); [now subst|discriminate].
  - intros l Hvalid Hl.
    rewrite (dict_get_default_some _ _ _ _ Hl).
    assert (Hv : json_eq_str (dict_get_default data "event_type" JNull)
                   "Post-Commit"
                 || json_eq_str (dict_get_default data "event_type" JNull)
                      "Pre-Commit" = true).
    { destruct Hvalid as [H|H];
        rewrite (dict_get_default_some _ _ _ _ H); reflexivity. }
    rewrite Hv. simpl. now destruct l.
  - intros Hnone. rewrite (dict_get_default_none _ _ _ Hnone).
    simpl. now destruct (negb _).
Qed.

(** ** [filter_changes] *)

Lemma any_endswith_str (s : string) (exts : list string) :
  WebhookHandler.any_endswith (JStr s) exts
  = Some (existsb (PyStr.endswith s) exts).
Proof.
  induction exts as [|ext exts IH]; simpl; [reflexivity|].
  now destruct (PyStr.endswith s ext).
Qed.

Lemma any_endswith_true (v : json) (exts : list string) :
  WebhookHandler.any_endswith v exts = Some true ->
  exists s ext, v = JStr s /\ In ext exts /\ PyStr.endswith s ext = true.
Proof.
  intros H.
  assert (Hv : exists s, v = JStr s).
  { destruct exts; simpl in H; [discriminate|].
    destruct v; try discriminate. eauto. }
  destruct Hv as [s ->]. rewrite any_endswith_str in H.
  assert (Hex : existsb (PyStr.endswith s) exts = true)
    by (injection H; intros E; exact E).
  apply existsb_exists in Hex as [ext [Hin Hext]]. now exists s, ext.
Qed.

Lemma any_endswith_false (v : json) (exts : list string) :
  WebhookHandler.any_endswith v exts = Some false ->
  exts = [] \/ exists s, v = JStr s /\ existsb (PyStr.endswith s) exts = false.
Proof.
  intros H. destruct exts as [|e exts]; [now left|]. right.
  assert (Hv : exists s, v = JStr s).
  { simpl in H. destruct v; try discriminate. eauto. }
  destruct Hv as [s ->]. rewrite any_endswith_str in H.
  exists s. split; [reflexivity|]. injection H; intros E; exact E.
Qed.

Lemma keep_fields_derived (item out : dict) :
  WebhookHandler.keep_fields item = Some out -> derived_entry item out.
Proof.
  unfold WebhookHandler.keep_fields.
  destruct (dict_get item "new_path") as [new_path|] eqn:Hp; [|discriminate].
  intros H. injection H as <-.
  unfold derived_entry, carries. repeat split; try reflexivity.
  exists new_path. repeat split; [exact Hp|reflexivity..].
Qed.

Lemma select_fields_survivors (exts : list string) (items : list dict)
    (out : list dict) :
  WebhookHandler.select_fields exts items = Some out ->
  Forall2 derived_entry
    (filter (fun c => match dict_get c "new_path" with
                      | Some (JStr s) => existsb (PyStr.endswith s) exts
                      | _ => false
                      end) items) out.
Proof.
  revert out. induction items as [|item items IH]; intros out; simpl.
  - intros H. injection H as <-. constructor.
  - destruct (WebhookHandler.any_endswith _ exts) as [[|]|] eqn:Hany;
      [| |discriminate].
    + destruct (WebhookHandler.keep_fields item) as [d|] eqn:Hk; [|discriminate].
      destruct (WebhookHandler.select_fields exts items) as [rest|];
        [|discriminate].
      simpl. intros H. injection H as <-.
      apply any_endswith_true in Hany as [s [ext [Hs [Hin Hext]]]].
      pose proof (keep_fields_derived _ _ Hk) as Hd.
      destruct Hd as [Hkeys [[np [Hnp Hrest]] Hothers]].
      rewrite (dict_get_default_some _ _ _ _ Hnp) in Hs. subst np.
      rewrite Hnp.
      assert (Hex : existsb (PyStr.endswith s) exts = true)
        by (apply existsb_exists; now exists ext).
      rewrite Hex. constructor; [|now apply IH].
      apply keep_fields_derived. exact Hk.
    + intros H. apply any_endswith_false in Hany as [-> | [s [Hs Hex]]].
      * assert (Hno : (match dict_get item "new_path" with
                       | Some (JStr s) => existsb (PyStr.endswith s) []
                       | _ => false
                       end) = false)
          by (destruct (dict_get item "new_path") as [[]|]; reflexivity).
        rewrite Hno. now apply IH.
      * unfold dict_get_default in Hs.
        destruct (dict_get item "new_path") as [v|].
        -- subst v. rewrite Hex. now apply IH.
        -- now apply IH.
Qed.

Lemma filter_survives (exts : list string) (changes : list dict) :
  filter (fun c => match dict_get c "new_path" with
                   | Some (JStr s) => existsb (PyStr.endswith s) exts
                   | _ => false
                   end) (filter WebhookHandler.not_deleted changes)
  = filter (survives exts) changes.
Proof.
  induction changes as [|c changes IH]; simpl; [reflexivity|].
  unfold survives at 1, WebhookHandler.not_deleted at 1.
  destruct (negb (json_eq_str _ "D")); simpl.
  - rewrite IH. reflexivity.
  - exact IH.
Qed.

Lemma derived_entry_kept (exts : list string) (item out : dict) :
  survives exts item = true ->
  derived_entry item out ->
  keys out = kept_fields
  /\ dict_get out "action" <> Some (JStr "D")
  /\ exists s ext, dict_get out "new_path" = Some (JStr s)
                   /\ In ext exts /\ PyStr.endswith s ext = true.
Proof.
  unfold survives. intros Hs Hd.
  apply andb_true_iff in Hs as [Hact Hpath].
  destruct Hd as [Hkeys [[np [Hnp [Hout _]]] [_ [_ [_ [Haction _]]]]]].
  split; [exact Hkeys|]. split.
  - rewrite Haction. intros H. injection H as H.
    unfold dict_get_default in *.
    destruct (dict_get item "action") as [v|]; [|discriminate].
    subst v. discriminate.
  - rewrite Hnp in Hpath. destruct np; try discriminate.
    apply existsb_exists in Hpath as [ext [Hin Hext]].
    now exists s, ext.
Qed.

(** C8: the entries returned by [filter_changes] are, in input order, the
    entries derived from the changes that are not deletions and whose
    [new_path] ends with a supported extension; each has exactly the nine
    fields, with the stated defaults, an action other than ['D'] and a
    [new_path] with a supported extension. *)
Theorem filter_changes_entries (env : option string) (changes out : list dict) :
  WebhookHandler.filter_changes env changes = Some out ->
  Forall2 derived_entry
    (filter (survives (WebhookHandler.supported_extensions env)) changes) out
  /\ Forall (fun e =>
       keys e = kept_fields
       /\ dict_get e "action" <> Some (JStr "D")
       /\ exists s ext,
            dict_get e "new_path" = Some (JStr s)
            /\ In ext (WebhookHandler.supported_extensions env)
            /\ PyStr.endswith s ext = true) out.
Proof.
  unfold WebhookHandler.filter_changes. intros H.
  apply select_fields_survivors in H. rewrite filter_survives in H.
  split; [exact H|].
  remember (filter _ changes) as kept eqn:Hkept.
  assert (Hall : Forall (fun c =>
            survives (WebhookHandler.supported_extensions env) c = true) kept).
  { subst kept. apply Forall_forall. intros c Hc.
    now apply filter_In in Hc as [_ Hc]. }
  clear Hkept. induction H as [|item e kept out Hd _ IH]; constructor.
  - apply (derived_entry_kept _ item); [|exact Hd].
    now inversion Hall.
  - apply IH. now inversion Hall.
Qed.

(** [filter_changes] returns a list whenever every change has a string
    under [new_path]. *)
Lemma filter_changes_total (env : option string) (changes : list dict) :
  Forall (fun c => has_path c = true) changes ->
  exists out, WebhookHandler.filter_changes env changes = Some out.
Proof.
  unfold WebhookHandler.filter_changes. intros Hall.
  assert (Hf : Forall (fun c => has_path c = true)
                 (filter WebhookHandler.not_deleted changes)).
  { apply Forall_forall. intros c Hc. apply filter_In in Hc as [Hc _].
    revert c Hc. now apply Forall_forall. }
  clear Hall. induction Hf as [|c l Hc _ [out IH]]; simpl.
  - now exists [].
  - unfold has_path in Hc.
    destruct (dict_get c "new_path") as [[| | |s| |]|] eqn:Hp; try discriminate.
    rewrite (dict_get_default_some _ _ _ _ Hp), any_endswith_str.
    destruct (existsb _ _).
    + unfold WebhookHandler.keep_fields. rewrite Hp, IH. simpl. eauto.
    + eauto.
Qed.

(** ** Computations on the object state *)

Section Monad.

Context {World : Type}.

Lemma bind_some {A B : Type} (m : M World A) (k : A -> M World B)
    (st st' : St World) (b : B) :
  bind m k st = (st', Some b) ->
  exists a st1, m st = (st1, Some a) /\ k a st1 = (st', Some b).
Proof.
  unfold bind. destruct (m st) as [st1 [a|]]; [|discriminate].
  intros H. now exists a, st1.
Qed.

Lemma bind_ext {A B : Type} (m : M World A) (k k' : A -> M World B)
    (st : St World) :
  (forall a st1, k a st1 = k' a st1) -> bind m k st = bind m k' st.
Proof.
  intros H. unfold bind. destruct (m st) as [st1 [a|]]; [apply H|reflexivity].
Qed.

Lemma catch_some {A : Type} (m : M World (option A)) (st st' : St World)
    (a : A) :
  catch m None st = (st', Some (Some a)) -> m st = (st', Some (Some a)).
Proof.
  unfold catch. destruct (m st) as [st1 [r|]]; intros H.
  - exact H.
  - discriminate.
Qed.

Lemma catch_total {A : Type} (m : M World A) (fallback : A) (st : St World) :
  exists a, snd (catch m fallback st) = Some a.
Proof.
  unfold catch. destruct (m st) as [st1 [r|]]; simpl; eauto.
Qed.

Lemma lift_some {A : Type} (o : option A) (st st' : St World) (a : A) :
  lift o st = (st', Some a) -> o = Some a /\ st' = st.
Proof.
  destruct o; simpl; unfold ret, raise; intros H; inversion H; auto.
Qed.

Lemma ret_some {A : Type} (x a : A) (st st' : St World) :
  ret x st = (st', Some a) -> x = a /\ st' = st.
Proof. unfold ret. intros H. inversion H. auto. Qed.

End Monad.

Tactic Notation "inv_bind" hyp(H) "as" ident(a) ident(st1) ident(H1) :=
  apply bind_some in H as [a [st1 [H1 H]]].

(** ** [get_file_diff] *)

Section FileDiff.

Context (E : Env).

(** [get_file_diff] never raises. *)
Lemma get_file_diff_total (file_path : string) (o n : option string)
    (style : string) (st : St (World E)) :
  exists r, snd (SubversionWebhook.get_file_diff E file_path o n style st)
            = Some r.
Proof. apply catch_total. Qed.

(** It issues one command, the one [diff_cmd] builds. *)
Lemma get_file_diff_issued (file_path : string) (o n : option string)
    (style : string) (st : St (World E)) :
  issued (fst (SubversionWebhook.get_file_diff E file_path o n style st))
  = (issued st ++ [SubversionWebhook.diff_cmd file_path o n])%list.
Proof.
  unfold SubversionWebhook.get_file_diff, catch, bind,
    SubversionWebhook.svn_command.
  destruct (run E _ _ _) as [w' [r|]]; simpl; [|reflexivity].
  destruct (negb (success r)); simpl; [reflexivity|].
  destruct (DiffFormatter.is_binary_diff _); simpl; [reflexivity|].
  destruct (DiffFormatter.extract_diff_stats _). reflexivity.
Qed.

(** C3: [get_file_diff] issues exactly [diff -r old:new path] when both
    revisions are supplied, [diff -r old path] when only the old one is,
    and [diff path] when neither is. *)
Theorem get_file_diff_command (file_path style : string) (st : St (World E)) :
  (forall o n, o <> "" -> n <> "" ->
     issued (fst (SubversionWebhook.get_file_diff E file_path (Some o)
                    (Some n) style st))
     = (issued st ++ [["diff"; "-r"; (o ++ ":" ++ n)%string; file_path]])%list)
  /\ (forall o, o <> "" ->
        issued (fst (SubversionWebhook.get_file_diff E file_path (Some o)
                       None style st))
        = (issued st ++ [["diff"; "-r"; o; file_path]])%list)
  /\ issued (fst (SubversionWebhook.get_file_diff E file_path None None
                    style st))
     = (issued st ++ [["diff"; file_path]])%list.
Proof.
  repeat split; intros; rewrite get_file_diff_issued;
    unfold SubversionWebhook.diff_cmd; simpl.
  - destruct o; [contradiction|]. destruct n; [contradiction|]. reflexivity.
  - destruct o; [contradiction|]. reflexivity.
  - reflexivity.
Qed.

(** An empty revision string counts as a revision that was not given. *)
Lemma diff_cmd_empty_revision (file_path : string) (n : option string) :
  SubversionWebhook.diff_cmd file_path (Some "") n = ["diff"; file_path].
Proof. reflexivity. Qed.

(** On output that [is_binary_diff] recognises, the raw text comes back
    with zero counts. *)
Lemma get_file_diff_binary (file_path style : string) (o n : option string)
    (st : St (World E)) (w' : World E) (r : Result) :
  run E (world st) (abspath st)
      ("svn" :: SubversionWebhook.diff_cmd file_path o n) = (w', Some r) ->
  success r = true ->
  DiffFormatter.is_binary_diff (stdout r) = true ->
  snd (SubversionWebhook.get_file_diff E file_path o n style st)
  = Some (Some (stdout r), 0%Z, 0%Z, true).
Proof.
  intros Hrun Hok Hbin.
  unfold SubversionWebhook.get_file_diff, catch, bind,
    SubversionWebhook.svn_command, SubversionWebhook._build_svn_command.
  rewrite Hrun. simpl. rewrite Hok. simpl. rewrite Hbin. reflexivity.
Qed.

End FileDiff.

Lemma is_binary_diff_empty : DiffFormatter.is_binary_diff "" = false.
Proof. reflexivity. Qed.

(** C1: on the text [svn diff] prints for a binary file, which contains
    the line ['Cannot display: file marked as a binary type.'],
    [is_binary_diff] answers false, and [get_file_diff] formats the text
    and reports a file that is not binary. *)
Theorem is_binary_diff_misses_marker :
  PyStr.contains "Cannot display: file marked as a binary type."
    Examples.binary_marker_diff = true
  /\ DiffFormatter.is_binary_diff Examples.binary_marker_diff = false
  /\ snd (SubversionWebhook.get_file_diff
            (Examples.env None "" Examples.binary_marker_diff)
            "logo.png" None None "github" Examples.st0)
     = Some (Some "", 0%Z, 0%Z, false).
Proof. repeat split; vm_compute; reflexivity. Qed.

(** ** [get_repo_info] and the payload *)

Section Payload.

Context (E : Env).

(** [get_repo_info] never raises. *)
Lemma get_repo_info_total (st : St (World E)) :
  exists r, snd (SubversionWebhook.get_repo_info E st) = Some r.
Proof. apply catch_total. Qed.

(** C6: [_build_svn_webhook_payload] called without [repo_info] returns
    the empty dictionary when the repository lookup fails. *)
Theorem build_payload_empty_without_repo_info (event_type : string)
    (changes_data : option (list SVNFileChange))
    (commit_info : option (SVNCommitInfo (datetime E)))
    (commit_message : option string) (st : St (World E)) :
  snd (SubversionWebhook.get_repo_info E st) = Some None ->
  snd (SubversionWebhook._build_svn_webhook_payload E event_type changes_data
         commit_info commit_message None st) = Some [].
Proof.
  unfold SubversionWebhook._build_svn_webhook_payload, bind.
  destruct (SubversionWebhook.get_repo_info E st) as [st' r]. simpl.
  intros ->. reflexivity.
Qed.

(** With repository information at hand the payload is never empty. *)
Lemma build_payload_fields (event_type : string)
    (changes_data : option (list SVNFileChange))
    (commit_info : option (SVNCommitInfo (datetime E)))
    (commit_message : option string) (repo_info : SVNRepoInfo)
    (st : St (World E)) :
  exists payload,
    snd (SubversionWebhook._build_svn_webhook_payload E event_type
           changes_data commit_info commit_message (Some repo_info) st)
    = Some payload
    /\ keys payload = [ "event_type"; "object_kind"; "repository";
                        "object_attributes"; "changes"; "commits";
                        "svn_info" ].
Proof. eexists. split; reflexivity. Qed.

End Payload.

(** ** [get_commit_info] *)

Lemma SVNFileAction_of_value (code : string) (a : SVNFileAction) :
  SVNFileAction_of code = Some a -> code = action_value a.
Proof.
  unfold SVNFileAction_of.
  destruct (code =? "A") eqn:HA; [apply String.eqb_eq in HA|].
  { intros H. injection H as <-. exact HA. }
  destruct (code =? "D") eqn:HD; [apply String.eqb_eq in HD|].
  { intros H. injection H as <-. exact HD. }
  destruct (code =? "M") eqn:HM; [apply String.eqb_eq in HM|].
  { intros H. injection H as <-. exact HM. }
  destruct (code =? "R") eqn:HR; [apply String.eqb_eq in HR|discriminate].
  intros H. injection H as <-. exact HR.
Qed.

Lemma SVNFileAction_of_action_value (a : SVNFileAction) :
  SVNFileAction_of (action_value a) = Some a.
Proof. now destruct a. Qed.

Section CommitInfo.

Context (E : Env).

Lemma commit_paths_step (ri : option SVNRepoInfo) (rev style : string)
    (p : Element) (rest : list Element) (st st' : St (World E))
    (l : list SVNFileChange) :
  SubversionWebhook.commit_paths E ri rev style (p :: rest) st
  = (st', Some l) ->
  (recorded_path p = false
   /\ SubversionWebhook.commit_paths E ri rev style rest st = (st', Some l))
  \/ (exists fc l' st1 root,
        recorded_path p = true
        /\ record_of_path p fc
        /\ old_revision fc
           = (if action_eqb (action fc) ADDED then None
              else SubversionWebhook.previous_revision rev)
        /\ (action_eqb (action fc) ADDED = false -> old_revision fc <> None)
        /\ new_revision fc
           = (if action_eqb (action fc) DELETED then None else Some rev)
        /\ SubversionWebhook.root_url_of ri = Some root
        /\ SubversionWebhook.commit_paths E ri rev style rest st1
           = (st', Some l')
        /\ l = fc :: l').
Proof.
  simpl. unfold recorded_path.
  destruct (truthy_opt (ET.text p)) eqn:Ht; [|intros H; left; now split].
  intros H. inv_bind H as code st1 Hcode.
  apply lift_some in Hcode as [Hcode ->].
  rewrite Hcode. simpl.
  destruct (SVNFileAction_of code) as [act|] eqn:Hact;
    [|left; now split].
  right.
  inv_bind H as old st2 Hold.
  inv_bind H as root st3 Hroot. apply lift_some in Hroot as [Hroot ->].
  inv_bind H as diff st4 Hdiff. destruct diff as [[[d la] ld] b].
  inv_bind H as l' st5 Hrest. apply ret_some in H as [<- ->].
  exists (mkFileChange (given (ET.text p)) act d old
            (if negb (action_eqb act DELETED) then Some rev else None)
            la ld b), l', st4, root. simpl.
  assert (Htext : ET.text p = Some (given (ET.text p))).
  { destruct (ET.text p); [reflexivity|discriminate]. }
  split; [reflexivity|]. split.
  { split; [exact Htext|]. simpl.
    now rewrite <- (SVNFileAction_of_value _ _ Hact). }
  destruct (action_eqb act ADDED) eqn:Hadd; simpl in Hold.
  - apply ret_some in Hold as [<- ->].
    repeat split; try reflexivity; try discriminate; eauto;
      now destruct (action_eqb act DELETED).
  - inv_bind Hold as r st6 Hprev. apply lift_some in Hprev as [Hprev ->].
    apply ret_some in Hold as [<- ->]. rewrite Hprev.
    repeat split; try reflexivity; try discriminate; eauto;
      now destruct (action_eqb act DELETED).
Qed.


Lemma commit_paths_records (ri : option SVNRepoInfo) (rev style : string)
    (paths : list Element) (st st' : St (World E))
    (l : list SVNFileChange) :
  SubversionWebhook.commit_paths E ri rev style paths st = (st', Some l) ->
  Forall2 record_of_path (filter recorded_path paths) l.
Proof.
  revert st l. induction paths as [|p rest IH]; intros st l H.
  - apply ret_some in H as [<- _]. constructor.
  - apply commit_paths_step in H
      as [[Hp H] | [fc [l' [st1 [root [Hp [Hrec [_ [_ [_ [_ [H ->]]]]]]]]]]]];
      simpl; rewrite Hp.
    + now apply (IH st).
    + constructor; [exact Hrec|now apply (IH st1)].
Qed.

Lemma commit_paths_revisions (ri : option SVNRepoInfo) (rev style : string)
    (paths : list Element) (st st' : St (World E))
    (l : list SVNFileChange) :
  SubversionWebhook.commit_paths E ri rev style paths st = (st', Some l) ->
  Forall (fun fc =>
    old_revision fc
    = (if action_eqb (action fc) ADDED then None
       else SubversionWebhook.previous_revision rev)
    /\ (action_eqb (action fc) ADDED = false -> old_revision fc <> None)
    /\ new_revision fc
       = (if action_eqb (action fc) DELETED then None else Some rev)) l.
Proof.
  revert st l. induction paths as [|p rest IH]; intros st l H.
  - apply ret_some in H as [<- _]. constructor.
  - apply commit_paths_step in H
      as [[Hp H] | [fc [l' [st1 [root [_ [_ [Ho [Hs [Hn [_ [H ->]]]]]]]]]]]].
    + now apply (IH st).
    + constructor; [now repeat split|now apply (IH st1)].
Qed.

(** Without repository information no record can be built. *)
Lemma commit_paths_without_repo_info (rev style : string)
    (paths : list Element) (st st' : St (World E))
    (l : list SVNFileChange) :
  SubversionWebhook.commit_paths E None rev style paths st = (st', Some l) ->
  l = [].
Proof.
  revert st l. induction paths as [|p rest IH]; intros st l H.
  - now apply ret_some in H as [<- _].
  - apply commit_paths_step in H
      as [[Hp H] | [fc [l' [st1 [root [_ [_ [_ [_ [_ [Hroot _]]]]]]]]]]].
    + now apply (IH st).
    + discriminate.
Qed.

Lemma bind_ret_l {A B : Type} (a : A) (k : A -> M (World E) B)
    (st : St (World E)) :
  bind (ret a) k st = k a st.
Proof. reflexivity. Qed.

Lemma bind_cong {A B : Type} (m m' : M (World E) A)
    (k : A -> M (World E) B) (st : St (World E)) :
  m st = m' st -> bind m k st = bind m' k st.
Proof. unfold bind. now intros ->. Qed.

(** Paths with an unknown action code can be removed from the log
    without changing what the loop does. *)
Lemma commit_paths_skip_unknown (ri : option SVNRepoInfo) (rev style : string)
    (paths : list Element) (st : St (World E)) :
  SubversionWebhook.commit_paths E ri rev style
    (filter (fun p => negb (unknown_path p)) paths) st
  = SubversionWebhook.commit_paths E ri rev style paths st.
Proof.
  revert st. induction paths as [|p rest IH]; intros st; [reflexivity|].
  cbn [filter]. destruct (unknown_path p) eqn:Hu; cbn [negb].
  - unfold unknown_path in Hu. apply andb_true_iff in Hu as [Ht Hu].
    destruct (ET.attrib_get (ET.attrib p) "action") as [code|] eqn:Hcode;
      [|discriminate].
    destruct (SVNFileAction_of code) eqn:Hact; [discriminate|].
    cbn [SubversionWebhook.commit_paths]. rewrite Ht, Hcode.
    cbn [lift]. rewrite bind_ret_l, Hact. apply IH.
  - cbn [SubversionWebhook.commit_paths].
    destruct (truthy_opt (ET.text p)); [|apply IH].
    apply bind_ext; intros code st1.
    destruct (SVNFileAction_of code); [|apply IH].
    apply bind_ext; intros old st2.
    apply bind_ext; intros root st3.
    apply bind_ext; intros [[[d la] ld] b] st4.
    apply bind_cong, IH.
Qed.


Lemma svn_command_some (command : list string) (st st' : St (World E))
    (r : Result) :
  SubversionWebhook.svn_command E command st = (st', Some r) ->
  run E (world st) (abspath st) ("svn" :: command) = (world st', Some r)
  /\ abspath st' = abspath st.
Proof.
  unfold SubversionWebhook.svn_command, SubversionWebhook._build_svn_command.
  destruct (run E _ _ _) as [w' o]. intros H. injection H as <- ->.
  now split.
Qed.

(** What a successful [get_commit_info] went through: the lookup, the
    log command issued after it, the parsed entry, and the loop over its
    paths. *)
Lemma get_commit_info_log (rev style : string) (st st' : St (World E))
    (ci : SVNCommitInfo (datetime E)) :
  SubversionWebhook.get_commit_info E rev style st = (st', Some (Some ci)) ->
  exists ri st1 target w log root logentry sta stb,
    SubversionWebhook.get_repo_info E st = (st1, Some ri)
    /\ repo_uuid ci = match ri with Some r => uuid r | None => "" end
    /\ ci_revision ci = rev
    /\ run E (world st1) (abspath st1)
          ["svn"; "log"; "-v"; "-r"; target; "--xml"] = (w, Some log)
    /\ success log = true
    /\ fromstring E (stdout log) = Some root
    /\ ET.find root ["logentry"] = Some logentry
    /\ SubversionWebhook.commit_paths E ri rev style (log_paths logentry) sta
       = (stb, Some (changed_files ci)).
Proof.
  intros H. apply catch_some in H.
  inv_bind H as ri st1 Hri.
  inv_bind H as target st2 Htarget.
  assert (st2 = st1) as ->.
  { destruct (PyStr.truthy rev).
    - now apply ret_some in Htarget.
    - now apply lift_some in Htarget. }
  inv_bind H as log_result st3 Hlog.
  apply svn_command_some in Hlog as [Hlog _].
  destruct (success log_result) eqn:Hok;
    [|apply ret_some in H as [H _]; discriminate].
  cbn [negb] in H.
  inv_bind H as root st4 Hroot. apply lift_some in Hroot as [Hroot ->].
  destruct (ET.find root ["logentry"]) as [logentry|] eqn:Hentry;
    [|apply ret_some in H as [H _]; discriminate].
  inv_bind H as date_el st5 Hdate.
  inv_bind H as date_text st6 Hdate_text.
  inv_bind H as w st7 Hw.
  inv_bind H as changed st8 Hchanged.
  inv_bind H as author_text st9 Hauthor.
  inv_bind H as message_text st10 Hmessage.
  apply ret_some in H as [H _]. injection H as <-.
  exists ri, st1, target, (world st3), log_result, root, logentry.
  unfold log_paths. simpl.
  destruct (ET.find logentry ["paths"]) as [paths|].
  - exists st7, st8. now repeat split.
  - apply ret_some in Hchanged as [<- _]. exists st7, st7. now repeat split.
Qed.

Lemma get_commit_info_inv (rev style : string) (st st' : St (World E))
    (ci : SVNCommitInfo (datetime E)) :
  SubversionWebhook.get_commit_info E rev style st = (st', Some (Some ci)) ->
  exists ri st1,
    SubversionWebhook.get_repo_info E st = (st1, Some ri)
    /\ repo_uuid ci = match ri with Some r => uuid r | None => "" end
    /\ ci_revision ci = rev
    /\ exists paths sta stb,
         SubversionWebhook.commit_paths E ri rev style paths sta
         = (stb, Some (changed_files ci)).
Proof.
  intros H. apply get_commit_info_log in H
    as [ri [st1 [target [w [log [root [logentry [sta [stb
         [Hri [Huuid [Hrev [_ [_ [_ [_ H]]]]]]]]]]]]]]]].
  exists ri, st1. repeat split; try assumption.
  now exists (log_paths logentry), sta, stb.
Qed.

(** C2: in a commit read at revision [rev], a numeral for [n], every
    record has no old revision when Added and the numeral of [n - 1]
    otherwise, no new revision when Deleted and [rev] otherwise; Modified
    and Replaced records have both. *)
Theorem get_commit_info_revisions (rev style : string) (n : Z)
    (st st' : St (World E)) (ci : SVNCommitInfo (datetime E)) :
  SubversionWebhook.get_commit_info E rev style st = (st', Some (Some ci)) ->
  PyStr.int rev = Some n ->
  Forall (fun fc =>
    commit_revisions rev n fc
    /\ (action fc = MODIFIED \/ action fc = REPLACED ->
        old_revision fc <> None /\ new_revision fc <> None))
    (changed_files ci).
Proof.
  intros H Hn.
  apply get_commit_info_inv in H
    as [ri [st1 [_ [_ [_ [paths [sta [stb H]]]]]]]].
  apply commit_paths_revisions in H.
  revert H. apply Forall_impl. intros fc [Hold [_ Hnew]].
  unfold SubversionWebhook.previous_revision in Hold.
  rewrite Hn in Hold. simpl in Hold.
  unfold commit_revisions. rewrite Hold, Hnew.
  split; [now split|].
  intros [-> | ->]; simpl; split; discriminate.
Qed.

(** Without repository information a returned commit has no files. *)
Lemma get_commit_info_no_files_without_repo_info (rev style : string)
    (st st' : St (World E)) (ci : SVNCommitInfo (datetime E)) :
  snd (SubversionWebhook.get_repo_info E st) = Some None ->
  SubversionWebhook.get_commit_info E rev style st = (st', Some (Some ci)) ->
  changed_files ci = [].
Proof.
  intros Hnone H.
  apply get_commit_info_inv in H
    as [ri [st1 [Hri [_ [_ [paths [sta [stb H]]]]]]]].
  rewrite Hri in Hnone. simpl in Hnone. injection Hnone as ->.
  now apply commit_paths_without_repo_info in H.
Qed.

(** C5, as the code has it: when the repository lookup fails,
    [get_commit_info] goes on to the log; a commit it returns comes from
    a log command that succeeded and a log entry that was found, and
    carries the empty string as repository UUID. *)
Theorem get_commit_info_without_repo_info (rev style : string)
    (st st' : St (World E)) (ci : SVNCommitInfo (datetime E)) :
  snd (SubversionWebhook.get_repo_info E st) = Some None ->
  SubversionWebhook.get_commit_info E rev style st = (st', Some (Some ci)) ->
  repo_uuid ci = ""
  /\ exists target w log root logentry,
       run E (world (fst (SubversionWebhook.get_repo_info E st)))
           (abspath (fst (SubversionWebhook.get_repo_info E st)))
           ["svn"; "log"; "-v"; "-r"; target; "--xml"] = (w, Some log)
       /\ success log = true
       /\ fromstring E (stdout log) = Some root
       /\ ET.find root ["logentry"] = Some logentry.
Proof.
  intros Hnone H.
  apply get_commit_info_log in H
    as [ri [st1 [target [w [log [root [logentry [sta [stb
         [Hri [Huuid [_ [Hrun [Hok [Hroot [Hentry _]]]]]]]]]]]]]]]].
  rewrite Hri in Hnone |- *. simpl in Hnone. injection Hnone as ->.
  split; [exact Huuid|].
  exists target, w, log, root, logentry. now repeat split.
Qed.

End CommitInfo.

(** C5 fails as stated: the lookup fails, yet a commit record comes
    back, with an empty repository UUID. *)
Lemma get_commit_info_answers_without_repo_info :
  snd (SubversionWebhook.get_repo_info
         (Examples.env None Examples.log_without_paths Examples.text_diff)
         Examples.st0) = Some None
  /\ snd (SubversionWebhook.get_commit_info
            (Examples.env None Examples.log_without_paths Examples.text_diff)
            "42" "github" Examples.st0)
     = Some (Some (mkCommitInfo "42" "bob" "2025-08-18T03:23:30.945026" "tag"
                     [] "")).
Proof. split; vm_compute; reflexivity. Qed.

(** ** [get_working_copy_changes] *)

Section WorkingCopy.

Context (E : Env).

(** A working-copy record is always built: [get_file_diff] does not
    raise. *)
Lemma working_copy_change_some (file_path style : string)
    (act : SVNFileAction) (ri : SVNRepoInfo) (st : St (World E)) :
  exists fc st',
    SubversionWebhook.working_copy_change E file_path act ri style st
    = (st', Some fc)
    /\ path fc = file_path /\ action fc = act
    /\ old_revision fc = Some (revision ri)
    /\ new_revision fc = Some "working copy".
Proof.
  unfold SubversionWebhook.working_copy_change, bind.
  destruct (get_file_diff_total E file_path None None style st) as [r Hr].
  destruct (SubversionWebhook.get_file_diff E file_path None None style st)
    as [st' o]. simpl in Hr. subst o.
  destruct r as [[[d la] ld] b]. eexists _, st'. now repeat split.
Qed.

Lemma summarized_lines_step (ri : SVNRepoInfo) (style line : string)
    (rest : list string) (st st' : St (World E)) (l : list SVNFileChange) :
  SubversionWebhook.summarized_lines E (line :: rest) ri style st
  = (st', Some l) ->
  (recorded_line line = false
   /\ SubversionWebhook.summarized_lines E rest ri style st = (st', Some l))
  \/ (exists fc l' st1,
        recorded_line line = true
        /\ record_of_line line fc
        /\ SubversionWebhook.summarized_lines E rest ri style st1
           = (st', Some l')
        /\ l = fc :: l').
Proof.
  cbn [SubversionWebhook.summarized_lines]. unfold recorded_line.
  destruct (PyStr.truthy (PyStr.strip line)); cbn [negb andb];
    [|intros H; left; now split].
  destruct (PyStr.split_ws line) as [|code [|p ps]] eqn:Hsplit;
    try (intros H; left; now split).
  destruct (SVNFileAction_of code) as [act|] eqn:Hact;
    [|intros H; left; now split].
  intros H. right.
  inv_bind H as fc st1 Hfc. inv_bind H as l' st2 Hrest.
  apply ret_some in H as [<- ->].
  exists fc, l', st1. repeat split; try assumption.
  destruct (working_copy_change_some (PyStr.join " " (p :: ps)) style act ri st)
    as [fc' [st1' [Hfc' [Hpath [Haction _]]]]].
  rewrite Hfc in Hfc'. injection Hfc' as <- <-.
  exists (p :: ps). rewrite Haction, Hpath.
  rewrite <- (SVNFileAction_of_value _ _ Hact).
  split; [exact Hsplit|]. split; [discriminate|reflexivity].
Qed.

Lemma summarized_lines_records (ri : SVNRepoInfo) (style : string)
    (lines : list string) (st st' : St (World E)) (l : list SVNFileChange) :
  SubversionWebhook.summarized_lines E lines ri style st = (st', Some l) ->
  Forall2 record_of_line (filter recorded_line lines) l.
Proof.
  revert st l. induction lines as [|line rest IH]; intros st l H.
  - apply ret_some in H as [<- _]. constructor.
  - apply summarized_lines_step in H
      as [[Hl H] | [fc [l' [st1 [Hl [Hrec [H ->]]]]]]]; simpl; rewrite Hl.
    + now apply (IH st).
    + constructor; [exact Hrec|now apply (IH st1)].
Qed.

(** The loop over the summarized diff never raises. *)
Lemma summarized_lines_total (ri : SVNRepoInfo) (style : string)
    (lines : list string) (st : St (World E)) :
  exists l st',
    SubversionWebhook.summarized_lines E lines ri style st = (st', Some l).
Proof.
  revert st. induction lines as [|line rest IH]; intros st.
  - now exists [], st.
  - cbn [SubversionWebhook.summarized_lines].
    destruct (negb _); [apply IH|].
    destruct (PyStr.split_ws line) as [|code [|p ps]]; try apply IH.
    destruct (SVNFileAction_of code) as [act|]; [|apply IH].
    destruct (working_copy_change_some (PyStr.join " " (p :: ps)) style act ri st)
      as [fc [st1 [Hfc _]]].
    destruct (IH st1) as [l [st' Hl]].
    exists (fc :: l), st'. unfold bind. rewrite Hfc, Hl. reflexivity.
Qed.

(** Lines with an unknown action code can be removed from the output
    without changing what the loop does. *)
Lemma summarized_lines_skip_unknown (ri : SVNRepoInfo) (style : string)
    (lines : list string) (st : St (World E)) :
  SubversionWebhook.summarized_lines E
    (filter (fun line => negb (unknown_line line)) lines) ri style st
  = SubversionWebhook.summarized_lines E lines ri style st.
Proof.
  revert st. induction lines as [|line rest IH]; intros st; [reflexivity|].
  cbn [filter]. destruct (unknown_line line) eqn:Hu; cbn [negb].
  - unfold unknown_line in Hu.
    cbn [SubversionWebhook.summarized_lines].
    destruct (negb _); [apply IH|].
    destruct (PyStr.split_ws line) as [|code [|p ps]]; try discriminate.
    destruct (SVNFileAction_of code); [discriminate|apply IH].
  - cbn [SubversionWebhook.summarized_lines].
    destruct (negb _); [apply IH|].
    destruct (PyStr.split_ws line) as [|code [|p ps]]; try apply IH.
    destruct (SVNFileAction_of code); [|apply IH].
    apply bind_ext; intros fc st1. apply bind_cong, IH.
Qed.

(** [_process_single_file_change] never raises, and a record it returns
    carries the action code that starts the summarized line. *)
Lemma process_single_file_change_record (file_path style : string)
    (ri : SVNRepoInfo) (st : St (World E)) :
  exists r st',
    SubversionWebhook._process_single_file_change E file_path ri style st
    = (st', Some r)
    /\ forall fc, r = Some fc -> path fc = file_path /\ record_of_file E fc.
Proof.
  unfold SubversionWebhook._process_single_file_change, catch, bind,
    SubversionWebhook.svn_command, SubversionWebhook._build_svn_command.
  destruct (run E _ _ _) as [w' [res|]] eqn:Hrun;
    [|eexists _, _; split; [reflexivity|discriminate]].
  destruct (negb (success res));
    [eexists _, _; split; [reflexivity|discriminate]|].
  destruct (PyStr.split PyStr.LF _) as [|line rest] eqn:Hsplit;
    [eexists _, _; split; [reflexivity|discriminate]|].
  destruct (negb (PyStr.truthy (PyStr.strip line)));
    [eexists _, _; split; [reflexivity|discriminate]|].
  destruct (PyStr.split_ws line) as [|code [|p ps]] eqn:Htokens;
    try (eexists _, _; split; [reflexivity|discriminate]).
  destruct (SVNFileAction_of code) as [act|] eqn:Hact;
    [|eexists _, _; split; [reflexivity|discriminate]].
  match goal with
  | |- context [SubversionWebhook.working_copy_change E ?f ?a ?r ?s ?st0] =>
      destruct (working_copy_change_some f s a r st0)
        as [fc [st1 [Hfc [Hpath [Haction _]]]]]
  end.
  rewrite Hfc. eexists _, _. split; [reflexivity|].
  intros fc' Heq. injection Heq as <-. split; [exact Hpath|].
  exists st, w', res, line, rest, (p :: ps).
  rewrite Hpath, Haction, <- (SVNFileAction_of_value _ _ Hact).
  now repeat split.
Qed.

(** The loop over an explicit file list never raises. *)
Lemma explicit_files_total (ri : SVNRepoInfo) (style : string)
    (files : list string) (st : St (World E)) :
  exists l st',
    SubversionWebhook.explicit_files E files ri style st = (st', Some l).
Proof.
  revert st. induction files as [|f rest IH]; intros st.
  - now exists [], st.
  - cbn [SubversionWebhook.explicit_files]. unfold bind.
    destruct (process_single_file_change_record f style ri st)
      as [r [st1 [Hr _]]].
    rewrite Hr. destruct (IH st1) as [l [st' Hl]]. rewrite Hl.
    eexists _, _. reflexivity.
Qed.

Lemma explicit_files_records (ri : SVNRepoInfo) (style : string)
    (files : list string) (st st' : St (World E)) (l : list SVNFileChange) :
  SubversionWebhook.explicit_files E files ri style st = (st', Some l) ->
  Forall (fun fc => In (path fc) files /\ record_of_file E fc) l.
Proof.
  revert st st' l. induction files as [|f rest IH]; intros st st' l H.
  - apply ret_some in H as [<- _]. constructor.
  - cbn [SubversionWebhook.explicit_files] in H.
    inv_bind H as r st1 Hr. inv_bind H as changed st2 Hrest.
    apply ret_some in H as [<- _].
    apply IH in Hrest.
    assert (Hall : Forall (fun fc => In (path fc) (f :: rest)
                                     /\ record_of_file E fc) changed).
    { revert Hrest. apply Forall_impl. intros fc [Hin Hrec].
      split; [now right|exact Hrec]. }
    destruct r as [fc|]; [|exact Hall].
    constructor; [|exact Hall].
    destruct (process_single_file_change_record f style ri st)
      as [r' [st1' [Hr' Hfc]]].
    rewrite Hr in Hr'. injection Hr' as _ <-.
    destruct (Hfc fc eq_refl) as [Hpath Hrec].
    split; [left; now symmetry|exact Hrec].
Qed.

(** Discovery mode answers whenever the lookup and the summarized diff
    succeed, whatever the lines hold, with one record per line that has
    a path and one of the four action codes. *)
Lemma discovery_changes (style : string) (st st1 : St (World E))
    (ri : SVNRepoInfo) (w : World E) (status : Result) :
  SubversionWebhook.get_repo_info E st = (st1, Some (Some ri)) ->
  run E (world st1) (abspath st1) ["svn"; "diff"; "--summarize"]
  = (w, Some status) ->
  success status = true ->
  exists wc st',
    SubversionWebhook.get_working_copy_changes E None style st
    = (st', Some (Some wc))
    /\ Forall2 record_of_line
         (filter recorded_line
            (PyStr.split PyStr.LF (PyStr.strip (stdout status))))
         (wc_changed_files wc).
Proof.
  intros Hri Hrun Hok.
  unfold SubversionWebhook.get_working_copy_changes, catch.
  unfold bind at 1. rewrite Hri.
  unfold bind at 1. unfold SubversionWebhook.svn_command,
    SubversionWebhook._build_svn_command. rewrite Hrun, Hok. cbn [negb].
  match goal with
  | |- context [bind (SubversionWebhook.summarized_lines E ?ls ri style) _ ?s] =>
      destruct (summarized_lines_total ri style ls s) as [l [st' Hl]];
      pose proof (summarized_lines_records _ _ _ _ _ _ Hl) as Hrec
  end.
  unfold bind. rewrite Hl.
  eexists _, _. split; [reflexivity|exact Hrec].
Qed.

(** Explicit mode answers whenever the lookup succeeds; every record is
    for one of the given files and carries the code its summarized diff
    starts with. *)
Lemma explicit_changes (style : string) (files : list string)
    (st st1 : St (World E)) (ri : SVNRepoInfo) :
  SubversionWebhook.get_repo_info E st = (st1, Some (Some ri)) ->
  exists wc st',
    SubversionWebhook.get_working_copy_changes E (Some files) style st
    = (st', Some (Some wc))
    /\ Forall (fun fc => In (path fc) files /\ record_of_file E fc)
         (wc_changed_files wc).
Proof.
  intros Hri.
  unfold SubversionWebhook.get_working_copy_changes, catch.
  unfold bind at 1. rewrite Hri.
  destruct (explicit_files_total ri style files st1) as [l [st' Hl]].
  pose proof (explicit_files_records _ _ _ _ _ _ Hl) as Hrec.
  unfold bind. rewrite Hl.
  eexists _, _. split; [reflexivity|exact Hrec].
Qed.

End WorkingCopy.

(** ** Action codes *)

Lemma recorded_path_known (p : Element) :
  recorded_path p = true -> unknown_path p = false.
Proof.
  unfold recorded_path, unknown_path.
  destruct (truthy_opt (ET.text p)); [|discriminate]. simpl.
  destruct (ET.attrib_get _ _) as [code|]; [|discriminate].
  now destruct (SVNFileAction_of code).
Qed.

Lemma recorded_line_known (line : string) :
  recorded_line line = true -> unknown_line line = false.
Proof.
  unfold recorded_line, unknown_line.
  destruct (PyStr.truthy _); [|discriminate]. simpl.
  destruct (PyStr.split_ws line) as [|code [|p ps]]; try discriminate.
  now destruct (SVNFileAction_of code).
Qed.

Lemma action_value_known (a : SVNFileAction) :
  In (action_value a) known_codes.
Proof. destruct a; simpl; auto. Qed.

Section Actions.

Context (E : Env).

(** C4: every record carries one of the four action codes, taken from
    the log path, the summarized line or the file's own summarized diff
    it stands for; paths and lines with any other code yield no record,
    and removing them changes nothing in what the loops do, so they never
    make an operation fail. *)
Theorem unknown_action_codes_skipped :
  (forall fc : SVNFileChange, In (action_value (action fc)) known_codes)
  /\ (forall ri rev style paths (st : St (World E)),
        SubversionWebhook.commit_paths E ri rev style
          (filter (fun p => negb (unknown_path p)) paths) st
        = SubversionWebhook.commit_paths E ri rev style paths st)
  /\ (forall rev style (st st' : St (World E)) ci,
        SubversionWebhook.get_commit_info E rev style st
        = (st', Some (Some ci)) ->
        exists st1 target w log root logentry,
          st1 = fst (SubversionWebhook.get_repo_info E st)
          /\ run E (world st1) (abspath st1)
               ["svn"; "log"; "-v"; "-r"; target; "--xml"] = (w, Some log)
          /\ fromstring E (stdout log) = Some root
          /\ ET.find root ["logentry"] = Some logentry
          /\ Forall2 record_of_path
               (filter recorded_path (log_paths logentry))
               (changed_files ci))
  /\ (forall ri style lines (st : St (World E)),
        SubversionWebhook.summarized_lines E
          (filter (fun line => negb (unknown_line line)) lines) ri style st
        = SubversionWebhook.summarized_lines E lines ri style st)
  /\ (forall style (st st1 : St (World E)) ri w status,
        SubversionWebhook.get_repo_info E st = (st1, Some (Some ri)) ->
        run E (world st1) (abspath st1) ["svn"; "diff"; "--summarize"]
        = (w, Some status) ->
        success status = true ->
        exists wc st',
          SubversionWebhook.get_working_copy_changes E None style st
          = (st', Some (Some wc))
          /\ Forall2 record_of_line
               (filter recorded_line
                  (PyStr.split PyStr.LF (PyStr.strip (stdout status))))
               (wc_changed_files wc))
  /\ (forall style files (st st1 : St (World E)) ri,
        SubversionWebhook.get_repo_info E st = (st1, Some (Some ri)) ->
        exists wc st',
          SubversionWebhook.get_working_copy_changes E (Some files) style st
          = (st', Some (Some wc))
          /\ Forall (fun fc => In (path fc) files /\ record_of_file E fc)
               (wc_changed_files wc)).
Proof.
  split; [intros fc; apply action_value_known|].
  split; [intros; apply commit_paths_skip_unknown|].
  split.
  { intros rev style st st' ci H.
    apply get_commit_info_log in H
      as [ri [st1 [target [w [log [root [logentry [sta [stb
           [Hri [_ [_ [Hrun [_ [Hroot [Hentry H]]]]]]]]]]]]]]]].
    exists st1, target, w, log, root, logentry.
    rewrite Hri. repeat split; try assumption.
    now apply commit_paths_records in H. }
  split; [intros; apply summarized_lines_skip_unknown|].
  split; [intros; now apply (discovery_changes E style st st1 ri w status)|].
  intros. now apply (explicit_changes E style files st st1 ri).
Qed.

End Actions.

(** ** Splitting and joining lines *)

Lemma split_no_LF (s : string) :
  Forall (fun line => no_LF line = true) (PyStr.split PyStr.LF s).
Proof.
  induction s as [|a s IH]; simpl.
  - constructor; [reflexivity|constructor].
  - destruct (Ascii.eqb a PyStr.LF) eqn:Ha.
    + constructor; [reflexivity|exact IH].
    + destruct (PyStr.split PyStr.LF s) as [|h t].
      * constructor; [|constructor]. unfold no_LF. simpl. now rewrite Ha.
      * inversion IH as [|x y Hh Ht]; subst. constructor; [|exact Ht].
        unfold no_LF in *. simpl. now rewrite Ha.
Qed.

Lemma split_nonempty (c : ascii) (s : string) : PyStr.split c s <> [].
Proof.
  destruct s as [|a s]; simpl; [discriminate|].
  destruct (Ascii.eqb a c); [discriminate|].
  destruct (PyStr.split c s); discriminate.
Qed.

Lemma split_line_app (h r : string) :
  no_LF h = true ->
  PyStr.split PyStr.LF (h ++ String PyStr.LF r)
  = h :: PyStr.split PyStr.LF r.
Proof.
  induction h as [|a h IH]; intros Hh.
  - reflexivity.
  - unfold no_LF in Hh. simpl in Hh. apply andb_true_iff in Hh as [Ha Hh].
    apply negb_true_iff in Ha.
    cbn [append PyStr.split]. rewrite Ha, (IH Hh). reflexivity.
Qed.

Lemma split_single (h : string) :
  no_LF h = true -> PyStr.split PyStr.LF h = [h].
Proof.
  induction h as [|a h IH]; intros Hh; [reflexivity|].
  unfold no_LF in Hh. simpl in Hh. apply andb_true_iff in Hh as [Ha Hh].
  apply negb_true_iff in Ha.
  cbn [PyStr.split]. rewrite Ha, (IH Hh). reflexivity.
Qed.

Lemma split_join (l : list string) :
  l <> [] ->
  Forall (fun line => no_LF line = true) l ->
  PyStr.split PyStr.LF (PyStr.join (String PyStr.LF "") l) = l.
Proof.
  induction l as [|h t IH]; intros Hne Hall; [contradiction|].
  inversion Hall as [|x y Hh Ht]; subst.
  destruct t as [|h' t'].
  - now apply split_single.
  - change (PyStr.join (String PyStr.LF "") (h :: h' :: t'))
      with (h ++ String PyStr.LF (PyStr.join (String PyStr.LF "") (h' :: t'))).
    rewrite (split_line_app _ _ Hh), IH; [reflexivity|discriminate|exact Ht].
Qed.

Lemma strip_truthy (a : ascii) (s : string) :
  PyStr.isspace a = false -> PyStr.truthy (PyStr.strip (String a s)) = true.
Proof.
  intros Ha. unfold PyStr.strip, PyStr.strip_by. cbn [PyStr.lstrip_by].
  rewrite Ha. cbn [PyStr.rstrip_by]. rewrite Ha.
  now destruct (PyStr.rstrip_by PyStr.isspace s).
Qed.

(** ** The header patterns *)

Lemma ws_then_paren_app (s r : string) :
  DiffFormatter.ws_then_paren s = true ->
  DiffFormatter.ws_then_paren (s ++ r) = true.
Proof.
  induction s as [|a s IH]; simpl; [discriminate|].
  destruct (PyStr.isspace a); auto.
Qed.

Lemma tail_matches_app (s r : string) :
  DiffFormatter.tail_matches s = true ->
  DiffFormatter.tail_matches (s ++ r) = true.
Proof.
  destruct s as [|a s]; simpl; [discriminate|].
  intros H. apply andb_true_iff in H as [Ha Hs].
  now rewrite Ha, (ws_then_paren_app _ _ Hs).
Qed.

Lemma lazy_group_prefix (s g : string) :
  DiffFormatter.lazy_group s = Some g ->
  (exists r, s = g ++ r) /\ no_LF g = true /\ g <> "".
Proof.
  revert g. induction s as [|a s IH]; intros g; simpl; [discriminate|].
  destruct (Ascii.eqb a PyStr.LF) eqn:Ha; [discriminate|].
  destruct (DiffFormatter.tail_matches s).
  - intros H. injection H as <-. repeat split.
    + now exists s.
    + unfold no_LF. simpl. now rewrite Ha.
    + discriminate.
  - destruct (DiffFormatter.lazy_group s) as [g'|]; [|discriminate].
    intros H. injection H as <-.
    destruct (IH g' eq_refl) as [[r Hr] [Hg _]]. repeat split.
    + exists r. simpl. now rewrite <- Hr.
    + unfold no_LF in *. simpl. now rewrite Ha, Hg.
    + discriminate.
Qed.

Lemma lazy_group_rest (s g : string) (a : ascii) :
  DiffFormatter.lazy_group s = Some (String a g) -> any_tail g = false.
Proof.
  revert a g. induction s as [|c s IH]; intros a g; simpl; [discriminate|].
  destruct (Ascii.eqb c PyStr.LF); [discriminate|].
  destruct (DiffFormatter.tail_matches s) eqn:Htail.
  - intros H. injection H as _ <-. reflexivity.
  - destruct (DiffFormatter.lazy_group s) as [g'|] eqn:Hg'; [|discriminate].
    intros H. injection H as _ <-.
    destruct (lazy_group_prefix _ _ Hg') as [[r Hr] [_ Hne]].
    destruct g' as [|a' g'']; [contradiction|].
    cbn [any_tail]. rewrite (IH _ _ eq_refl), orb_false_r.
    destruct (DiffFormatter.tail_matches (String a' g'')) eqn:Ht; [|reflexivity].
    apply (tail_matches_app _ r) in Ht. rewrite <- Hr in Ht. congruence.
Qed.

Lemma after_marker_group (s g : string) :
  DiffFormatter.after_marker s = Some g ->
  any_tail g = false /\ no_LF g = true.
Proof.
  revert g. induction s as [|c s IH]; intros g; simpl; [discriminate|].
  destruct (PyStr.isspace c); [|discriminate].
  destruct (DiffFormatter.after_marker s) as [g'|] eqn:Hafter.
  - intros H. injection H as <-. now apply IH.
  - intros Hg. destruct (lazy_group_prefix _ _ Hg) as [[r Hr] [Hlf Hne]].
    split; [|exact Hlf].
    destruct g as [|a g1]; [contradiction|].
    cbn [any_tail]. rewrite (lazy_group_rest _ _ _ Hg), orb_false_r.
    destruct (PyStr.isspace a) eqn:Ha; [|simpl; now rewrite Ha].
    subst s. simpl in Hafter, Hg. rewrite Ha in Hafter.
    destruct (Ascii.eqb a PyStr.LF); [discriminate|].
    destruct (DiffFormatter.tail_matches (g1 ++ r)).
    + injection Hg as Hg. destruct g1; [|discriminate].
      simpl. now rewrite Ha.
    + destruct (DiffFormatter.after_marker (g1 ++ r)); [discriminate|].
      destruct (DiffFormatter.lazy_group (g1 ++ r)); discriminate.
Qed.

Lemma any_tail_drop (n : nat) (s : string) :
  any_tail (PyStr.drop n s) = true -> any_tail s = true.
Proof.
  revert s. induction n as [|n IH]; intros s; [auto|].
  destruct s as [|a s]; [auto|].
  cbn [PyStr.drop]. intros H. apply IH in H.
  cbn [any_tail]. rewrite H. apply orb_true_r.
Qed.

Lemma lazy_group_any_tail (s g : string) :
  DiffFormatter.lazy_group s = Some g -> any_tail s = true.
Proof.
  revert g. induction s as [|a s IH]; intros g; simpl; [discriminate|].
  destruct (Ascii.eqb a PyStr.LF); [discriminate|].
  destruct (DiffFormatter.tail_matches s) eqn:Htail.
  - intros _. destruct s as [|b s]; [discriminate|].
    cbn [any_tail]. rewrite Htail. simpl. apply orb_true_r.
  - destruct (DiffFormatter.lazy_group s) as [g'|]; [|discriminate].
    intros _. rewrite (IH g' eq_refl). apply orb_true_r.
Qed.

Lemma after_marker_any_tail (s g : string) :
  DiffFormatter.after_marker s = Some g -> any_tail s = true.
Proof.
  revert g. induction s as [|a s IH]; intros g; simpl; [discriminate|].
  destruct (PyStr.isspace a); [|discriminate].
  destruct (DiffFormatter.after_marker s) as [g'|].
  - intros _. rewrite (IH g' eq_refl). apply orb_true_r.
  - intros H. rewrite (lazy_group_any_tail _ _ H). apply orb_true_r.
Qed.

Lemma search_header_any_tail (marker line g : string) :
  DiffFormatter.search_header marker line = Some g -> any_tail line = true.
Proof.
  revert g. induction line as [|a line IH]; intros g.
  - simpl. destruct marker; discriminate.
  - cbn [DiffFormatter.search_header].
    destruct (if prefix marker (String a line) then _ else None)
      as [g'|] eqn:Hhere.
    + intros _. destruct (prefix marker (String a line)); [|discriminate].
      apply after_marker_any_tail in Hhere.
      now apply any_tail_drop in Hhere.
    + intros H. apply IH in H. cbn [any_tail]. rewrite H. apply orb_true_r.
Qed.

Lemma search_header_group (marker line g : string) :
  DiffFormatter.search_header marker line = Some g ->
  any_tail g = false /\ no_LF g = true.
Proof.
  induction line as [|a line IH].
  - simpl. destruct marker; discriminate.
  - cbn [DiffFormatter.search_header].
    destruct (if prefix marker (String a line) then _ else None)
      as [g'|] eqn:Hhere.
    + intros Hg. injection Hg as <-.
      destruct (prefix marker (String a line)); [|discriminate].
      now apply after_marker_group in Hhere.
    + exact IH.
Qed.

Lemma replace_slash_tail (s : string) :
  DiffFormatter.tail_matches (PyStr.replace_char "\" "/" s)
  = DiffFormatter.tail_matches s
  /\ DiffFormatter.ws_then_paren (PyStr.replace_char "\" "/" s)
     = DiffFormatter.ws_then_paren s.
Proof.
  assert (Hws : forall t,
    DiffFormatter.ws_then_paren (PyStr.replace_char "\" "/" t)
    = DiffFormatter.ws_then_paren t).
  { induction t as [|a t IH]; [reflexivity|]. simpl.
    destruct (Ascii.eqb a "\") eqn:Ha.
    - apply Ascii.eqb_eq in Ha. subst a. reflexivity.
    - now rewrite IH. }
  split; [|apply Hws].
  destruct s as [|a s]; [reflexivity|]. simpl. rewrite Hws.
  destruct (Ascii.eqb a "\") eqn:Ha; [|reflexivity].
  apply Ascii.eqb_eq in Ha. subst a. reflexivity.
Qed.

Lemma replace_slash_any_tail (s : string) :
  any_tail (PyStr.replace_char "\" "/" s) = any_tail s.
Proof.
  induction s as [|a s IH]; [reflexivity|].
  change (PyStr.replace_char "\" "/" (String a s))
    with (String (if Ascii.eqb a "\" then "/"%char else a)
                 (PyStr.replace_char "\" "/" s)).
  cbn [any_tail]. rewrite IH. f_equal.
  apply (replace_slash_tail (String a s)).
Qed.

Lemma replace_slash_no_LF (s : string) :
  no_LF (PyStr.replace_char "\" "/" s) = no_LF s.
Proof.
  unfold no_LF. induction s as [|a s IH]; [reflexivity|]. simpl.
  rewrite IH. destruct (Ascii.eqb a "\") eqn:Ha; [|reflexivity].
  apply Ascii.eqb_eq in Ha. subst a. reflexivity.
Qed.

Lemma search_header_none (marker line : string) :
  any_tail line = false -> DiffFormatter.search_header marker line = None.
Proof.
  intros H. destruct (DiffFormatter.search_header marker line) eqn:Hs;
    [|reflexivity].
  apply search_header_any_tail in Hs. congruence.
Qed.

(** ** [format_to_github_style] *)

Section Headers.

Variables marker side : string.

Hypothesis Hmarker :
  (marker = "---" /\ side = "a") \/ (marker = "+++" /\ side = "b").

Lemma header_line_idem (file_path : option string) (line : string) :
  DiffFormatter.header_line marker side file_path
    (DiffFormatter.header_line marker side file_path line)
  = DiffFormatter.header_line marker side file_path line.
Proof.
  unfold DiffFormatter.header_line.
  destruct (truthy_opt file_path); [reflexivity|].
  destruct (DiffFormatter.search_header marker line) as [g|] eqn:Hs.
  - rewrite search_header_none; [reflexivity|].
    apply search_header_group in Hs as [Hg _].
    rewrite <- (replace_slash_any_tail g) in Hg.
    destruct Hmarker as [[-> ->]|[-> ->]]; exact Hg.
  - now rewrite Hs.
Qed.

Lemma header_line_starts (file_path : option string) (line : string) :
  PyStr.startswith line marker = true ->
  PyStr.startswith (DiffFormatter.header_line marker side file_path line)
    marker = true.
Proof.
  intros Hline. unfold DiffFormatter.header_line.
  destruct (truthy_opt file_path).
  - destruct Hmarker as [[-> ->]|[-> ->]]; reflexivity.
  - destruct (DiffFormatter.search_header marker line); [|exact Hline].
    destruct Hmarker as [[-> ->]|[-> ->]]; reflexivity.
Qed.

Lemma header_line_no_LF (file_path : option string) (line : string) :
  no_LF line = true ->
  no_LF (given file_path) = true ->
  no_LF (DiffFormatter.header_line marker side file_path line) = true.
Proof.
  intros Hline Hpath. unfold DiffFormatter.header_line.
  destruct (truthy_opt file_path).
  - destruct Hmarker as [[-> ->]|[-> ->]]; exact Hpath.
  - destruct (DiffFormatter.search_header marker line) as [g|] eqn:Hs;
      [|exact Hline].
    apply search_header_group in Hs as [_ Hg].
    rewrite <- (replace_slash_no_LF g) in Hg.
    destruct Hmarker as [[-> ->]|[-> ->]]; exact Hg.
Qed.

End Headers.

Lemma starts_dashes (s : string) :
  PyStr.startswith s "---" = true ->
  PyStr.startswith s "Index:" = false
  /\ PyStr.startswith s "=====" = false
  /\ exists r, s = String "-" r.
Proof.
  unfold PyStr.startswith. destruct s as [|c s]; [discriminate|].
  cbn [prefix]. destruct (ascii_dec "-" c) as [<-|]; [|discriminate].
  intros _. repeat split; try reflexivity. now exists s.
Qed.

Lemma starts_pluses (s : string) :
  PyStr.startswith s "+++" = true ->
  PyStr.startswith s "Index:" = false
  /\ PyStr.startswith s "=====" = false
  /\ PyStr.startswith s "---" = false
  /\ exists r, s = String "+" r.
Proof.
  unfold PyStr.startswith. destruct s as [|c s]; [discriminate|].
  cbn [prefix]. destruct (ascii_dec "+" c) as [<-|]; [|discriminate].
  intros _. repeat split; try reflexivity. now exists s.
Qed.

Lemma format_lines_idem (file_path : option string) (lines : list string)
    (b : bool) :
  DiffFormatter.format_lines file_path b
    (DiffFormatter.format_lines file_path b lines)
  = DiffFormatter.format_lines file_path b lines.
Proof.
  revert b. induction lines as [|line rest IH]; intros b; [reflexivity|].
  cbn [DiffFormatter.format_lines].
  destruct (PyStr.startswith line "Index:") eqn:HI; [apply IH|].
  destruct (PyStr.startswith line "=====") eqn:HE; [apply IH|].
  destruct (PyStr.startswith line "---") eqn:HD.
  - pose proof (header_line_starts "---" "a" (or_introl (conj eq_refl eq_refl))
                  file_path line HD) as Hstart.
    destruct (starts_dashes _ Hstart) as [HI' [HE' _]].
    cbn [DiffFormatter.format_lines]. rewrite HI', HE', Hstart.
    rewrite header_line_idem by (left; now split).
    f_equal. apply IH.
  - destruct (PyStr.startswith line "+++") eqn:HP.
    + pose proof (header_line_starts "+++" "b"
                    (or_intror (conj eq_refl eq_refl)) file_path line HP)
        as Hstart.
      destruct (starts_pluses _ Hstart) as [HI' [HE' [HD' _]]].
      cbn [DiffFormatter.format_lines]. rewrite HI', HE', HD', Hstart.
      rewrite header_line_idem by (right; now split).
      f_equal. apply IH.
    + destruct b; [|apply IH].
      cbn [DiffFormatter.format_lines]. rewrite HI, HE, HD, HP.
      f_equal. apply IH.
Qed.

Lemma format_lines_no_LF (file_path : option string) (lines : list string)
    (b : bool) :
  no_LF (given file_path) = true ->
  Forall (fun line => no_LF line = true) lines ->
  Forall (fun line => no_LF line = true)
    (DiffFormatter.format_lines file_path b lines).
Proof.
  intros Hpath Hall. revert b.
  induction Hall as [|line rest Hline _ IH]; intros b; [constructor|].
  cbn [DiffFormatter.format_lines].
  destruct (PyStr.startswith line "Index:"); [apply IH|].
  destruct (PyStr.startswith line "====="); [apply IH|].
  destruct (PyStr.startswith line "---").
  - constructor; [|apply IH].
    apply header_line_no_LF; auto.
  - destruct (PyStr.startswith line "+++").
    + constructor; [|apply IH].
      apply header_line_no_LF; auto.
    + destruct b; [|apply IH]. constructor; [exact Hline|apply IH].
Qed.

(** The first line put out is a header line. *)
Lemma format_lines_head (file_path : option string) (lines : list string)
    (h : string) (t : list string) :
  DiffFormatter.format_lines file_path false lines = h :: t ->
  exists c r, h = String c r /\ PyStr.isspace c = false.
Proof.
  induction lines as [|line rest IH]; [discriminate|].
  cbn [DiffFormatter.format_lines].
  destruct (PyStr.startswith line "Index:"); [exact IH|].
  destruct (PyStr.startswith line "====="); [exact IH|].
  destruct (PyStr.startswith line "---") eqn:HD.
  - intros H. injection H as <- _.
    pose proof (header_line_starts "---" "a" (or_introl (conj eq_refl eq_refl))
                  file_path line HD) as Hstart.
    destruct (starts_dashes _ Hstart) as [_ [_ [r Hr]]].
    now exists "-"%char, r.
  - destruct (PyStr.startswith line "+++") eqn:HP; [|exact IH].
    intros H. injection H as <- _.
    pose proof (header_line_starts "+++" "b"
                  (or_intror (conj eq_refl eq_refl)) file_path line HP)
      as Hstart.
    destruct (starts_pluses _ Hstart) as [_ [_ [_ [r Hr]]]].
    now exists "+"%char, r.
Qed.

(** C7, as the code has it: formatting is idempotent for every diff text
    and every path without a line feed, given or recovered. *)
Theorem format_to_github_style_idempotent (svn_diff : string)
    (file_path : option string) :
  no_LF (given file_path) = true ->
  DiffFormatter.format_to_github_style
    (DiffFormatter.format_to_github_style svn_diff file_path) file_path
  = DiffFormatter.format_to_github_style svn_diff file_path.
Proof.
  intros Hpath. unfold DiffFormatter.format_to_github_style at 2 3.
  destruct (negb (PyStr.truthy svn_diff)
            || negb (PyStr.truthy (PyStr.strip svn_diff))); [reflexivity|].
  pose proof (format_lines_no_LF file_path _ false Hpath
                (split_no_LF svn_diff)) as Hlf.
  pose proof (format_lines_idem file_path (PyStr.split PyStr.LF svn_diff)
                false) as Hidem.
  destruct (DiffFormatter.format_lines file_path false
              (PyStr.split PyStr.LF svn_diff)) as [|h t] eqn:Hout;
    [reflexivity|].
  destruct (format_lines_head _ _ _ _ Hout) as [c [r [-> Hc]]].
  unfold DiffFormatter.format_to_github_style.
  assert (Hjoin : exists r',
            PyStr.join (String PyStr.LF "") (String c r :: t) = String c r').
  { destruct t; simpl; eauto. }
  destruct Hjoin as [r' Hjoin].
  assert (Hcheck : negb (PyStr.truthy
                           (PyStr.join (String PyStr.LF "") (String c r :: t)))
                   || negb (PyStr.truthy
                              (PyStr.strip
                                 (PyStr.join (String PyStr.LF "")
                                    (String c r :: t)))) = false).
  { rewrite Hjoin, (strip_truthy _ _ Hc). reflexivity. }
  rewrite Hcheck, split_join, Hidem; [reflexivity|discriminate|exact Hlf].
Qed.

(** C7 fails as stated: with a path that holds a line feed, a second
    pass adds a line. *)
Lemma format_to_github_style_not_idempotent :
  DiffFormatter.format_to_github_style "--- foo" (Some Examples.broken_path)
  = "--- a/x" ++ Examples.nl ++ "y"
  /\ DiffFormatter.format_to_github_style
       (DiffFormatter.format_to_github_style "--- foo"
          (Some Examples.broken_path))
       (Some Examples.broken_path)
     = "--- a/x" ++ Examples.nl ++ "y" ++ Examples.nl ++ "y"
  /\ (DiffFormatter.format_to_github_style
        (DiffFormatter.format_to_github_style "--- foo"
           (Some Examples.broken_path))
        (Some Examples.broken_path)
      =? DiffFormatter.format_to_github_style "--- foo"
           (Some Examples.broken_path)) = false.
Proof. repeat split; vm_compute; reflexivity. Qed.

(** ** The theorems at work on the example runs *)

Lemma get_commit_info_revisions_witness :
  exists ci st',
    SubversionWebhook.get_commit_info
      (Examples.env (Some Examples.info_xml) Examples.log_with_paths
         Examples.text_diff) "42" "github" Examples.st0
    = (st', Some (Some ci))
    /\ PyStr.int "42" = Some 42%Z
    /\ List.length (changed_files ci) = 3%nat
    /\ Forall (fun fc =>
         commit_revisions "42" 42 fc
         /\ (action fc = MODIFIED \/ action fc = REPLACED ->
             old_revision fc <> None /\ new_revision fc <> None))
         (changed_files ci).
Proof.
  eexists _, _. split; [vm_compute; reflexivity|].
  split; [reflexivity|]. split; [reflexivity|].
  eapply (get_commit_info_revisions
            (Examples.env (Some Examples.info_xml) Examples.log_with_paths
               Examples.text_diff) "42" "github" 42 Examples.st0);
    vm_compute; reflexivity.
Defined.

Lemma get_file_diff_command_witness :
  issued (fst (SubversionWebhook.get_file_diff
                 (Examples.env None "" Examples.text_diff) "App.java"
                 (Some "41") (Some "42") "github" Examples.st0))
  = [["diff"; "-r"; "41:42"; "App.java"]].
Proof.
  apply (proj1 (get_file_diff_command
                  (Examples.env None "" Examples.text_diff) "App.java"
                  "github" Examples.st0) "41" "42"); discriminate.
Defined.

Lemma unknown_action_codes_skipped_witness :
  exists wc st',
    SubversionWebhook.get_working_copy_changes
      (Examples.env (Some Examples.info_xml) "" Examples.summarized_output)
      None "github" Examples.st0
    = (st', Some (Some wc))
    /\ Forall2 record_of_line
         (filter recorded_line
            (PyStr.split PyStr.LF (PyStr.strip Examples.summarized_output)))
         (wc_changed_files wc).
Proof.
  eapply (proj1 (proj2 (proj2 (proj2 (proj2
            (unknown_action_codes_skipped
               (Examples.env (Some Examples.info_xml) ""
                  Examples.summarized_output)))))) "github" Examples.st0
            _ _ _ (mkResult 0 Examples.summarized_output ""));
    vm_compute; reflexivity.
Defined.

Lemma get_commit_info_without_repo_info_witness :
  repo_uuid (mkCommitInfo "42" "bob" "2025-08-18T03:23:30.945026" "tag"
               [] "") = ""
  /\ exists target w log root logentry,
       Examples.scripted None Examples.log_without_paths Examples.text_diff
         tt "/work/repo1/trunk" ["svn"; "log"; "-v"; "-r"; target; "--xml"]
       = (w, Some log)
       /\ success log = true
       /\ Examples.parse (stdout log) = Some root
       /\ ET.find root ["logentry"] = Some logentry.
Proof.
  eapply (get_commit_info_without_repo_info
            (Examples.env None Examples.log_without_paths Examples.text_diff)
            "42" "github" Examples.st0);
    vm_compute; reflexivity.
Defined.

Lemma build_payload_empty_without_repo_info_witness :
  snd (SubversionWebhook._build_svn_webhook_payload
         (Examples.env None "" "") "Pre-Commit" None None
         (Some "fix the build") None Examples.st0) = Some [].
Proof.
  apply (build_payload_empty_without_repo_info (Examples.env None "" "")).
  vm_compute. reflexivity.
Defined.

Lemma format_to_github_style_idempotent_witness :
  DiffFormatter.format_to_github_style
    (DiffFormatter.format_to_github_style Examples.text_diff
       (Some "App.java")) (Some "App.java")
  = DiffFormatter.format_to_github_style Examples.text_diff (Some "App.java").
Proof.
  apply (format_to_github_style_idempotent Examples.text_diff
           (Some "App.java")).
  reflexivity.
Defined.

Lemma filter_changes_entries_witness :
  exists out,
    WebhookHandler.filter_changes None Examples.sample_changes = Some out
    /\ List.length out = 2%nat
    /\ Forall2 derived_entry
         (filter (survives (WebhookHandler.supported_extensions None))
            Examples.sample_changes) out
    /\ Forall (fun e =>
         keys e = kept_fields
         /\ dict_get e "action" <> Some (JStr "D")
         /\ exists s ext,
              dict_get e "new_path" = Some (JStr s)
              /\ In ext (WebhookHandler.supported_extensions None)
              /\ PyStr.endswith s ext = true) out.
Proof.
  eexists. split; [vm_compute; reflexivity|]. split; [reflexivity|].
  apply (filter_changes_entries None Examples.sample_changes).
  vm_compute. reflexivity.
Defined.

Lemma get_commit_changes_by_event_witness :
  (exists self,
     WebhookHandler.parse_event_data Examples.sample_event = Some self
     /\ WebhookHandler.get_commit_changes self
        = JList [JDict [("new_path", JStr "a.py")]])
  /\ (exists self,
        WebhookHandler.parse_event_data Examples.merge_event = Some self
        /\ WebhookHandler.get_commit_changes self = JList []).
Proof.
  split; eexists; (split; [vm_compute; reflexivity|]).
  - apply (proj1 (proj2 (get_commit_changes_by_event Examples.sample_event
                           _ eq_refl))).
    + left. reflexivity.
    + reflexivity.
  - apply (proj1 (get_commit_changes_by_event Examples.merge_event
                    _ eq_refl)); discriminate.
Defined.

(** * Further properties *)

(** ** Counting diff lines *)

Lemma count_lines_cons (line : string) (rest : list string) (a d : Z) :
  DiffFormatter.count_lines (line :: rest) a d
  = DiffFormatter.count_lines rest (a + fst (line_counts line))%Z
      (d + snd (line_counts line))%Z.
Proof.
  cbn [DiffFormatter.count_lines]. unfold line_counts.
  destruct (PyStr.startswith line "+" && negb (PyStr.startswith line "+++")).
  - simpl. now rewrite Z.add_0_r.
  - destruct (PyStr.startswith line "-"
              && negb (PyStr.startswith line "---")); simpl;
      now rewrite ?Z.add_0_r.
Qed.

Lemma count_lines_shift (lines : list string) (a d : Z) :
  DiffFormatter.count_lines lines a d
  = (a + fst (DiffFormatter.count_lines lines 0 0),
     d + snd (DiffFormatter.count_lines lines 0 0))%Z.
Proof.
  revert a d. induction lines as [|line rest IH]; intros a d.
  - simpl. now rewrite !Z.add_0_r.
  - rewrite !count_lines_cons, IH.
    rewrite (IH (0 + _)%Z (0 + _)%Z). simpl. f_equal; lia.
Qed.

Lemma count_lines_app (l1 l2 : list string) :
  DiffFormatter.count_lines (l1 ++ l2)%list 0 0
  = (fst (DiffFormatter.count_lines l1 0 0)
     + fst (DiffFormatter.count_lines l2 0 0),
     snd (DiffFormatter.count_lines l1 0 0)
     + snd (DiffFormatter.count_lines l2 0 0))%Z.
Proof.
  induction l1 as [|line rest IH].
  - simpl. now destruct (DiffFormatter.count_lines l2 0 0).
  - cbn [app]. rewrite !count_lines_cons.
    rewrite (count_lines_shift (rest ++ l2)%list), (count_lines_shift rest).
    rewrite IH. simpl. f_equal; lia.
Qed.

Lemma line_counts_bounds (line : string) :
  (0 <= fst (line_counts line) /\ 0 <= snd (line_counts line)
   /\ fst (line_counts line) + snd (line_counts line) <= 1)%Z.
Proof.
  unfold line_counts.
  destruct (_ && _); [simpl; lia|]. destruct (_ && _); simpl; lia.
Qed.

Lemma count_lines_bounds (lines : list string) :
  (0 <= fst (DiffFormatter.count_lines lines 0 0)
   /\ 0 <= snd (DiffFormatter.count_lines lines 0 0)
   /\ fst (DiffFormatter.count_lines lines 0 0)
      + snd (DiffFormatter.count_lines lines 0 0)
      <= Z.of_nat (List.length lines))%Z.
Proof.
  induction lines as [|line rest IH]; [simpl; lia|].
  rewrite count_lines_cons, count_lines_shift.
  pose proof (line_counts_bounds line).
  cbn [fst snd List.length]. lia.
Qed.

Lemma extract_diff_stats_lines (diff_content : string) :
  DiffFormatter.extract_diff_stats diff_content
  = DiffFormatter.count_lines (PyStr.split PyStr.LF diff_content) 0 0.
Proof.
  unfold DiffFormatter.extract_diff_stats.
  now destruct diff_content.
Qed.

Lemma split_app_sep (c : ascii) (a b : string) :
  PyStr.split c (a ++ String c b)
  = (PyStr.split c a ++ PyStr.split c b)%list.
Proof.
  induction a as [|x a IH].
  - simpl. now rewrite Ascii.eqb_refl.
  - cbn [append PyStr.split]. rewrite IH.
    destruct (Ascii.eqb x c); [reflexivity|].
    pose proof (split_nonempty c a) as Hne.
    destruct (PyStr.split c a) as [|h t]; [contradiction|reflexivity].
Qed.

(** X1: the counts of [extract_diff_stats] are never negative, together
    they are at most the number of lines, and the empty text has none. *)
Theorem extract_diff_stats_bounds (diff_content : string) :
  (0 <= fst (DiffFormatter.extract_diff_stats diff_content)
   /\ 0 <= snd (DiffFormatter.extract_diff_stats diff_content)
   /\ fst (DiffFormatter.extract_diff_stats diff_content)
      + snd (DiffFormatter.extract_diff_stats diff_content)
      <= Z.of_nat (List.length (PyStr.split PyStr.LF diff_content)))%Z
  /\ DiffFormatter.extract_diff_stats "" = (0, 0)%Z.
Proof.
  split; [|reflexivity].
  rewrite extract_diff_stats_lines. apply count_lines_bounds.
Qed.

(** X2: the counts of two texts put one after the other, a line feed
    between them, are the sums of their counts. *)
Theorem extract_diff_stats_concat (a b : string) :
  DiffFormatter.extract_diff_stats (a ++ String PyStr.LF b)
  = (fst (DiffFormatter.extract_diff_stats a)
     + fst (DiffFormatter.extract_diff_stats b),
     snd (DiffFormatter.extract_diff_stats a)
     + snd (DiffFormatter.extract_diff_stats b))%Z.
Proof.
  rewrite !extract_diff_stats_lines, split_app_sep. apply count_lines_app.
Qed.

(** ** Lines of the formatted diff *)

Lemma line_counts_dashes (s : string) :
  PyStr.startswith s "---" = true -> line_counts s = (0, 0)%Z.
Proof.
  intros H. destruct (starts_dashes _ H) as [_ [_ [r ->]]].
  unfold line_counts. rewrite H. destruct r; vm_compute; reflexivity.
Qed.

Lemma line_counts_pluses (s : string) :
  PyStr.startswith s "+++" = true -> line_counts s = (0, 0)%Z.
Proof.
  intros H. destruct (starts_pluses _ H) as [_ [_ [_ [r ->]]]].
  unfold line_counts. rewrite H. destruct r; vm_compute; reflexivity.
Qed.

Lemma format_lines_counts (file_path : option string) (lines : list string)
    (b : bool) :
  (fst (DiffFormatter.count_lines
          (DiffFormatter.format_lines file_path b lines) 0 0)
   <= fst (DiffFormatter.count_lines lines 0 0)
   /\ snd (DiffFormatter.count_lines
             (DiffFormatter.format_lines file_path b lines) 0 0)
      <= snd (DiffFormatter.count_lines lines 0 0))%Z.
Proof.
  revert b. induction lines as [|line rest IH]; intros b; [simpl; lia|].
  rewrite (count_lines_cons line), (count_lines_shift rest).
  pose proof (line_counts_bounds line) as Hline.
  cbn [DiffFormatter.format_lines fst snd].
  destruct (PyStr.startswith line "Index:");
    [specialize (IH b); lia|].
  destruct (PyStr.startswith line "=====");
    [specialize (IH b); lia|].
  destruct (PyStr.startswith line "---") eqn:HD.
  - rewrite count_lines_cons, count_lines_shift.
    rewrite (line_counts_dashes _
               (header_line_starts "---" "a"
                  (or_introl (conj eq_refl eq_refl)) file_path line HD)).
    specialize (IH true). cbn [fst snd]. lia.
  - destruct (PyStr.startswith line "+++") eqn:HP.
    + rewrite count_lines_cons, count_lines_shift.
      rewrite (line_counts_pluses _
                 (header_line_starts "+++" "b"
                    (or_intror (conj eq_refl eq_refl)) file_path line HP)).
      specialize (IH b). cbn [fst snd]. lia.
    + destruct b.
      * rewrite count_lines_cons, count_lines_shift.
        specialize (IH true). cbn [fst snd]. lia.
      * specialize (IH false). lia.
Qed.

Lemma formatted_lines (svn_diff : string) (file_path : option string) :
  no_LF (given file_path) = true ->
  DiffFormatter.format_to_github_style svn_diff file_path = ""
  \/ PyStr.split PyStr.LF
       (DiffFormatter.format_to_github_style svn_diff file_path)
     = DiffFormatter.format_lines file_path false
         (PyStr.split PyStr.LF svn_diff).
Proof.
  intros Hpath. unfold DiffFormatter.format_to_github_style.
  destruct (_ || _); [now left|].
  pose proof (format_lines_no_LF file_path _ false Hpath
                (split_no_LF svn_diff)) as Hlf.
  destruct (DiffFormatter.format_lines file_path false
              (PyStr.split PyStr.LF svn_diff)) as [|h t]; [now left|].
  right. apply split_join; [discriminate|exact Hlf].
Qed.

(** X3: reformatting a diff never raises its counts. *)
Theorem format_to_github_style_counts (svn_diff : string)
    (file_path : option string) :
  no_LF (given file_path) = true ->
  (fst (DiffFormatter.extract_diff_stats
          (DiffFormatter.format_to_github_style svn_diff file_path))
   <= fst (DiffFormatter.extract_diff_stats svn_diff)
   /\ snd (DiffFormatter.extract_diff_stats
             (DiffFormatter.format_to_github_style svn_diff file_path))
      <= snd (DiffFormatter.extract_diff_stats svn_diff))%Z.
Proof.
  intros Hpath.
  destruct (formatted_lines svn_diff file_path Hpath) as [-> | Hlines].
  - pose proof (count_lines_bounds (PyStr.split PyStr.LF svn_diff)).
    rewrite (extract_diff_stats_lines svn_diff). simpl. lia.
  - rewrite !extract_diff_stats_lines, Hlines. apply format_lines_counts.
Qed.

(** A line of a diff formatted for the path [p]. *)
Lemma format_lines_shape (p : string) (lines : list string) (b : bool) :
  PyStr.truthy p = true ->
  Forall (fun line =>
    PyStr.startswith line "Index:" = false
    /\ PyStr.startswith line "=====" = false
    /\ (PyStr.startswith line "---" = true -> line = "--- a/" ++ p)
    /\ (PyStr.startswith line "+++" = true -> line = "+++ b/" ++ p))
    (DiffFormatter.format_lines (Some p) b lines).
Proof.
  intros Hp. revert b. induction lines as [|line rest IH]; intros b;
    [constructor|].
  cbn [DiffFormatter.format_lines].
  destruct (PyStr.startswith line "Index:") eqn:HI; [apply IH|].
  destruct (PyStr.startswith line "=====") eqn:HE; [apply IH|].
  unfold DiffFormatter.header_line. cbn [truthy_opt given]. rewrite Hp.
  destruct (PyStr.startswith line "---") eqn:HD.
  - constructor; [|apply IH]. repeat split; try reflexivity.
    intros H. discriminate H.
  - destruct (PyStr.startswith line "+++") eqn:HP.
    + constructor; [|apply IH]. repeat split; try reflexivity.
      intros H. discriminate H.
    + destruct b; [|apply IH]. constructor; [|apply IH].
      repeat split; try assumption; intros H; congruence.
Qed.

(** X4: in a diff formatted for a path [p], no line starts with
    [Index:] or [=====], every line that starts with [---] is
    [--- a/p] and every line that starts with [+++] is [+++ b/p]. *)
Theorem format_to_github_style_lines (svn_diff p : string) :
  PyStr.truthy p = true ->
  no_LF p = true ->
  Forall (fun line =>
    PyStr.startswith line "Index:" = false
    /\ PyStr.startswith line "=====" = false
    /\ (PyStr.startswith line "---" = true -> line = "--- a/" ++ p)
    /\ (PyStr.startswith line "+++" = true -> line = "+++ b/" ++ p))
    (PyStr.split PyStr.LF
       (DiffFormatter.format_to_github_style svn_diff (Some p))).
Proof.
  intros Hp Hlf.
  destruct (formatted_lines svn_diff (Some p) Hlf) as [-> | ->].
  - constructor; [|constructor].
    repeat split; try reflexivity; intros H; discriminate H.
  - now apply format_lines_shape.
Qed.

(** ** Recognising binary diffs *)

Lemma prefix_app (n s b : string) :
  prefix n s = true -> prefix n (s ++ b) = true.
Proof.
  revert s. induction n as [|x n IH]; intros s;
    [now destruct s, b|].
  destruct s as [|y s]; [discriminate|]. cbn [prefix append].
  destruct (ascii_dec x y); [apply IH|discriminate].
Qed.

Lemma contains_app_r (n s b : string) :
  PyStr.contains n s = true -> PyStr.contains n (s ++ b) = true.
Proof.
  induction s as [|y s IH].
  - cbn [PyStr.contains]. rewrite orb_false_r. intros H.
    destruct n; [|discriminate]. now destruct b.
  - cbn [PyStr.contains append]. intros H.
    apply orb_true_iff in H as [H|H].
    + change (String y (s ++ b)) with (String y s ++ b).
      now rewrite (prefix_app _ _ b H).
    + rewrite (IH H). apply orb_true_r.
Qed.

Lemma contains_app_l (n a s : string) :
  PyStr.contains n s = true -> PyStr.contains n (a ++ s) = true.
Proof.
  intros H. induction a as [|x a IH]; [exact H|].
  cbn [append PyStr.contains]. rewrite IH. apply orb_true_r.
Qed.

Lemma lower_app (a b : string) :
  PyStr.lower (a ++ b) = PyStr.lower a ++ PyStr.lower b.
Proof. induction a as [|x a IH]; simpl; [reflexivity|now rewrite IH]. Qed.

Lemma lower_truthy (s : string) :
  PyStr.truthy (PyStr.lower s) = PyStr.truthy s.
Proof. now destruct s. Qed.

(** X5: whether a text is taken for a binary diff depends on the text up
    to the case of its letters only, and a text that holds one taken for
    binary is taken for binary too. *)
Theorem is_binary_diff_case_and_context :
  (forall d1 d2, PyStr.lower d1 = PyStr.lower d2 ->
     DiffFormatter.is_binary_diff d1 = DiffFormatter.is_binary_diff d2)
  /\ (forall a d b, DiffFormatter.is_binary_diff d = true ->
        DiffFormatter.is_binary_diff (a ++ d ++ b) = true).
Proof.
  split.
  - intros d1 d2 H. unfold DiffFormatter.is_binary_diff.
    rewrite <- (lower_truthy d1), <- (lower_truthy d2), H. reflexivity.
  - intros a d b. unfold DiffFormatter.is_binary_diff.
    destruct d as [|x d]; [discriminate|]. cbn [PyStr.truthy negb].
    assert (Ht : PyStr.truthy (a ++ String x d ++ b) = true)
      by (destruct a; reflexivity).
    rewrite Ht. cbn [negb]. rewrite !lower_app.
    unfold DiffFormatter.binary_indicators. cbn [existsb].
    rewrite !orb_false_r. intros H.
    now apply contains_app_l, contains_app_r.
Qed.

(** ** What [get_file_diff] returns *)

Section FileDiffResult.

Context (E : Env).

Lemma get_file_diff_cases (file_path style : string) (o n : option string)
    (st : St (World E)) :
  exists dc la ld b,
    snd (SubversionWebhook.get_file_diff E file_path o n style st)
    = Some (dc, la, ld, b)
    /\ (0 <= la)%Z /\ (0 <= ld)%Z
    /\ (b = true -> la = 0%Z /\ ld = 0%Z)
    /\ (dc = None -> la = 0%Z /\ ld = 0%Z /\ b = false)
    /\ (forall w r,
          run E (world st) (abspath st)
              ("svn" :: SubversionWebhook.diff_cmd file_path o n)
          = (w, Some r) ->
          success r = true ->
          b = DiffFormatter.is_binary_diff (stdout r)
          /\ (la, ld) = (if b then (0, 0)%Z
                         else DiffFormatter.extract_diff_stats (stdout r))
          /\ dc = Some (if b then stdout r
                        else if style =? "github"
                             then DiffFormatter.format_to_github_style
                                    (stdout r) (Some file_path)
                             else stdout r))
    /\ (forall w r,
          run E (world st) (abspath st)
              ("svn" :: SubversionWebhook.diff_cmd file_path o n) = (w, r) ->
          r = None \/ (exists res, r = Some res /\ success res = false) ->
          dc = None).
Proof.
  unfold SubversionWebhook.get_file_diff, catch, bind,
    SubversionWebhook.svn_command, SubversionWebhook._build_svn_command.
  destruct (run E _ _ _) as [w' [r|]] eqn:Hrun; simpl.
  - destruct (success r) eqn:Hok; simpl.
    + destruct (DiffFormatter.is_binary_diff (stdout r)) eqn:Hbin; simpl.
      * eexists _, _, _, _. split; [reflexivity|].
        split; [lia|]. split; [lia|]. split; [now split|].
        split; [discriminate|]. split.
        -- intros w0 r0 H _. injection H as _ <-. now rewrite Hbin.
        -- intros w0 r0 H [->|[res [-> Hres]]]; [discriminate|].
           injection H as _ <-. congruence.
      * pose proof (extract_diff_stats_lines (stdout r)) as Heq.
        pose proof (count_lines_bounds (PyStr.split PyStr.LF (stdout r)))
          as Hb.
        destruct (DiffFormatter.extract_diff_stats (stdout r)) as [la ld]
          eqn:Hstats.
        rewrite <- Heq in Hb. simpl in Hb.
        eexists _, _, _, _. split; [reflexivity|].
        split; [lia|]. split; [lia|]. split; [discriminate|].
        split; [discriminate|]. split.
        -- intros w0 r0 H _. injection H as _ <-.
           now rewrite Hbin, Hstats.
        -- intros w0 r0 H [->|[res [-> Hres]]]; [discriminate|].
           injection H as _ <-. congruence.
    + eexists _, _, _, _. split; [reflexivity|].
      split; [lia|]. split; [lia|]. split; [discriminate|].
      split; [now repeat split|]. split.
      * intros w0 r0 H Hs. injection H as _ <-. congruence.
      * reflexivity.
  - eexists _, _, _, _. split; [reflexivity|].
    split; [lia|]. split; [lia|]. split; [discriminate|].
    split; [now repeat split|]. split.
    + intros w0 r0 H. discriminate H.
    + reflexivity.
Qed.

Lemma get_file_diff_sound (file_path style : string) (o n : option string)
    (st st' : St (World E)) (dc : option string) (la ld : Z) (b : bool)
    (p : string) (act : SVNFileAction) (old new : option string) :
  SubversionWebhook.get_file_diff E file_path o n style st
  = (st', Some (dc, la, ld, b)) ->
  sound_counts (mkFileChange p act dc old new la ld b).
Proof.
  intros H.
  destruct (get_file_diff_cases file_path style o n st)
    as [dc' [la' [ld' [b' [Heq [Ha [Hd [Hbin [Hnone _]]]]]]]]].
  rewrite H in Heq. simpl in Heq. injection Heq as <- <- <- <-.
  unfold sound_counts. simpl. auto.
Qed.

(** X6: [get_file_diff] always answers; its counts are never negative,
    zero for a binary file and when no diff came back; when the command
    succeeds the counts are those of the raw output, whatever the style,
    and when it fails no diff comes back. *)
Theorem get_file_diff_result (file_path style : string)
    (o n : option string) (st : St (World E)) :
  exists dc la ld b,
    snd (SubversionWebhook.get_file_diff E file_path o n style st)
    = Some (dc, la, ld, b)
    /\ (0 <= la)%Z /\ (0 <= ld)%Z
    /\ (b = true -> la = 0%Z /\ ld = 0%Z)
    /\ (dc = None -> la = 0%Z /\ ld = 0%Z /\ b = false)
    /\ (forall w r,
          run E (world st) (abspath st)
              ("svn" :: SubversionWebhook.diff_cmd file_path o n)
          = (w, Some r) ->
          success r = true ->
          b = DiffFormatter.is_binary_diff (stdout r)
          /\ (la, ld) = (if b then (0, 0)%Z
                         else DiffFormatter.extract_diff_stats (stdout r))
          /\ dc = Some (if b then stdout r
                        else if style =? "github"
                             then DiffFormatter.format_to_github_style
                                    (stdout r) (Some file_path)
                             else stdout r))
    /\ (forall w r,
          run E (world st) (abspath st)
              ("svn" :: SubversionWebhook.diff_cmd file_path o n) = (w, r) ->
          r = None \/ (exists res, r = Some res /\ success res = false) ->
          dc = None).
Proof. apply get_file_diff_cases. Qed.

End FileDiffResult.

(** ** [get_repo_info] *)

Section RepoInfo.

Context (E : Env).

Lemma find_text_some (root : Element) (path : list string)
    (st st' : St (World E)) (t : option string) :
  SubversionWebhook.find_text E root path st = (st', Some t) ->
  st' = st /\ exists e, ET.find root path = Some e /\ ET.text e = t.
Proof.
  unfold SubversionWebhook.find_text. intros H.
  inv_bind H as e st1 He. apply lift_some in He as [He ->].
  apply ret_some in H as [<- ->]. split; [reflexivity|now exists e].
Qed.

Lemma elem_text_some (root : Element) (path : list string) (e : Element)
    (t : string) :
  ET.find root path = Some e -> ET.text e = Some t ->
  elem_text root path = Some t.
Proof. unfold elem_text. now intros -> ->. Qed.

Lemma get_repo_info_success (st st' : St (World E)) (ri : SVNRepoInfo) :
  SubversionWebhook.get_repo_info E st = (st', Some (Some ri)) ->
  exists res root commit,
    run E (world st) (abspath st) ["svn"; "info"; "--xml"]
    = (world st', Some res)
    /\ success res = true
    /\ fromstring E (stdout res) = Some root
    /\ elem_text root ["entry"; "repository"; "uuid"] = Some (uuid ri)
    /\ elem_text root ["entry"; "url"] = Some (url ri)
    /\ elem_text root ["entry"; "relative-url"] = Some (relative_url ri)
    /\ elem_text root ["entry"; "repository"; "root"] = Some (root_url ri)
    /\ ET.find root ["entry"; "commit"] = Some commit
    /\ ET.attrib_get (ET.attrib commit) "revision" = Some (revision ri)
    /\ elem_text root ["entry"; "wc-info"; "wcroot-abspath"]
       = Some (abspath st')
    /\ issued st' = (issued st ++ [["info"; "--xml"]])%list.
Proof.
  intros H. apply catch_some in H.
  inv_bind H as res st1 Hres.
  unfold SubversionWebhook.svn_command,
    SubversionWebhook._build_svn_command in Hres.
  destruct (run E (world st) (abspath st) ["svn"; "info"; "--xml"])
    as [w' o] eqn:Hrun.
  injection Hres as <- ->.
  destruct (success res) eqn:Hok; cbn [negb] in H;
    [|apply ret_some in H as [H _]; discriminate].
  inv_bind H as root st2 Hroot. apply lift_some in Hroot as [Hroot ->].
  inv_bind H as uuid_t st3 Huuid.
  apply find_text_some in Huuid as [-> [e1 [Hf1 Ht1]]].
  inv_bind H as url_t st4 Hurl.
  apply find_text_some in Hurl as [-> [e2 [Hf2 Ht2]]].
  inv_bind H as rel_t st5 Hrel.
  apply find_text_some in Hrel as [-> [e3 [Hf3 Ht3]]].
  inv_bind H as root_t st6 Hroot_t.
  apply find_text_some in Hroot_t as [-> [e4 [Hf4 Ht4]]].
  inv_bind H as commit st7 Hcommit.
  apply lift_some in Hcommit as [Hcommit ->].
  inv_bind H as rev st8 Hrev. apply lift_some in Hrev as [Hrev ->].
  inv_bind H as wc_t st9 Hwc.
  apply find_text_some in Hwc as [-> [e5 [Hf5 Ht5]]].
  inv_bind H as wc st10 Hwc'. apply lift_some in Hwc' as [-> ->].
  inv_bind H as u st11 Hset.
  unfold SubversionWebhook.set_abspath in Hset. injection Hset as Hset _.
  subst st11.
  inv_bind H as uuid_s st12 H1. apply lift_some in H1 as [-> Hs12].
  subst st12.
  inv_bind H as url_s st13 H2. apply lift_some in H2 as [-> Hs13].
  subst st13.
  inv_bind H as rel_s st14 H3. apply lift_some in H3 as [-> Hs14].
  subst st14.
  inv_bind H as root_s st15 H4. apply lift_some in H4 as [-> Hs15].
  subst st15.
  apply ret_some in H as [H Hst]. subst st'. injection H as <-.
  exists res, root, commit. cbn [world abspath issued uuid url relative_url
                                  root_url revision].
  repeat split; try assumption; try reflexivity;
    eapply elem_text_some; eassumption.
Qed.

Lemma get_repo_info_failure (st : St (World E)) (w : World E)
    (r : option Result) :
  run E (world st) (abspath st) ["svn"; "info"; "--xml"] = (w, r) ->
  r = None \/ (exists res, r = Some res /\ success res = false) ->
  SubversionWebhook.get_repo_info E st
  = (mkSt w (abspath st) (issued st ++ [["info"; "--xml"]])%list, Some None).
Proof.
  intros Hrun Hfail.
  unfold SubversionWebhook.get_repo_info, catch, bind,
    SubversionWebhook.svn_command, SubversionWebhook._build_svn_command.
  rewrite Hrun. destruct Hfail as [-> | [res [-> Hres]]]; [reflexivity|].
  now rewrite Hres.
Qed.

Lemma bind_keeps {A B : Type} (m : M (World E) A)
    (k : A -> M (World E) B) :
  (forall st, issued (fst (m st)) = issued st) ->
  (forall a st, issued (fst (k a st)) = issued st) ->
  forall st, issued (fst (bind m k st)) = issued st.
Proof.
  intros Hm Hk st. unfold bind. specialize (Hm st).
  destruct (m st) as [st1 [a|]]; simpl in *; [|exact Hm].
  now rewrite Hk.
Qed.

Lemma lift_keeps {A : Type} (o : option A) (st : St (World E)) :
  issued (fst (lift o st)) = issued st.
Proof. now destruct o. Qed.

Lemma find_text_keeps (root : Element) (path : list string)
    (st : St (World E)) :
  issued (fst (SubversionWebhook.find_text E root path st)) = issued st.
Proof.
  unfold SubversionWebhook.find_text.
  apply bind_keeps; [apply lift_keeps|reflexivity].
Qed.

Lemma get_repo_info_issued (st : St (World E)) :
  issued (fst (SubversionWebhook.get_repo_info E st))
  = (issued st ++ [["info"; "--xml"]])%list.
Proof.
  unfold SubversionWebhook.get_repo_info, catch. unfold bind at 1.
  unfold SubversionWebhook.svn_command at 1.
  destruct (run E _ _ _) as [w' [res|]]; [|reflexivity].
  match goal with
  | |- context [(if negb (success res) then ?a else ?b) ?s] =>
      assert (Hk : issued (fst ((if negb (success res) then a else b) s))
                   = issued s)
  end.
  { destruct (negb (success res)); [reflexivity|].
    repeat (apply bind_keeps;
            [intros; first [apply lift_keeps | apply find_text_keeps
                            | reflexivity]
            |intros]).
    reflexivity. }
  match type of Hk with
  | issued (fst ?t) = _ => destruct t as [st2 [r|]]
  end; exact Hk.
Qed.

(** X7: [get_repo_info] issues the one command [info --xml]; when that
    command fails nothing is returned and the working directory stays;
    what it returns holds the texts of the XML elements, and then the
    working directory is the working-copy root the XML names. *)
Theorem get_repo_info_effects (st : St (World E)) :
  issued (fst (SubversionWebhook.get_repo_info E st))
  = (issued st ++ [["info"; "--xml"]])%list
  /\ (forall w r,
        run E (world st) (abspath st) ["svn"; "info"; "--xml"] = (w, r) ->
        r = None \/ (exists res, r = Some res /\ success res = false) ->
        snd (SubversionWebhook.get_repo_info E st) = Some None
        /\ abspath (fst (SubversionWebhook.get_repo_info E st)) = abspath st)
  /\ (forall st' ri,
        SubversionWebhook.get_repo_info E st = (st', Some (Some ri)) ->
        exists res root commit,
          run E (world st) (abspath st) ["svn"; "info"; "--xml"]
          = (world st', Some res)
          /\ success res = true
          /\ fromstring E (stdout res) = Some root
          /\ elem_text root ["entry"; "repository"; "uuid"] = Some (uuid ri)
          /\ elem_text root ["entry"; "url"] = Some (url ri)
          /\ elem_text root ["entry"; "relative-url"]
             = Some (relative_url ri)
          /\ elem_text root ["entry"; "repository"; "root"]
             = Some (root_url ri)
          /\ ET.find root ["entry"; "commit"] = Some commit
          /\ ET.attrib_get (ET.attrib commit) "revision"
             = Some (revision ri)
          /\ elem_text root ["entry"; "wc-info"; "wcroot-abspath"]
             = Some (abspath st')).
Proof.
  split; [apply get_repo_info_issued|]. split.
  - intros w r Hrun Hfail.
    rewrite (get_repo_info_failure st w r Hrun Hfail). now split.
  - intros st' ri H.
    apply get_repo_info_success in H
      as [res [root [commit [H1 [H2 [H3 [H4 [H5 [H6 [H7 [H8 [H9 [H10 _]]]]]]]]]]]]].
    exists res, root, commit. now repeat split.
Qed.

(** ** [parse_svn_date] *)

Lemma length_app (s t : string) :
  String.length (s ++ t) = (String.length s + String.length t)%nat.
Proof. induction s as [|a s IH]; simpl; [reflexivity|now rewrite IH]. Qed.

Lemma drop_app (s t : string) : PyStr.drop (String.length s) (s ++ t) = t.
Proof. induction s as [|a s IH]; simpl; [now destruct t|exact IH]. Qed.

Lemma drop_last_app (s : string) (a : ascii) :
  PyStr.drop_last (s ++ String a "") = s.
Proof.
  induction s as [|b s IH]; [reflexivity|].
  cbn [append PyStr.drop_last]. rewrite IH.
  now destruct s.
Qed.

Lemma endswith_app (s t : string) : PyStr.endswith (s ++ t) t = true.
Proof.
  unfold PyStr.endswith. rewrite length_app.
  replace (String.length s + String.length t - String.length t)%nat
    with (String.length s) by lia.
  rewrite drop_app, String.eqb_refl, andb_true_r.
  apply Nat.leb_le. lia.
Qed.

(** X8: the trailing [Z] of a date is optional: a text that does not end
    with [Z] is read the same with a [Z] put after it. *)
Theorem parse_svn_date_trailing_Z (w : World E) (date_str : string) :
  PyStr.endswith date_str "Z" = false ->
  SubversionWebhook.parse_svn_date E w (date_str ++ "Z")
  = SubversionWebhook.parse_svn_date E w date_str.
Proof.
  intros H. unfold SubversionWebhook.parse_svn_date.
  now rewrite endswith_app, H, drop_last_app.
Qed.

End RepoInfo.

(** ** [_extract_repo_name] *)

Lemma lstrip_by_empty (p : ascii -> bool) (s : string) :
  PyStr.lstrip_by p s = "" -> all_chars p s = true.
Proof.
  induction s as [|a s IH]; simpl; [reflexivity|].
  destruct (p a); [exact IH|discriminate].
Qed.

Lemma rstrip_by_empty (p : ascii -> bool) (s : string) :
  PyStr.rstrip_by p s = "" -> all_chars p s = true.
Proof.
  induction s as [|a s IH]; simpl; [reflexivity|].
  destruct (PyStr.rstrip_by p s); [|discriminate].
  destruct (p a); [intros _; now apply IH|discriminate].
Qed.

Lemma all_chars_strip_by (p : ascii -> bool) (s : string) :
  all_chars p s = true -> PyStr.strip_by p s = "".
Proof.
  unfold PyStr.strip_by. induction s as [|a s IH]; simpl; [reflexivity|].
  intros H. apply andb_true_iff in H as [Ha Hs]. rewrite Ha. now apply IH.
Qed.

Lemma strip_by_empty (p : ascii -> bool) (s : string) :
  PyStr.strip_by p s = "" -> all_chars p s = true.
Proof.
  unfold PyStr.strip_by. intros H.
  apply rstrip_by_empty in H.
  destruct (PyStr.lstrip_by p s) as [|a r] eqn:Hl.
  - now apply lstrip_by_empty.
  - apply lstrip_by_head in Hl. simpl in H.
    apply andb_true_iff in H as [Ha _]. congruence.
Qed.

Lemma last_cons_nonempty {A : Type} (x d : A) (l : list A) :
  l <> [] -> last (x :: l) d = last l d.
Proof. now destruct l. Qed.

Lemma split_singleton (c : ascii) (t h : string) :
  PyStr.split c t = [h] -> h = t.
Proof.
  revert h. induction t as [|x t IH]; intros h; simpl.
  - intros H. now injection H as <-.
  - pose proof (split_nonempty c t) as Hne.
    destruct (Ascii.eqb x c).
    + intros H. injection H as _ H. contradiction.
    + destruct (PyStr.split c t) as [|h' tl]; [contradiction|].
      intros H. injection H as <- ->. now rewrite (IH h' eq_refl).
Qed.

Lemma split_last_suffix (c : ascii) (t : string) :
  exists pre, t = pre ++ last (PyStr.split c t) "".
Proof.
  induction t as [|x t [pre IH]]; [now exists ""|].
  pose proof (split_nonempty c t) as Hne. cbn [PyStr.split].
  destruct (Ascii.eqb x c).
  - rewrite (last_cons_nonempty _ _ _ Hne).
    exists (String x pre). cbn [append]. f_equal. exact IH.
  - destruct (PyStr.split c t) as [|h tl] eqn:Hs; [contradiction|].
    destruct tl as [|h2 tl].
    + exists "". simpl. now rewrite (split_singleton _ _ _ Hs).
    + change (last (String x h :: h2 :: tl) "") with (last (h2 :: tl) "").
      change (last (h :: h2 :: tl) "") with (last (h2 :: tl) "") in IH.
      exists (String x pre). cbn [append]. f_equal. exact IH.
Qed.

Lemma split_last_empty (c : ascii) (t : string) :
  last (PyStr.split c t) "" = "" ->
  t = "" \/ exists q, t = q ++ String c "".
Proof.
  induction t as [|x t IH]; [now left|].
  pose proof (split_nonempty c t) as Hne. cbn [PyStr.split].
  destruct (Ascii.eqb x c) eqn:Hx.
  - apply Ascii.eqb_eq in Hx. subst x.
    rewrite (last_cons_nonempty _ _ _ Hne). intros H. right.
    destruct (IH H) as [-> | [q ->]]; [now exists ""|now exists (String c q)].
  - destruct (PyStr.split c t) as [|h tl] eqn:Hs; [contradiction|].
    destruct tl as [|h2 tl]; [discriminate|].
    change (last (String x h :: h2 :: tl) "") with (last (h :: h2 :: tl) "").
    intros H. right. destruct (IH H) as [-> | [q ->]]; [discriminate|].
    now exists (String x q).
Qed.

Lemma split_without (c : ascii) (s : string) :
  Forall (fun part => all_chars (fun a => negb (Ascii.eqb a c)) part = true)
    (PyStr.split c s).
Proof.
  induction s as [|a s IH]; simpl.
  - constructor; [reflexivity|constructor].
  - destruct (Ascii.eqb a c) eqn:Ha.
    + constructor; [reflexivity|exact IH].
    + destruct (PyStr.split c s) as [|h t].
      * constructor; [|constructor]. simpl. now rewrite Ha.
      * inversion IH as [|x y Hh Ht]; subst. constructor; [|exact Ht].
        simpl. now rewrite Ha, Hh.
Qed.

Lemma last_in {A : Type} (l : list A) (d : A) : l <> [] -> In (last l d) l.
Proof.
  induction l as [|x l IH]; [contradiction|]. intros _.
  destruct l as [|y l]; [now left|].
  right. apply IH. discriminate.
Qed.

Section RepoName.

Context (E : Env).

(** X9: the repository name is the last segment of the URL's path, the
    slashes around the path left aside: it is then not empty, holds no
    slash and ends the path; only for a path made of slashes the host
    name is taken, its dots turned into underscores; a URL that cannot
    be parsed gives [unknown_repo]. *)
Theorem extract_repo_name_cases (repo_url : string) :
  (urlparse E repo_url = None ->
   SubversionWebhook._extract_repo_name E repo_url = "unknown_repo")
  /\ (forall netloc path,
        urlparse E repo_url = Some (netloc, path) ->
        (all_chars (Ascii.eqb "/") path = true ->
         SubversionWebhook._extract_repo_name E repo_url
         = PyStr.replace_char "." "_" netloc)
        /\ (all_chars (Ascii.eqb "/") path = false ->
            SubversionWebhook._extract_repo_name E repo_url <> ""
            /\ all_chars (fun a => negb (Ascii.eqb a "/"))
                 (SubversionWebhook._extract_repo_name E repo_url) = true
            /\ exists pre,
                 PyStr.strip_char "/" path
                 = pre ++ SubversionWebhook._extract_repo_name E repo_url)).
Proof.
  unfold SubversionWebhook._extract_repo_name. split; [now intros ->|].
  intros netloc path ->. unfold PyStr.strip_char. split.
  - intros Hall. now rewrite (all_chars_strip_by _ _ Hall).
  - intros Hall.
    remember (PyStr.strip_by (Ascii.eqb "/") path) as t eqn:Ht.
    assert (Hlast : last (PyStr.split "/" t) "" <> "").
    { intros Hempty. apply split_last_empty in Hempty as [-> | [q Hq]].
      - symmetry in Ht. apply strip_by_empty in Ht. congruence.
      - rewrite Hq in Ht. symmetry in Ht. unfold PyStr.strip_by in Ht.
        apply rstrip_by_last in Ht. discriminate. }
    destruct (last (PyStr.split "/" t) "") as [|a name] eqn:Hname;
      [contradiction|].
    cbn [PyStr.truthy]. split; [discriminate|]. split.
    + pose proof (split_without "/" t) as Hparts.
      pose proof (last_in (PyStr.split "/" t) "" (split_nonempty "/" t))
        as Hin.
      rewrite Hname in Hin.
      now apply (proj1 (Forall_forall _ _) Hparts) in Hin.
    + rewrite <- Hname. apply split_last_suffix.
Qed.

End RepoName.

(** ** The records and commands of [get_commit_info] *)

Section CommitRecords.

Context (E : Env).

Lemma commit_paths_step_diff (ri : option SVNRepoInfo) (rev style : string)
    (p : Element) (rest : list Element) (st st' : St (World E))
    (l : list SVNFileChange) :
  SubversionWebhook.commit_paths E ri rev style (p :: rest) st
  = (st', Some l) ->
  SubversionWebhook.commit_paths E ri rev style rest st = (st', Some l)
  \/ (exists fc l' st1 root,
        SubversionWebhook.root_url_of ri = Some root
        /\ SubversionWebhook.get_file_diff E (root ++ path fc)
             (old_revision fc) (new_revision fc) style st
           = (st1, Some (diff_content fc, lines_added fc, lines_deleted fc,
                         is_binary fc))
        /\ SubversionWebhook.commit_paths E ri rev style rest st1
           = (st', Some l')
        /\ l = fc :: l').
Proof.
  cbn [SubversionWebhook.commit_paths].
  destruct (truthy_opt (ET.text p)); [|now left].
  intros H. inv_bind H as code st1 Hcode.
  apply lift_some in Hcode as [Hcode ->].
  destruct (SVNFileAction_of code) as [act|]; [|now left].
  right.
  inv_bind H as old st2 Hold.
  assert (st2 = st) as ->.
  { destruct (negb (action_eqb act ADDED)).
    - inv_bind Hold as r st3 Hprev. apply lift_some in Hprev as [_ ->].
      now apply ret_some in Hold.
    - now apply ret_some in Hold. }
  inv_bind H as root st3 Hroot. apply lift_some in Hroot as [Hroot ->].
  inv_bind H as diff st4 Hdiff. destruct diff as [[[d la] ld] b].
  inv_bind H as l' st5 Hrest. apply ret_some in H as [<- ->].
  exists (mkFileChange (given (ET.text p)) act d old
            (if negb (action_eqb act DELETED) then Some rev else None)
            la ld b), l', st4, root.
  now repeat split.
Qed.

Lemma commit_paths_sound (ri : option SVNRepoInfo) (rev style : string)
    (paths : list Element) (st st' : St (World E))
    (l : list SVNFileChange) :
  SubversionWebhook.commit_paths E ri rev style paths st = (st', Some l) ->
  Forall sound_counts l
  /\ issued st'
     = (issued st
        ++ map (commit_diff_cmd (given (SubversionWebhook.root_url_of ri))) l)
       %list.
Proof.
  revert st l. induction paths as [|p rest IH]; intros st l H.
  - apply ret_some in H as [<- ->]. split; [constructor|].
    simpl. now rewrite app_nil_r.
  - apply commit_paths_step_diff in H
      as [H | [fc [l' [st1 [root [Hroot [Hdiff [H ->]]]]]]]].
    + now apply (IH st).
    + destruct (IH st1 l' H) as [Hs Hi]. split.
      * constructor; [|exact Hs].
        destruct fc as [pth act dc o n la ld b].
        now apply (get_file_diff_sound E _ _ _ _ _ _ _ _ _ _ pth act o n)
          in Hdiff.
      * rewrite Hi.
        pose proof (get_file_diff_issued E (root ++ path fc)
                      (old_revision fc) (new_revision fc) style st) as Hc.
        rewrite Hdiff in Hc. simpl in Hc. rewrite Hc, Hroot.
        cbn [map given]. unfold commit_diff_cmd.
        now rewrite <- app_assoc.
Qed.

Lemma get_commit_info_states (rev style : string) (st st' : St (World E))
    (ci : SVNCommitInfo (datetime E)) :
  SubversionWebhook.get_commit_info E rev style st = (st', Some (Some ci)) ->
  exists ri st1 w log root logentry,
    SubversionWebhook.get_repo_info E st = (st1, Some ri)
    /\ ci_revision ci = rev
    /\ run E (world st1) (abspath st1)
         ["svn"; "log"; "-v"; "-r";
          if PyStr.truthy rev then rev
          else given (SubversionWebhook.revision_of ri); "--xml"]
       = (w, Some log)
    /\ fromstring E (stdout log) = Some root
    /\ ET.find root ["logentry"] = Some logentry
    /\ SubversionWebhook.commit_paths E ri rev style (log_paths logentry)
         (mkSt w (abspath st1)
            (issued st1
             ++ [["log"; "-v"; "-r";
                  if PyStr.truthy rev then rev
                  else given (SubversionWebhook.revision_of ri); "--xml"]])
            %list)
       = (st', Some (changed_files ci)).
Proof.
  intros H. apply catch_some in H.
  inv_bind H as ri st1 Hri.
  inv_bind H as target st2 Htarget.
  assert (Ht : st2 = st1
               /\ target = if PyStr.truthy rev then rev
                           else given (SubversionWebhook.revision_of ri)).
  { destruct (PyStr.truthy rev).
    - apply ret_some in Htarget as [-> ->]. now split.
    - apply lift_some in Htarget as [-> ->]. now split. }
  destruct Ht as [-> ->].
  inv_bind H as log_result st3 Hlog.
  unfold SubversionWebhook.svn_command,
    SubversionWebhook._build_svn_command in Hlog.
  destruct (run E (world st1) (abspath st1) _) as [w o] eqn:Hrun.
  injection Hlog as Hst3 ->. subst st3.
  destruct (success log_result);
    [|apply ret_some in H as [H _]; discriminate].
  cbn [negb] in H.
  inv_bind H as root st4 Hroot. apply lift_some in Hroot as [Hroot Hs4].
  subst st4.
  destruct (ET.find root ["logentry"]) as [logentry|] eqn:Hentry;
    [|apply ret_some in H as [H _]; discriminate].
  inv_bind H as date_el st5 Hdate.
  apply find_text_some in Hdate as [Hs5 _]. subst st5.
  inv_bind H as date_text st6 Hdate_text.
  apply lift_some in Hdate_text as [_ Hs6]. subst st6.
  inv_bind H as w0 st7 Hw. injection Hw as Hs7 _. subst st7.
  inv_bind H as changed st8 Hchanged.
  inv_bind H as author_text st9 Hauthor.
  apply lift_some in Hauthor as [_ Hs9]. subst st9.
  inv_bind H as message_text st10 Hmessage.
  apply lift_some in Hmessage as [_ Hs10]. subst st10.
  apply ret_some in H as [H Hst]. subst st'. injection H as <-.
  exists ri, st1, w, log_result, root, logentry.
  cbn [ci_revision changed_files]. unfold log_paths.
  repeat split; try assumption.
  destruct (ET.find logentry ["paths"]); exact Hchanged.
Qed.

(** X10: a commit that [get_commit_info] returns is the one asked for,
    and the counts of each of its records are those of a diff that was
    read: never negative, zero for a binary file and when no diff came
    back. *)
Theorem get_commit_info_records (rev style : string) (st st' : St (World E))
    (ci : SVNCommitInfo (datetime E)) :
  SubversionWebhook.get_commit_info E rev style st = (st', Some (Some ci)) ->
  ci_revision ci = rev /\ Forall sound_counts (changed_files ci).
Proof.
  intros H. apply get_commit_info_states in H
    as [ri [st1 [w [log [root [logentry [_ [Hrev [_ [_ [_ H]]]]]]]]]]].
  split; [exact Hrev|]. now apply commit_paths_sound in H.
Qed.

(** X11: a commit is read with [info --xml], then [log -v -r target
    --xml], the target being the revision given or, when the argument is
    empty, the revision of the repository, then one [diff] for each
    record in order, under the repository root followed by the record's
    path and with the record's revisions. *)
Theorem get_commit_info_commands (rev style : string)
    (st st' : St (World E)) (ci : SVNCommitInfo (datetime E)) :
  SubversionWebhook.get_commit_info E rev style st = (st', Some (Some ci)) ->
  exists ri,
    snd (SubversionWebhook.get_repo_info E st) = Some ri
    /\ issued st'
       = (issued st
          ++ [ ["info"; "--xml"];
               ["log"; "-v"; "-r";
                if PyStr.truthy rev then rev
                else given (SubversionWebhook.revision_of ri); "--xml"] ]
          ++ map (commit_diff_cmd
                    (given (SubversionWebhook.root_url_of ri)))
               (changed_files ci))%list.
Proof.
  intros H. apply get_commit_info_states in H
    as [ri [st1 [w [log [root [logentry [Hri [_ [_ [_ [_ H]]]]]]]]]]].
  exists ri. rewrite Hri. split; [reflexivity|].
  apply commit_paths_sound in H as [_ ->]. cbn [issued].
  pose proof (get_repo_info_issued E st) as Hi. rewrite Hri in Hi.
  simpl in Hi. rewrite Hi, <- !app_assoc. reflexivity.
Qed.

End CommitRecords.

(** ** The records and commands of [get_working_copy_changes] *)

Section WorkingCopyRecords.

Context (E : Env).

Lemma working_copy_change_inv (file_path style : string)
    (act : SVNFileAction) (ri : SVNRepoInfo) (st st' : St (World E))
    (fc : SVNFileChange) :
  SubversionWebhook.working_copy_change E file_path act ri style st
  = (st', Some fc) ->
  sound_counts fc /\ working_copy_record (revision ri) fc
  /\ path fc = file_path
  /\ issued st' = (issued st ++ [["diff"; file_path]])%list.
Proof.
  unfold SubversionWebhook.working_copy_change. intros H.
  inv_bind H as diff st1 Hdiff. destruct diff as [[[d la] ld] b].
  apply ret_some in H as [<- ->].
  pose proof (get_file_diff_issued E file_path None None style st) as Hc.
  rewrite Hdiff in Hc. simpl in Hc.
  split; [now apply (get_file_diff_sound E _ _ _ _ _ _ _ _ _ _ file_path act
                       (Some (revision ri)) (Some "working copy")) in Hdiff|].
  now repeat split.
Qed.

Lemma summarized_lines_diffs (ri : SVNRepoInfo) (style : string)
    (lines : list string) (st st' : St (World E)) (l : list SVNFileChange) :
  SubversionWebhook.summarized_lines E lines ri style st = (st', Some l) ->
  Forall (fun fc => sound_counts fc
                    /\ working_copy_record (revision ri) fc) l
  /\ issued st' = (issued st ++ map working_copy_diff_cmd l)%list.
Proof.
  revert st l. induction lines as [|line rest IH]; intros st l.
  - intros H. apply ret_some in H as [<- ->]. split; [constructor|].
    simpl. now rewrite app_nil_r.
  - cbn [SubversionWebhook.summarized_lines].
    destruct (negb _); [apply IH|].
    destruct (PyStr.split_ws line) as [|code [|p ps]]; try apply IH.
    destruct (SVNFileAction_of code) as [act|]; [|apply IH].
    intros H. inv_bind H as fc st1 Hfc. inv_bind H as l' st2 Hrest.
    apply ret_some in H as [<- ->].
    apply working_copy_change_inv in Hfc as [Hs [Hw [Hp Hi]]].
    destruct (IH st1 l' Hrest) as [Hall Hi']. split.
    + constructor; [now split|exact Hall].
    + rewrite Hi', Hi. cbn [map]. unfold working_copy_diff_cmd at 2.
      rewrite Hp. now rewrite <- app_assoc.
Qed.

Lemma process_single_file_change_sound (file_path style : string)
    (ri : SVNRepoInfo) (st st' : St (World E)) (fc : SVNFileChange) :
  SubversionWebhook._process_single_file_change E file_path ri style st
  = (st', Some (Some fc)) ->
  sound_counts fc /\ working_copy_record (revision ri) fc.
Proof.
  intros H. apply catch_some in H.
  inv_bind H as status st1 Hstatus.
  destruct (negb (success status));
    [apply ret_some in H as [H _]; discriminate|].
  destruct (PyStr.split PyStr.LF _) as [|line rest]; cbv zeta iota beta in H;
    [apply ret_some in H as [H _]; discriminate|].
  destruct (negb (PyStr.truthy (PyStr.strip line)));
    [apply ret_some in H as [H _]; discriminate|].
  destruct (PyStr.split_ws line) as [|code [|p ps]];
    try (apply ret_some in H as [H _]; discriminate).
  destruct (SVNFileAction_of code) as [act|];
    [|apply ret_some in H as [H _]; discriminate].
  inv_bind H as fc' st2 Hfc. apply ret_some in H as [H _].
  injection H as ->.
  now apply working_copy_change_inv in Hfc as [Hs [Hw _]].
Qed.

Lemma explicit_files_sound (ri : SVNRepoInfo) (style : string)
    (files : list string) (st st' : St (World E)) (l : list SVNFileChange) :
  SubversionWebhook.explicit_files E files ri style st = (st', Some l) ->
  Forall (fun fc => sound_counts fc
                    /\ working_copy_record (revision ri) fc) l.
Proof.
  revert st st' l. induction files as [|f rest IH]; intros st st' l H.
  - apply ret_some in H as [<- _]. constructor.
  - cbn [SubversionWebhook.explicit_files] in H.
    inv_bind H as r st1 Hr. inv_bind H as changed st2 Hrest.
    apply ret_some in H as [<- _]. apply IH in Hrest.
    destruct r as [fc|]; [|exact Hrest].
    constructor; [|exact Hrest].
    now apply process_single_file_change_sound in Hr.
Qed.

Lemma get_working_copy_changes_inv (files : option (list string))
    (style : string) (st st' : St (World E)) (wc : SVNWorkingCopyChanges) :
  SubversionWebhook.get_working_copy_changes E files style st
  = (st', Some (Some wc)) ->
  exists ri st1,
    SubversionWebhook.get_repo_info E st = (st1, Some (Some ri))
    /\ wc_repo_uuid wc = uuid ri /\ base_revision wc = revision ri
    /\ match files with
       | Some fs =>
           SubversionWebhook.explicit_files E fs ri style st1
           = (st', Some (wc_changed_files wc))
       | None =>
           exists w status,
             run E (world st1) (abspath st1) ["svn"; "diff"; "--summarize"]
             = (w, Some status)
             /\ SubversionWebhook.summarized_lines E
                  (PyStr.split PyStr.LF (PyStr.strip (stdout status))) ri
                  style
                  (mkSt w (abspath st1)
                     (issued st1 ++ [["diff"; "--summarize"]])%list)
                = (st', Some (wc_changed_files wc))
       end.
Proof.
  intros H. apply catch_some in H.
  inv_bind H as ri st1 Hri.
  destruct ri as [ri|]; [|apply ret_some in H as [H _]; discriminate].
  exists ri, st1. split; [exact Hri|].
  destruct files as [fs|].
  - inv_bind H as changed st2 Hfiles. apply ret_some in H as [H Hst].
    subst st'. injection H as <-. now repeat split.
  - inv_bind H as status st2 Hstatus.
    unfold SubversionWebhook.svn_command,
      SubversionWebhook._build_svn_command in Hstatus.
    destruct (run E (world st1) (abspath st1) _) as [w o] eqn:Hrun.
    injection Hstatus as Hs2 ->. subst st2.
    destruct (negb (success status));
      [apply ret_some in H as [H _]; discriminate|].
    inv_bind H as changed st3 Hlines. apply ret_some in H as [H Hst].
    subst st'. injection H as <-. repeat split.
    now exists w, status.
Qed.

(** X12: in both modes the change set that [get_working_copy_changes]
    returns carries the UUID and the revision of the repository lookup,
    and each record runs from that base revision to the working copy,
    with the counts of a diff that was read. *)
Theorem get_working_copy_changes_records (files : option (list string))
    (style : string) (st st' : St (World E)) (wc : SVNWorkingCopyChanges) :
  SubversionWebhook.get_working_copy_changes E files style st
  = (st', Some (Some wc)) ->
  (exists ri, snd (SubversionWebhook.get_repo_info E st) = Some (Some ri)
              /\ wc_repo_uuid wc = uuid ri
              /\ base_revision wc = revision ri)
  /\ Forall (fun fc => sound_counts fc
                       /\ working_copy_record (base_revision wc) fc)
       (wc_changed_files wc).
Proof.
  intros H. apply get_working_copy_changes_inv in H
    as [ri [st1 [Hri [Hu [Hb H]]]]].
  split; [exists ri; now rewrite Hri|]. rewrite Hb.
  destruct files as [fs|].
  - now apply explicit_files_sound in H.
  - destruct H as [w [status [_ H]]].
    now apply summarized_lines_diffs in H.
Qed.

(** X13: without a file list the working copy is read with [info
    --xml], then [diff --summarize], then one [diff] of the path of each
    record, in order and with no revision. *)
Theorem discovery_commands (style : string) (st st' : St (World E))
    (wc : SVNWorkingCopyChanges) :
  SubversionWebhook.get_working_copy_changes E None style st
  = (st', Some (Some wc)) ->
  issued st'
  = (issued st ++ [["info"; "--xml"]; ["diff"; "--summarize"]]
     ++ map working_copy_diff_cmd (wc_changed_files wc))%list.
Proof.
  intros H. apply get_working_copy_changes_inv in H
    as [ri [st1 [Hri [_ [_ [w [status [_ H]]]]]]]].
  apply summarized_lines_diffs in H as [_ ->]. cbn [issued].
  pose proof (get_repo_info_issued E st) as Hi. rewrite Hri in Hi.
  simpl in Hi. rewrite Hi, <- !app_assoc. reflexivity.
Qed.

End WorkingCopyRecords.

(** ** The payload, read back by the handler *)

Section PayloadReadBack.

Context (E : Env).

Lemma build_payload_with_repo_info (event_type : string)
    (changes_data : option (list SVNFileChange))
    (commit_info : option (SVNCommitInfo (datetime E)))
    (commit_message : option string) (repo_info : SVNRepoInfo)
    (st : St (World E)) :
  SubversionWebhook._build_svn_webhook_payload E event_type changes_data
    commit_info commit_message (Some repo_info) st
  = (st, Some (SubversionWebhook.payload_of E (world st) event_type
                 changes_data commit_info commit_message repo_info)).
Proof. reflexivity. Qed.

(** X14: the handler accepts every payload built with repository
    information; for a pre-commit or post-commit event its
    [get_commit_changes] gives back one entry for each file change, in
    order, and for any other event type the empty list. *)
Theorem payload_changes_read_back (event_type : string)
    (changes_data : list SVNFileChange)
    (commit_info : option (SVNCommitInfo (datetime E)))
    (commit_message : option string) (repo_info : SVNRepoInfo)
    (st : St (World E)) :
  exists payload self,
    snd (SubversionWebhook._build_svn_webhook_payload E event_type
           (Some changes_data) commit_info commit_message (Some repo_info)
           st) = Some payload
    /\ WebhookHandler.parse_event_data payload = Some self
    /\ CommitHandler.is_pre_commit_event self
       = (event_type =? "Pre-Commit")
    /\ CommitHandler.is_post_commit_event self
       = (event_type =? "Post-Commit")
    /\ WebhookHandler.get_commit_changes self
       = (if (event_type =? "Post-Commit") || (event_type =? "Pre-Commit")
          then JList (map SubversionWebhook.change_entry changes_data)
          else JList []).
Proof.
  rewrite build_payload_with_repo_info.
  destruct commit_info;
    (eexists _, _; split; [reflexivity|]; split; [reflexivity|];
     split; [reflexivity|]; split; [reflexivity|];
     unfold WebhookHandler.get_commit_changes, WebhookHandler.valid_event;
     cbn [WebhookHandler.event_type WebhookHandler.changes_data];
     change (dict_get_default _ "event_type" JNull) with (JStr event_type);
     change (dict_get_default _ "changes" (JList []))
       with (JList (map SubversionWebhook.change_entry changes_data));
     cbn [json_eq_str];
     destruct ((event_type =? "Post-Commit")
               || (event_type =? "Pre-Commit")); [|reflexivity];
     now destruct changes_data).
Qed.

(** X15: read back from a payload, the repository is the one the
    payload was built for, its home page being its URL, and the commit
    is the one given, with the revision as its id, its ISO date as
    timestamp and the revision-addressed URL; a payload built without a
    commit has none. *)
Theorem payload_commit_read_back (event_type : string)
    (changes_data : option (list SVNFileChange))
    (commit_info : option (SVNCommitInfo (datetime E)))
    (commit_message : option string) (repo_info : SVNRepoInfo)
    (st : St (World E)) :
  exists payload self,
    snd (SubversionWebhook._build_svn_webhook_payload E event_type
           changes_data commit_info commit_message (Some repo_info) st)
    = Some payload
    /\ WebhookHandler.parse_event_data payload = Some self
    /\ CommitHandler.get_repository_info self
       = Some (JDict
           [ ("uuid", JStr (uuid repo_info));
             ("name",
              JStr (SubversionWebhook._extract_repo_name E (url repo_info)));
             ("url", JStr (url repo_info));
             ("homepage", JStr (url repo_info)) ])
    /\ CommitHandler.get_commit_info self
       = Some (match commit_info with
               | Some c =>
                   JDict
                     [ ("revision", JStr (ci_revision c));
                       ("message", JStr (message c));
                       ("author", JStr (author c));
                       ("timestamp", JStr (isoformat E (date c)));
                       ("url",
                        JStr (url repo_info ++ "?r=" ++ ci_revision c)) ]
               | None => JNull
               end)
    /\ CommitHandler.get_svn_specific_info self
       = JDict
           [ ("repository_uuid", JStr (uuid repo_info));
             ("repository_url", JStr (url repo_info));
             ("repository_root", JStr (root_url repo_info));
             ("revision",
              match commit_info with
              | Some c => JStr (ci_revision c)
              | None => JNull
              end);
             ("event_type", JStr event_type) ].
Proof.
  rewrite build_payload_with_repo_info.
  destruct commit_info;
    (eexists _, _; split; [reflexivity|]; split; [reflexivity|];
     now repeat split).
Qed.

End PayloadReadBack.

(** ** The filter on the entries of a payload *)

Lemma not_deleted_entry (fc : SVNFileChange) :
  WebhookHandler.not_deleted (entry_dict (SubversionWebhook.change_entry fc))
  = negb (action_eqb (action fc) DELETED).
Proof. destruct fc as [p [] d o n la ld b]; reflexivity. Qed.

(** X16: the filter never fails on the entries of a payload, and what it
    returns are the entries, unchanged and in order, of the files that
    are not deleted and whose path ends with a supported extension. *)
Theorem filter_changes_on_payload (env : option string)
    (changes_data : list SVNFileChange) :
  WebhookHandler.filter_changes env
    (map (fun fc => entry_dict (SubversionWebhook.change_entry fc))
         changes_data)
  = Some (map (fun fc => entry_dict (SubversionWebhook.change_entry fc))
            (filter (reviewed (WebhookHandler.supported_extensions env))
               changes_data)).
Proof.
  unfold WebhookHandler.filter_changes.
  induction changes_data as [|fc rest IH]; [reflexivity|].
  cbn [map filter]. rewrite not_deleted_entry. unfold reviewed at 1.
  destruct (negb (action_eqb (action fc) DELETED)); cbn [andb]; [|exact IH].
  cbn [WebhookHandler.select_fields].
  change (dict_get_default
            (entry_dict (SubversionWebhook.change_entry fc)) "new_path"
            (JStr ""))
    with (JStr (path fc)).
  rewrite any_endswith_str.
  destruct (existsb (PyStr.endswith (path fc))
              (WebhookHandler.supported_extensions env)); [|exact IH].
  change (WebhookHandler.keep_fields
            (entry_dict (SubversionWebhook.change_entry fc)))
    with (Some (entry_dict (SubversionWebhook.change_entry fc))).
  rewrite IH. reflexivity.
Qed.

(** ** [summary_stats] *)

Lemma count_by_action (changed_files : list SVNFileChange) :
  Z.of_nat (List.length changed_files)
  = (Stats.count_where (Stats.with_action ADDED) changed_files
     + Stats.count_where (Stats.with_action MODIFIED) changed_files
     + Stats.count_where (Stats.with_action DELETED) changed_files
     + Stats.count_where (Stats.with_action REPLACED) changed_files)%Z.
Proof.
  unfold Stats.count_where, Stats.with_action.
  induction changed_files as [|f rest IH]; [reflexivity|].
  cbn [filter List.length]. destruct (action f); cbn [action_eqb List.length];
    lia.
Qed.

Lemma count_where_bounds (p : SVNFileChange -> bool)
    (changed_files : list SVNFileChange) :
  (0 <= Stats.count_where p changed_files
   <= Z.of_nat (List.length changed_files))%Z.
Proof.
  unfold Stats.count_where.
  pose proof (filter_length_le p changed_files). lia.
Qed.

Lemma total_nonneg (field : SVNFileChange -> Z)
    (changed_files : list SVNFileChange) :
  Forall (fun f => (0 <= field f)%Z) changed_files ->
  (0 <= Stats.total field changed_files)%Z.
Proof.
  unfold Stats.total. induction 1; simpl; lia.
Qed.

(** X17: in the summary of a list of records the files by action add up
    to the total, the binary files are at most the total, and over
    records with the counts of diffs that were read the line totals are
    not negative. *)
Theorem summary_stats_consistent (changed_files : list SVNFileChange) :
  exists total added modified deleted replaced binary lines_a lines_d,
    Stats.stat (Stats.summary_stats changed_files) "total_files" = Some total
    /\ Stats.stat (Stats.summary_stats changed_files) "added_files"
       = Some added
    /\ Stats.stat (Stats.summary_stats changed_files) "modified_files"
       = Some modified
    /\ Stats.stat (Stats.summary_stats changed_files) "deleted_files"
       = Some deleted
    /\ Stats.stat (Stats.summary_stats changed_files) "replaced_files"
       = Some replaced
    /\ Stats.stat (Stats.summary_stats changed_files) "binary_files"
       = Some binary
    /\ Stats.stat (Stats.summary_stats changed_files) "total_lines_added"
       = Some lines_a
    /\ Stats.stat (Stats.summary_stats changed_files) "total_lines_deleted"
       = Some lines_d
    /\ total = Z.of_nat (List.length changed_files)
    /\ (total = added + modified + deleted + replaced)%Z
    /\ (0 <= binary <= total)%Z
    /\ (Forall sound_counts changed_files ->
        (0 <= lines_a)%Z /\ (0 <= lines_d)%Z).
Proof.
  eexists _, _, _, _, _, _, _, _.
  repeat (split; [reflexivity|]).
  split; [apply count_by_action|]. split; [apply count_where_bounds|].
  intros Hall. split; apply total_nonneg;
    (revert Hall; apply Forall_impl; intros f [Ha [Hd _]]; assumption).
Qed.

(** ** [commit_messages] *)

Lemma stripped_messages_none (commits : list json) :
  ReviewEntity.stripped_messages commits = None
  <-> Exists (fun c => ReviewEntity.stripped_message c = None) commits.
Proof.
  induction commits as [|c rest IH]; simpl.
  - split; [discriminate|]. intros H. inversion H.
  - destruct (ReviewEntity.stripped_message c) as [m|] eqn:Hc.
    + destruct (ReviewEntity.stripped_messages rest) as [ms|]; simpl.
      * split; [discriminate|]. intros H.
        inversion H as [? ? Hx|? ? Hx]; subst; [congruence|].
        now apply IH in Hx.
      * split; [|reflexivity]. intros _. right. now apply IH.
    + split; [|reflexivity]. intros _. now left.
Qed.

Lemma stripped_message_trimmed (c : json) (m : string) :
  ReviewEntity.stripped_message c = Some m ->
  (forall a r, m = String a r -> PyStr.isspace a = false)
  /\ (forall a r, m = r ++ String a "" -> PyStr.isspace a = false).
Proof.
  unfold ReviewEntity.stripped_message.
  destruct c as [| | | | |d]; try discriminate.
  destruct (dict_get d "message") as [[| | |s| |]|]; try discriminate.
  intros H. injection H as <-. split; intros a r Hm.
  - now apply strip_by_head in Hm.
  - unfold PyStr.strip, PyStr.strip_by in Hm.
    now apply rstrip_by_last in Hm.
Qed.

(** X18: [commit_messages] fails exactly when some commit is no
    dictionary with a string under [message]; otherwise it joins with
    ["; "] the messages, each without white space at its ends. *)
Theorem commit_messages_cases (commits : list json) :
  (ReviewEntity.commit_messages commits = None
   <-> Exists (fun c => ReviewEntity.stripped_message c = None) commits)
  /\ (forall ms,
        ReviewEntity.stripped_messages commits = Some ms ->
        ReviewEntity.commit_messages commits = Some (PyStr.join "; " ms)
        /\ List.length ms = List.length commits
        /\ Forall (fun m =>
             (forall a r, m = String a r -> PyStr.isspace a = false)
             /\ (forall a r, m = r ++ String a "" ->
                 PyStr.isspace a = false)) ms).
Proof.
  split.
  - unfold ReviewEntity.commit_messages. rewrite <- stripped_messages_none.
    destruct (ReviewEntity.stripped_messages commits); simpl;
      split; congruence.
  - intros ms H. unfold ReviewEntity.commit_messages. rewrite H.
    split; [reflexivity|].
    revert ms H. induction commits as [|c rest IH]; intros ms H; simpl in H.
    + injection H as <-. split; [reflexivity|constructor].
    + destruct (ReviewEntity.stripped_message c) as [m|] eqn:Hc;
        [|discriminate].
      destruct (ReviewEntity.stripped_messages rest) as [ms'|];
        [|discriminate].
      injection H as <-. destruct (IH ms' eq_refl) as [Hlen Hall].
      split; [simpl; now rewrite Hlen|].
      constructor; [now apply (stripped_message_trimmed c)|exact Hall].
Qed.

(** ** The hooks *)

Section HookRuns.

Context (E : Env) (T : Transport E).

Lemma send_webhook_run (payload : dict) (event_type : string)
    (r : Run (World E)) :
  posted (fst (Hooks.send_webhook E T payload event_type r))
  = (posted r ++ [(event_type, payload)])%list
  /\ snd (Hooks.send_webhook E T payload event_type r)
     = match snd (post T (world (obj r)) (webhook_endpoint T) payload
                    event_type) with
       | Some code => Hooks.accepted code
       | None => false
       end.
Proof.
  unfold Hooks.send_webhook.
  destruct (post T _ _ _ _) as [w' status]. now split.
Qed.

(** X19: a pre-commit run makes at most one request.  It makes none
    when the working copy cannot be read or has no change, and only in
    the latter case it then reports success; a request it makes is for
    the event [Pre-Commit], with one entry for each changed file and no
    commit, and the run succeeds exactly when the answer is 200, 201 or
    202. *)
Theorem create_pre_commit_hook_outcome (commit_files : option (list string))
    (commit_message : option string) (r r' : Run (World E)) (ok : bool) :
  Hooks.create_pre_commit_hook E T commit_files commit_message r = (r', ok) ->
  (posted r' = posted r
   /\ (ok = true ->
       exists wc,
         snd (SubversionWebhook.get_working_copy_changes E commit_files
                "github" (obj r)) = Some (Some wc)
         /\ wc_changed_files wc = []))
  \/ (exists wc payload w,
        snd (SubversionWebhook.get_working_copy_changes E commit_files
               "github" (obj r)) = Some (Some wc)
        /\ wc_changed_files wc <> []
        /\ posted r' = (posted r ++ [("Pre-Commit", payload)])%list
        /\ dict_get payload "event_type" = Some (JStr "Pre-Commit")
        /\ dict_get payload "changes"
           = Some (JList (map SubversionWebhook.change_entry
                            (wc_changed_files wc)))
        /\ dict_get payload "commits" = Some (JList [])
        /\ ok = match snd (post T w (webhook_endpoint T) payload
                             "Pre-Commit") with
                | Some code => Hooks.accepted code
                | None => false
                end).
Proof.
  unfold Hooks.create_pre_commit_hook.
  destruct (SubversionWebhook.get_working_copy_changes E commit_files
              "github" (obj r)) as [st1 [[wc|]|]];
    try (intros H; injection H as <- <-; left; split;
         [reflexivity|discriminate]).
  destruct (wc_changed_files wc) as [|fc rest] eqn:Hfiles.
  - intros H. injection H as <- <-. left. split; [reflexivity|].
    intros _. now exists wc.
  - destruct (SubversionWebhook.get_repo_info E st1) as [st2 [[ri|]|]];
      try (intros H; injection H as <- <-; left; split;
           [reflexivity|discriminate]).
    rewrite build_payload_with_repo_info.
    change (negb (Hooks.dict_truthy
                    (SubversionWebhook.payload_of E (world st2)
                       SubversionWebhook.PreCommitEvent (Some (fc :: rest))
                       None commit_message ri)))
      with false.
    cbv iota. intros H. right.
    destruct (send_webhook_run
                (SubversionWebhook.payload_of E (world st2)
                   SubversionWebhook.PreCommitEvent (Some (fc :: rest)) None
                   commit_message ri)
                SubversionWebhook.PreCommitEvent (mkRun st2 (posted r)))
      as [Hposted Hok].
    rewrite H in Hposted, Hok. simpl in Hposted, Hok.
    eexists wc, _, (world st2). rewrite Hfiles.
    split; [reflexivity|]. split; [discriminate|].
    split; [exact Hposted|]. split; [reflexivity|].
    split; [reflexivity|]. split; [reflexivity|]. exact Hok.
Qed.

(** X20: a post-commit run makes at most one request.  It makes none
    when the repository or the commit cannot be read or the commit has
    no file, and only in the latter case it then reports success; a
    request it makes is for the event [Post-Commit], with one entry for
    each file of the commit and the one commit, whose revision is the
    one given or, when none is given, the revision of the repository. *)
Theorem create_post_commit_hook_outcome (revision : option string)
    (r r' : Run (World E)) (ok : bool) :
  Hooks.create_post_commit_hook E T revision r = (r', ok) ->
  (posted r' = posted r
   /\ (ok = true ->
       exists ri st1 ci,
         SubversionWebhook.get_repo_info E (obj r) = (st1, Some (Some ri))
         /\ snd (SubversionWebhook.get_commit_info E
                   (if truthy_opt revision then given revision
                    else SVNRepoInfo_revision ri) "github" st1)
            = Some (Some ci)
         /\ changed_files ci = []))
  \/ (exists ri st1 ci payload w,
        SubversionWebhook.get_repo_info E (obj r) = (st1, Some (Some ri))
        /\ snd (SubversionWebhook.get_commit_info E
                  (if truthy_opt revision then given revision
                   else SVNRepoInfo_revision ri) "github" st1)
           = Some (Some ci)
        /\ ci_revision ci
           = (if truthy_opt revision then given revision
              else SVNRepoInfo_revision ri)
        /\ changed_files ci <> []
        /\ posted r' = (posted r ++ [("Post-Commit", payload)])%list
        /\ dict_get payload "event_type" = Some (JStr "Post-Commit")
        /\ dict_get payload "changes"
           = Some (JList (map SubversionWebhook.change_entry
                            (changed_files ci)))
        /\ dict_get payload "commits"
           = Some (JList [SubversionWebhook.commit_entry E ri ci])
        /\ ok = match snd (post T w (webhook_endpoint T) payload
                             "Post-Commit") with
                | Some code => Hooks.accepted code
                | None => false
                end).
Proof.
  unfold Hooks.create_post_commit_hook.
  destruct (SubversionWebhook.get_repo_info E (obj r)) as [st1 [[ri|]|]]
    eqn:Hri;
    try (intros H; injection H as <- <-; left; split;
         [reflexivity|discriminate]).
  destruct (SubversionWebhook.get_commit_info E _ "github" st1)
    as [st2 [[ci|]|]] eqn:Hci;
    try (intros H; injection H as <- <-; left; split;
         [reflexivity|discriminate]).
  destruct (changed_files ci) as [|fc rest] eqn:Hfiles.
  - intros H. injection H as <- <-. left. split; [reflexivity|].
    intros _. exists ri, st1, ci. rewrite Hci. now repeat split.
  - rewrite build_payload_with_repo_info.
    change (negb (Hooks.dict_truthy
                    (SubversionWebhook.payload_of E (world st2)
                       SubversionWebhook.PostCommitEvent (Some (fc :: rest))
                       (Some ci) None ri)))
      with false.
    cbv iota. intros H. right.
    destruct (send_webhook_run
                (SubversionWebhook.payload_of E (world st2)
                   SubversionWebhook.PostCommitEvent (Some (fc :: rest))
                   (Some ci) None ri)
                SubversionWebhook.PostCommitEvent (mkRun st2 (posted r)))
      as [Hposted Hok].
    rewrite H in Hposted, Hok. simpl in Hposted, Hok.
    pose proof (get_commit_info_states E _ _ _ _ _ Hci)
      as [ri' [st1' [w' [log [root [logentry [_ [Hrev _]]]]]]]].
    eexists ri, st1, ci, _, (world st2). rewrite Hfiles, Hci.
    split; [reflexivity|]. split; [reflexivity|].
    split; [exact Hrev|]. split; [discriminate|].
    split; [exact Hposted|]. split; [reflexivity|].
    split; [reflexivity|]. split; [reflexivity|]. exact Hok.
Qed.

End HookRuns.

(** ** The handler's readers on payloads with parts missing *)

(** X21: on a payload the handler accepts, [get_repository_info] never
    fails, and each reader answers [None] for the part that is missing:
    no repository, no or an empty [commits] list, no
    [object_attributes]; without [svn_info] the empty dictionary comes
    back. *)
Theorem handler_readers_on_missing_parts (data : dict)
    (self : WebhookHandler.SVNCommitHandler) :
  WebhookHandler.parse_event_data data = Some self ->
  CommitHandler.get_repository_info self <> None
  /\ (dict_get data "repository" = None ->
      CommitHandler.get_repository_info self = Some JNull)
  /\ (dict_get data "commits" = None
      \/ dict_get data "commits" = Some (JList []) ->
      CommitHandler.get_commit_info self = Some JNull)
  /\ (dict_get data "object_attributes" = None ->
      CommitHandler.get_event_attributes self = Some JNull)
  /\ (dict_get data "svn_info" = None ->
      CommitHandler.get_svn_specific_info self = JDict []).
Proof.
  unfold WebhookHandler.parse_event_data.
  destruct (if json_truthy (dict_get_default data "commits" (JList []))
            then _ else _) as [commit|] eqn:Hcommit; [|discriminate].
  destruct (WebhookHandler.has_get _) eqn:Hrepo; [|discriminate].
  destruct (WebhookHandler.has_len _); [|discriminate].
  cbn [andb]. intros H. injection H as <-.
  unfold CommitHandler.get_repository_info, CommitHandler.get_commit_info,
    CommitHandler.get_event_attributes, CommitHandler.get_svn_specific_info.
  cbn [WebhookHandler.repository_info WebhookHandler.commit_info
       WebhookHandler.webhook_data].
  split; [|split; [|split; [|split]]].
  - destruct (dict_get_default data "repository" (JDict []));
      try discriminate.
    destruct (negb _); discriminate.
  - intros Hnone. now rewrite (dict_get_default_none _ _ _ Hnone).
  - intros Hnone.
    assert (Hc : dict_get_default data "commits" (JList []) = JList []).
    { destruct Hnone as [Hnone|Hnone].
      - now apply dict_get_default_none.
      - now apply dict_get_default_some. }
    rewrite Hc in Hcommit. simpl in Hcommit. injection Hcommit as <-.
    reflexivity.
  - intros Hnone. now rewrite (dict_get_default_none _ _ _ Hnone).
  - intros Hnone. now rewrite (dict_get_default_none _ _ _ Hnone).
Qed.

(** ** The further properties at work on the example runs *)

Lemma format_to_github_style_counts_witness :
  (fst (DiffFormatter.extract_diff_stats
          (DiffFormatter.format_to_github_style Examples.text_diff
             (Some "App.java")))
   <= fst (DiffFormatter.extract_diff_stats Examples.text_diff)
   /\ snd (DiffFormatter.extract_diff_stats
             (DiffFormatter.format_to_github_style Examples.text_diff
                (Some "App.java")))
      <= snd (DiffFormatter.extract_diff_stats Examples.text_diff))%Z.
Proof.
  apply (format_to_github_style_counts Examples.text_diff (Some "App.java")).
  reflexivity.
Defined.

Lemma format_to_github_style_lines_witness :
  Forall (fun line =>
    PyStr.startswith line "Index:" = false
    /\ PyStr.startswith line "=====" = false
    /\ (PyStr.startswith line "---" = true -> line = "--- a/" ++ "App.java")
    /\ (PyStr.startswith line "+++" = true -> line = "+++ b/" ++ "App.java"))
    (PyStr.split PyStr.LF
       (DiffFormatter.format_to_github_style Examples.text_diff
          (Some "App.java"))).
Proof.
  apply (format_to_github_style_lines Examples.text_diff "App.java");
    reflexivity.
Defined.

Lemma parse_svn_date_trailing_Z_witness :
  SubversionWebhook.parse_svn_date (Examples.env None "" "") tt
    ("2025-08-18T03:23:30" ++ "Z")
  = SubversionWebhook.parse_svn_date (Examples.env None "" "") tt
      "2025-08-18T03:23:30".
Proof.
  apply (parse_svn_date_trailing_Z (Examples.env None "" "") tt
           "2025-08-18T03:23:30").
  reflexivity.
Defined.

Lemma get_commit_info_records_witness :
  exists ci st',
    SubversionWebhook.get_commit_info
      (Examples.env (Some Examples.info_xml) Examples.log_with_paths
         Examples.text_diff) "42" "github" Examples.st0
    = (st', Some (Some ci))
    /\ List.length (changed_files ci) = 3%nat
    /\ ci_revision ci = "42" /\ Forall sound_counts (changed_files ci).
Proof.
  eexists _, _. split; [vm_compute; reflexivity|].
  split; [reflexivity|].
  eapply (get_commit_info_records
            (Examples.env (Some Examples.info_xml) Examples.log_with_paths
               Examples.text_diff) "42" "github" Examples.st0).
  vm_compute. reflexivity.
Defined.

Lemma get_commit_info_commands_witness :
  exists ci st',
    SubversionWebhook.get_commit_info
      (Examples.env (Some Examples.info_xml) Examples.log_with_paths
         Examples.text_diff) "42" "github" Examples.st0
    = (st', Some (Some ci))
    /\ List.length (issued st') = 5%nat
    /\ exists ri,
         snd (SubversionWebhook.get_repo_info
                (Examples.env (Some Examples.info_xml)
                   Examples.log_with_paths Examples.text_diff)
                Examples.st0) = Some ri
         /\ issued st'
            = (issued Examples.st0
               ++ [ ["info"; "--xml"];
                    ["log"; "-v"; "-r";
                     if PyStr.truthy "42" then "42"
                     else given (SubversionWebhook.revision_of ri);
                     "--xml"] ]
               ++ map (commit_diff_cmd
                         (given (SubversionWebhook.root_url_of ri)))
                    (changed_files ci))%list.
Proof.
  eexists _, _. split; [vm_compute; reflexivity|].
  split; [reflexivity|].
  eapply (get_commit_info_commands
            (Examples.env (Some Examples.info_xml) Examples.log_with_paths
               Examples.text_diff) "42" "github" Examples.st0).
  vm_compute. reflexivity.
Defined.

Lemma get_working_copy_changes_records_witness :
  exists wc st',
    SubversionWebhook.get_working_copy_changes
      (Examples.env (Some Examples.info_xml) "" Examples.summarized_output)
      None "github" Examples.st0
    = (st', Some (Some wc))
    /\ List.length (wc_changed_files wc) = 1%nat
    /\ (exists ri,
          snd (SubversionWebhook.get_repo_info
                 (Examples.env (Some Examples.info_xml) ""
                    Examples.summarized_output) Examples.st0)
          = Some (Some ri)
          /\ wc_repo_uuid wc = uuid ri /\ base_revision wc = revision ri)
    /\ Forall (fun fc => sound_counts fc
                         /\ working_copy_record (base_revision wc) fc)
         (wc_changed_files wc).
Proof.
  eexists _, _. split; [vm_compute; reflexivity|].
  split; [reflexivity|].
  eapply (get_working_copy_changes_records
            (Examples.env (Some Examples.info_xml) ""
               Examples.summarized_output) None "github" Examples.st0).
  vm_compute. reflexivity.
Defined.

Lemma discovery_commands_witness :
  exists wc st',
    SubversionWebhook.get_working_copy_changes
      (Examples.env (Some Examples.info_xml) "" Examples.summarized_output)
      None "github" Examples.st0
    = (st', Some (Some wc))
    /\ issued st'
       = (issued Examples.st0
          ++ [["info"; "--xml"]; ["diff"; "--summarize"]]
          ++ map working_copy_diff_cmd (wc_changed_files wc))%list.
Proof.
  eexists _, _. split; [vm_compute; reflexivity|].
  eapply (discovery_commands
            (Examples.env (Some Examples.info_xml) ""
               Examples.summarized_output) "github" Examples.st0).
  vm_compute. reflexivity.
Defined.

Lemma handler_readers_on_missing_parts_witness :
  exists self,
    WebhookHandler.parse_event_data Examples.sample_event = Some self
    /\ CommitHandler.get_repository_info self <> None
    /\ (dict_get Examples.sample_event "repository" = None ->
        CommitHandler.get_repository_info self = Some JNull)
    /\ (dict_get Examples.sample_event "commits" = None
        \/ dict_get Examples.sample_event "commits" = Some (JList []) ->
        CommitHandler.get_commit_info self = Some JNull)
    /\ (dict_get Examples.sample_event "object_attributes" = None ->
        CommitHandler.get_event_attributes self = Some JNull)
    /\ (dict_get Examples.sample_event "svn_info" = None ->
        CommitHandler.get_svn_specific_info self = JDict []).
Proof.
  eexists. split; [vm_compute; reflexivity|].
  apply (handler_readers_on_missing_parts Examples.sample_event).
  vm_compute. reflexivity.
Defined.

Lemma create_pre_commit_hook_outcome_witness :
  exists r' ok,
    Hooks.create_pre_commit_hook wc_env accepting None
      (Some "fix the build") run0 = (r', ok)
    /\ ok = true /\ List.length (posted r') = 1%nat
    /\ ((posted r' = posted run0
         /\ (ok = true ->
             exists wc,
               snd (SubversionWebhook.get_working_copy_changes wc_env None
                      "github" (obj run0)) = Some (Some wc)
               /\ wc_changed_files wc = []))
        \/ (exists wc payload w,
              snd (SubversionWebhook.get_working_copy_changes wc_env None
                     "github" (obj run0)) = Some (Some wc)
              /\ wc_changed_files wc <> []
              /\ posted r' = (posted run0 ++ [("Pre-Commit", payload)])%list
              /\ dict_get payload "event_type" = Some (JStr "Pre-Commit")
              /\ dict_get payload "changes"
                 = Some (JList (map SubversionWebhook.change_entry
                                  (wc_changed_files wc)))
              /\ dict_get payload "commits" = Some (JList [])
              /\ ok = match snd (post accepting w
                                   (webhook_endpoint accepting) payload
                                   "Pre-Commit") with
                      | Some code => Hooks.accepted code
                      | None => false
                      end)).
Proof.
  eexists _, _. split; [vm_compute; reflexivity|].
  split; [reflexivity|]. split; [reflexivity|].
  apply (create_pre_commit_hook_outcome wc_env accepting None
           (Some "fix the build") run0).
  vm_compute. reflexivity.
Defined.

Lemma create_post_commit_hook_outcome_witness :
  exists r' ok,
    Hooks.create_post_commit_hook commit_env refusing (Some "42") run0
    = (r', ok)
    /\ ok = false /\ List.length (posted r') = 1%nat
    /\ ((posted r' = posted run0
         /\ (ok = true ->
             exists ri st1 ci,
               SubversionWebhook.get_repo_info commit_env (obj run0)
               = (st1, Some (Some ri))
               /\ snd (SubversionWebhook.get_commit_info commit_env
                         (if truthy_opt (Some "42") then given (Some "42")
                          else SVNRepoInfo_revision ri) "github" st1)
                  = Some (Some ci)
               /\ changed_files ci = []))
        \/ (exists ri st1 ci payload w,
              SubversionWebhook.get_repo_info commit_env (obj run0)
              = (st1, Some (Some ri))
              /\ snd (SubversionWebhook.get_commit_info commit_env
                        (if truthy_opt (Some "42") then given (Some "42")
                         else SVNRepoInfo_revision ri) "github" st1)
                 = Some (Some ci)
              /\ ci_revision ci
                 = (if truthy_opt (Some "42") then given (Some "42")
                    else SVNRepoInfo_revision ri)
              /\ changed_files ci <> []
              /\ posted r' = (posted run0 ++ [("Post-Commit", payload)])%list
              /\ dict_get payload "event_type" = Some (JStr "Post-Commit")
              /\ dict_get payload "changes"
                 = Some (JList (map SubversionWebhook.change_entry
                                  (changed_files ci)))
              /\ dict_get payload "commits"
                 = Some (JList [SubversionWebhook.commit_entry commit_env
                                  ri ci])
              /\ ok = match snd (post refusing w
                                   (webhook_endpoint refusing) payload
                                   "Post-Commit") with
                      | Some code => Hooks.accepted code
                      | None => false
                      end)).
Proof.
  eexists _, _. split; [vm_compute; reflexivity|].
  split; [reflexivity|]. split; [reflexivity|].
  apply (create_post_commit_hook_outcome commit_env refusing (Some "42")
           run0).
  vm_compute. reflexivity.
Defined.
